(** * Study tracker: engagement classifier and session aggregator

    A shallow embedding of

    - [apps/web/src/lib/cv/engagementEngine.ts] (class [EngagementEngine]),
    - [apps/web/src/store/sessionStore.ts] (the zustand store [useSessionStore]),
    - the down-sampling step of [apps/api/src/routes/sync.ts],

    together with the properties of the specification that concern them.

    Numbers.  A JavaScript [number] is modelled as a rational ([Q]): finite,
    never NaN, with exact arithmetic.  [Math.round] is [floor (x + 1/2)],
    which is what ECMAScript prescribes (ties go towards +infinity).  A [Date]
    is modelled by its time value ([getTime()], milliseconds since the epoch),
    and the readings of the wall clock ([new Date()], [Date.now()]) and of the
    id generator ([uuidv4()]) are explicit arguments of the operations that
    take them.

    The configuration of the engine is the one input no code checks.  The
    engine is therefore embedded twice: first with a configuration of finite
    numbers ([EngagementConfig]), then, in [Raw], with a configuration whose
    values may also be NaN, an infinity or [undefined]
    ([Raw.EngagementConfig]); the second is shown to coincide with the first
    on every configuration of finite numbers.

    The file has two parts: the definitions (the code, then the vocabulary of
    the properties and the sessions and frames they are tried on), and the
    lemmas and theorems. *)

From Stdlib Require Import QArith Qround ZArith List String Bool Arith Lia Lqa.
From Stdlib Require Import DecimalString.
Import ListNotations.

Open Scope Q_scope.

(* ------------------------------------------------------------------------- *)
(** ** JavaScript numbers and the few built-ins the code uses *)
(* ------------------------------------------------------------------------- *)

Module JS.

Abbreviation number := Q.

(** [a >= b], [a > b], [a < b] *)
Definition geb (a b : number) : bool := Qle_bool b a.
Definition gtb (a b : number) : bool := negb (Qle_bool a b).
Definition ltb (a b : number) : bool := negb (Qle_bool b a).

Definition Math_floor (x : number) : number := inject_Z (Qfloor x).
Definition Math_round (x : number) : number := inject_Z (Qfloor (x + (1#2))).
Definition Math_max (a b : number) : number := if Qle_bool a b then b else a.
Definition Math_min (a b : number) : number := if Qle_bool a b then a else b.

(** Truthiness of a value of type [number | undefined]: [undefined] and [0]
    are falsy, every other number is truthy. *)
Definition truthy (v : option number) : bool :=
  match v with
  | None => false
  | Some x => negb (Qeq_bool x 0)
  end.

(** [Array.prototype.includes] on an array of strings. *)
Definition includes (l : list string) (s : string) : bool :=
  existsb (String.eqb s) l.

(** [Array.prototype.filter] with the (element, index) callback. *)
Fixpoint filter_from {A} (f : A -> nat -> bool) (i : nat) (l : list A) : list A :=
  match l with
  | [] => []
  | x :: r => if f x i then x :: filter_from f (S i) r else filter_from f (S i) r
  end.
Definition Array_filter {A} (f : A -> nat -> bool) (l : list A) : list A :=
  filter_from f 0 l.

(** [Array.prototype.map] with the (element, index) callback. *)
Fixpoint map_from {A B} (f : A -> nat -> B) (i : nat) (l : list A) : list B :=
  match l with
  | [] => []
  | x :: r => f x i :: map_from f (S i) r
  end.
Definition Array_map {A B} (f : A -> nat -> B) (l : list A) : list B :=
  map_from f 0 l.

(** The length of an array, and an array index, as numbers. *)
Definition of_nat (n : nat) : number := inject_Z (Z.of_nat n).

(** An index interpolated in a template literal. *)
Definition index_to_string (n : nat) : string :=
  NilEmpty.string_of_uint (Nat.to_uint n).

End JS.

Import JS.

(* ------------------------------------------------------------------------- *)
(** ** engagementEngine.ts *)
(* ------------------------------------------------------------------------- *)

Inductive EngagementState := engaged | distracted | sleepy | away.

Definition EngagementState_eqb (a b : EngagementState) : bool :=
  match a, b with
  | engaged, engaged | distracted, distracted
  | sleepy, sleepy | away, away => true
  | _, _ => false
  end.

Record EngagementMetrics := {
  state : EngagementState;
  score : number;       (* 0-100 *)
  confidence : number;  (* 0-1 *)
  timestamp : number
}.

Record StateWeights := {
  w_engaged : number;
  w_distracted : number;
  w_sleepy : number;
  w_away : number
}.

(** A configuration of finite numbers.  [Raw.EngagementConfig] is the
    configuration with every value a caller can pass. *)
Record EngagementConfig := {
  eyeClosedDuration : number;  (* seconds *)
  yawnDuration : number;       (* seconds *)
  lookAwayDuration : number;   (* seconds *)
  baselineScore : number;
  stateWeights : StateWeights
}.

(** [Partial<EngagementConfig>] *)
Record PartialEngagementConfig := {
  p_eyeClosedDuration : option number;
  p_yawnDuration : option number;
  p_lookAwayDuration : option number;
  p_baselineScore : option number;
  p_stateWeights : option StateWeights
}.

Record StateHistory := {
  eyesClosedStart : option number;
  yawnStart : option number;
  lookAwayStart : option number;
  faceAbsentStart : option number
}.

(** [CVMetrics] and [HandMetrics], the two inputs of a tick. *)
Record CVMetrics := {
  facePresent : bool;
  eyesClosed : bool;
  yawning : bool;
  lookingAway : bool;
  expressionLabel : string;
  expressionScores : list (string * number);
  eyeAspectRatio : number;
  mouthOpenRatio : number
}.

Record HandMetrics := {
  handsPresent : bool;
  handsFidgeting : bool;
  handOverFace : bool;
  fidgetingIntensity : number
}.

(** The private fields of an [EngagementEngine] instance. *)
Record EngagementEngine := {
  config : EngagementConfig;
  stateHistory : StateHistory;
  scoreHistory : list number
}.

Definition maxHistoryLength : nat := 30.

Definition defaultConfig : EngagementConfig := {|
  eyeClosedDuration := 1.0;
  yawnDuration := 1.0;
  lookAwayDuration := 1.0;
  baselineScore := 70;
  stateWeights := {| w_engaged := 10; w_distracted := -15;
                     w_sleepy := -25; w_away := -20 |}
|}.

Definition or_default {A} (o : option A) (d : A) : A :=
  match o with Some a => a | None => d end.

(** The object spread [{ ...base, ...partial }] for a partial configuration
    whose present keys hold finite numbers; a key present with the value
    [undefined] is covered by [Raw.spread]. *)
Definition spread (base : EngagementConfig) (p : PartialEngagementConfig)
  : EngagementConfig := {|
  eyeClosedDuration := or_default (p_eyeClosedDuration p) (eyeClosedDuration base);
  yawnDuration := or_default (p_yawnDuration p) (yawnDuration base);
  lookAwayDuration := or_default (p_lookAwayDuration p) (lookAwayDuration base);
  baselineScore := or_default (p_baselineScore p) (baselineScore base);
  stateWeights := or_default (p_stateWeights p) (stateWeights base)
|}.

Definition emptyPartial : PartialEngagementConfig :=
  {| p_eyeClosedDuration := None; p_yawnDuration := None;
     p_lookAwayDuration := None; p_baselineScore := None;
     p_stateWeights := None |}.

Definition emptyHistory : StateHistory :=
  {| eyesClosedStart := None; yawnStart := None;
     lookAwayStart := None; faceAbsentStart := None |}.

(** [new EngagementEngine(config)] *)
Definition newEngine (p : PartialEngagementConfig) : EngagementEngine :=
  {| config := spread defaultConfig p;
     stateHistory := emptyHistory;
     scoreHistory := [] |}.

Definition updateConfig (e : EngagementEngine) (p : PartialEngagementConfig)
  : EngagementEngine :=
  {| config := spread (config e) p;
     stateHistory := stateHistory e;
     scoreHistory := scoreHistory e |}.

(** One timer of [updateStateHistory]:
    [if (cond) { if (!start) start = timestamp } else { start = undefined }]. *)
Definition track (cond : bool) (start : option number) (timestamp : number)
  : option number :=
  if cond
  then (if negb (truthy start) then Some timestamp else start)
  else None.

Definition updateStateHistory (h : StateHistory) (cvMetrics : CVMetrics)
    (timestamp : number) : StateHistory := {|
  eyesClosedStart := track (eyesClosed cvMetrics) (eyesClosedStart h) timestamp;
  yawnStart := track (yawning cvMetrics) (yawnStart h) timestamp;
  lookAwayStart := track (lookingAway cvMetrics) (lookAwayStart h) timestamp;
  faceAbsentStart := track (negb (facePresent cvMetrics)) (faceAbsentStart h) timestamp
|}.

(** [start ? (timestamp - start) / 1000 : 0] *)
Definition elapsed (start : option number) (timestamp : number) : number :=
  match start with
  | Some s => if truthy start then (timestamp - s) / 1000 else 0
  | None => 0
  end.

Definition negativeExpressions : list string :=
  ["sad"; "angry"; "fearful"; "disgusted"; "surprised"]%string.

Definition isNegativeExpression (expression : string) : bool :=
  includes negativeExpressions expression.

Definition determineEngagementState (cfg : EngagementConfig) (h : StateHistory)
    (cvMetrics : CVMetrics) (handMetrics : HandMetrics) (timestamp : number)
  : EngagementState :=
  (* Check for away state (highest priority) *)
  if negb (facePresent cvMetrics)
     && geb (elapsed (faceAbsentStart h) timestamp) 2.0
  then away
  else
    (* Check for sleepy state *)
    let eyesClosedFor := elapsed (eyesClosedStart h) timestamp in
    let yawnFor := elapsed (yawnStart h) timestamp in
    if geb eyesClosedFor (eyeClosedDuration cfg) || geb yawnFor (yawnDuration cfg)
    then sleepy
    else
      (* Check for distracted state *)
      let lookAwayFor := elapsed (lookAwayStart h) timestamp in
      let isDistracted :=
        geb lookAwayFor (lookAwayDuration cfg)
        || handsFidgeting handMetrics
        || handOverFace handMetrics
        || isNegativeExpression (expressionLabel cvMetrics) in
      if isDistracted then distracted
      else
        (* Default to engaged if face present and stable *)
        if facePresent cvMetrics
           && negb (lookingAway cvMetrics)
           && negb (eyesClosed cvMetrics)
        then engaged
        else distracted.

Definition weightOf (w : StateWeights) (s : EngagementState) : number :=
  match s with
  | engaged => w_engaged w
  | distracted => w_distracted w
  | sleepy => w_sleepy w
  | away => w_away w
  end.

(** [if (c) score += d] *)
Definition adjust (c : bool) (d : number) (x : number) : number :=
  if c then x + d else x.

(** [calculateEngagementScore] on a configuration of finite numbers;
    [Raw.calculateEngagementScore] is the function on any configuration. *)
Definition calculateEngagementScore (cfg : EngagementConfig)
    (st : EngagementState) (cvMetrics : CVMetrics) (handMetrics : HandMetrics)
  : number :=
  let s0 := baselineScore cfg in
  let s1 := s0 + weightOf (stateWeights cfg) st in
  let s2 := adjust (facePresent cvMetrics) 5 s1 in
  let s3 := adjust (String.eqb (expressionLabel cvMetrics) "happy"
                    || String.eqb (expressionLabel cvMetrics) "neutral") 5 s2 in
  let s4 := adjust (handsFidgeting handMetrics) (-10) s3 in
  let s5 := adjust (handOverFace handMetrics) (-15) s4 in
  let s6 := adjust (ltb (eyeAspectRatio cvMetrics) 0.15) (-20) s5 in
  let s7 := adjust (gtb (mouthOpenRatio cvMetrics) 0.8) (-15) s6 in
  Math_max 0 (Math_min 100 (Math_round s7)).

Definition calculateConfidence (cvMetrics : CVMetrics) (handMetrics : HandMetrics)
  : number :=
  let c0 := 0.5 in
  let c1 := adjust (facePresent cvMetrics) 0.3 c0 in
  let c2 := adjust (gtb (eyeAspectRatio cvMetrics) 0) 0.1 c1 in
  let c3 := adjust (negb (String.eqb (expressionLabel cvMetrics) "unknown")) 0.1 c2 in
  Math_max 0 (Math_min 1 c3).

(** [scoreHistory.push(score); if (length > maxHistoryLength) shift()] *)
Definition pushScore (hist : list number) (s : number) : list number :=
  let hist' := hist ++ [s] in
  if Nat.ltb maxHistoryLength (List.length hist') then tl hist' else hist'.

Definition processFrame (e : EngagementEngine) (cvMetrics : CVMetrics)
    (handMetrics : HandMetrics) (ts : number)
  : EngagementMetrics * EngagementEngine :=
  let h := updateStateHistory (stateHistory e) cvMetrics ts in
  let st := determineEngagementState (config e) h cvMetrics handMetrics ts in
  let sc := calculateEngagementScore (config e) st cvMetrics handMetrics in
  let cf := calculateConfidence cvMetrics handMetrics in
  ({| state := st; score := sc; confidence := cf; timestamp := ts |},
   {| config := config e; stateHistory := h;
      scoreHistory := pushScore (scoreHistory e) sc |}).

Definition reset (e : EngagementEngine) : EngagementEngine :=
  {| config := config e; stateHistory := emptyHistory; scoreHistory := [] |}.

(** A tick as the page drives it: the two detector readings and the clock. *)
Record Frame := {
  f_cv : CVMetrics;
  f_hands : HandMetrics;
  f_time : number
}.

(** The engine run over a sequence of ticks, collecting what each
    [processFrame] returns. *)
Fixpoint processFrames (e : EngagementEngine) (fs : list Frame)
  : list EngagementMetrics * EngagementEngine :=
  match fs with
  | [] => ([], e)
  | f :: r =>
      let '(m, e1) := processFrame e (f_cv f) (f_hands f) (f_time f) in
      let '(ms, e2) := processFrames e1 r in
      (m :: ms, e2)
  end.

(** What [extractMetrics] returns when the detector found no face
    ([if (!result) return {...}]). *)
Definition noFaceMetrics : CVMetrics := {|
  facePresent := false;
  eyesClosed := false;
  yawning := false;
  lookingAway := true;
  expressionLabel := "unknown";
  expressionScores := [];
  eyeAspectRatio := 0;
  mouthOpenRatio := 0
|}.

(** The hand reading the page uses when hand detection is off. *)
Definition noHandMetrics : HandMetrics := {|
  handsPresent := false;
  handsFidgeting := false;
  handOverFace := false;
  fidgetingIntensity := 0
|}.

(* ------------------------------------------------------------------------- *)
(** ** idb.ts: the records the store persists *)
(* ------------------------------------------------------------------------- *)

Record Session := {
  s_id : string;
  s_userId : string;
  s_startedAt : number;
  s_endedAt : number;
  durationSec : number;
  engagedSec : number;
  distractedSec : number;
  awaySec : number;
  sleepySec : number;
  yawnCount : number;
  distractedEpisodes : number;
  version : number
}.

Record TimeSeriesPoint := {
  pt_id : string;
  sessionId : string;
  tSec : number;
  pt_state : EngagementState;
  pt_score : number
}.

(** The [put] requests [saveSession] and [saveTimeSeries] issue, in order. *)
Inductive IdbPut :=
| PutSession (s : Session)
| PutPoint (p : TimeSeriesPoint).

(* ------------------------------------------------------------------------- *)
(** ** sessionStore.ts *)
(* ------------------------------------------------------------------------- *)

Record SessionData := {
  id : string;
  userId : string;
  startedAt : number;
  endedAt : option number;
  isActive : bool;
  isPaused : bool;
  duration : number;  (* seconds *)
  timeSeries : list EngagementMetrics;
  lastNudgeTime : option number;
  nudgeCount : number
}.

(** The store's state ([currentSession]) and the requests sent to IndexedDB. *)
Record World := {
  currentSession : option SessionData;
  idb : list IdbPut
}.

(** An action of the store either returns or throws; both leave a world. *)
Inductive Outcome (A : Type) :=
| Returned (a : A) (w : World)
| Thrown (msg : string) (w : World).
Arguments Returned {A} a w.
Arguments Thrown {A} msg w.

Definition Action (A : Type) := World -> Outcome A.

Definition ret {A} (a : A) : Action A := fun w => Returned a w.

Definition bind {A B} (m : Action A) (k : A -> Action B) : Action B :=
  fun w =>
    match m w with
    | Returned a w' => k a w'
    | Thrown msg w' => Thrown msg w'
    end.

Notation "x <- m ;; k" := (bind m (fun x => k))
  (at level 61, m at next level, right associativity).
Notation "m ;;; k" := (bind m (fun _ => k))
  (at level 61, right associativity).

(** [throw new Error(msg)] *)
Definition throw {A} (msg : string) : Action A := fun w => Thrown msg w.

(** [get().currentSession] and [set({ currentSession })] *)
Definition get : Action (option SessionData) :=
  fun w => Returned (currentSession w) w.
Definition set (cs : SessionData) : Action unit :=
  fun w => Returned tt {| currentSession := Some cs; idb := idb w |}.

Definition saveSession (s : Session) : Action unit :=
  fun w => Returned tt {| currentSession := currentSession w;
                          idb := idb w ++ [PutSession s] |}.
Definition saveTimeSeries (points : list TimeSeriesPoint) : Action unit :=
  fun w => Returned tt {| currentSession := currentSession w;
                          idb := idb w ++ List.map PutPoint points |}.

Definition NUDGE_COOLDOWN_MS : number := 60000.

Definition startSession (uuid : string) (now : number) (uid : string)
  : Action unit :=
  set {| id := uuid; userId := uid; startedAt := now; endedAt := None;
         isActive := true; isPaused := false; duration := 0;
         timeSeries := []; lastNudgeTime := None; nudgeCount := 0 |}.

(** [{ ...currentSession, isPaused: b }] *)
Definition with_isPaused (cs : SessionData) (b : bool) : SessionData :=
  {| id := id cs; userId := userId cs; startedAt := startedAt cs;
     endedAt := endedAt cs; isActive := isActive cs; isPaused := b;
     duration := duration cs; timeSeries := timeSeries cs;
     lastNudgeTime := lastNudgeTime cs; nudgeCount := nudgeCount cs |}.

Definition pauseSession : Action unit :=
  cur <- get ;;
  match cur with
  | None => ret tt
  | Some cs =>
      if negb (isActive cs) then ret tt
      else set (with_isPaused cs true)
  end.

Definition resumeSession : Action unit :=
  cur <- get ;;
  match cur with
  | None => ret tt
  | Some cs =>
      if negb (isActive cs) then ret tt
      else set (with_isPaused cs false)
  end.

(** [{ ...currentSession, timeSeries, duration }] *)
Definition with_timeSeries (cs : SessionData)
    (ts : list EngagementMetrics) (d : number) : SessionData :=
  {| id := id cs; userId := userId cs; startedAt := startedAt cs;
     endedAt := endedAt cs; isActive := isActive cs; isPaused := isPaused cs;
     duration := d; timeSeries := ts;
     lastNudgeTime := lastNudgeTime cs; nudgeCount := nudgeCount cs |}.

Definition addMetrics (metrics : EngagementMetrics) : Action unit :=
  cur <- get ;;
  match cur with
  | None => ret tt
  | Some cs =>
      if negb (isActive cs) || isPaused cs then ret tt
      else
        let updatedTimeSeries := timeSeries cs ++ [metrics] in
        let d := of_nat (List.length updatedTimeSeries) in
        set (with_timeSeries cs updatedTimeSeries d)
  end.

(** [{ ...currentSession, lastNudgeTime: Date.now(), nudgeCount: nudgeCount + 1 }] *)
Definition with_nudge (cs : SessionData) (now : number) : SessionData :=
  {| id := id cs; userId := userId cs; startedAt := startedAt cs;
     endedAt := endedAt cs; isActive := isActive cs; isPaused := isPaused cs;
     duration := duration cs; timeSeries := timeSeries cs;
     lastNudgeTime := Some now; nudgeCount := nudgeCount cs + 1 |}.

Definition recordNudge (now : number) : Action unit :=
  cur <- get ;;
  match cur with
  | None => ret tt
  | Some cs => set (with_nudge cs now)
  end.

Record Stats := {
  st_engaged : number;
  st_distracted : number;
  st_sleepy : number;
  st_away : number
}.

Definition zeroStats : Stats :=
  {| st_engaged := 0; st_distracted := 0; st_sleepy := 0; st_away := 0 |}.

(** [acc[point.state]++] *)
Definition bump (acc : Stats) (point : EngagementMetrics) : Stats :=
  match state point with
  | engaged => {| st_engaged := st_engaged acc + 1; st_distracted := st_distracted acc;
                  st_sleepy := st_sleepy acc; st_away := st_away acc |}
  | distracted => {| st_engaged := st_engaged acc; st_distracted := st_distracted acc + 1;
                     st_sleepy := st_sleepy acc; st_away := st_away acc |}
  | sleepy => {| st_engaged := st_engaged acc; st_distracted := st_distracted acc;
                 st_sleepy := st_sleepy acc + 1; st_away := st_away acc |}
  | away => {| st_engaged := st_engaged acc; st_distracted := st_distracted acc;
               st_sleepy := st_sleepy acc; st_away := st_away acc + 1 |}
  end.

(** The body of [getEngagementStats] once [currentSession] is read. *)
Definition engagementStatsOf (cur : option SessionData) : Stats :=
  match cur with
  | None => zeroStats
  | Some cs =>
      if Nat.eqb (List.length (timeSeries cs)) 0 then zeroStats
      else
        let total := of_nat (List.length (timeSeries cs)) in
        let counts := fold_left bump (timeSeries cs) zeroStats in
        {| st_engaged := Math_round ((st_engaged counts / total) * 100);
           st_distracted := Math_round ((st_distracted counts / total) * 100);
           st_sleepy := Math_round ((st_sleepy counts / total) * 100);
           st_away := Math_round ((st_away counts / total) * 100) |}
  end.

Definition getEngagementStats : Action Stats :=
  cur <- get ;; ret (engagementStatsOf cur).

Definition shouldShowNudge (currentTime : number) : Action bool :=
  cur <- get ;;
  match cur with
  | None => ret true
  | Some cs =>
      match lastNudgeTime cs with
      | Some t =>
          if negb (truthy (lastNudgeTime cs)) then ret true
          else ret (geb (currentTime - t) NUDGE_COOLDOWN_MS)
      | None => ret true
      end
  end.

(** The [forEach] of [stopSession]: the pair is
    [(distractedEpisodes, inDistractedEpisode)]. *)
Definition episodeStep (acc : number * bool) (point : EngagementMetrics)
  : number * bool :=
  let '(episodes, inDistractedEpisode) := acc in
  let isDistracted :=
    EngagementState_eqb (state point) distracted
    || EngagementState_eqb (state point) sleepy in
  if isDistracted && negb inDistractedEpisode then (episodes + 1, true)
  else if negb isDistracted then (episodes, false)
  else (episodes, inDistractedEpisode).

Definition countEpisodes (ts : list EngagementMetrics) : number :=
  fst (fold_left episodeStep ts (0, false)).

(** The [sessionRecord] literal of [stopSession]. *)
Definition sessionRecord (cs : SessionData) (ended : number) (stats : Stats)
  : Session :=
  let d := Math_floor ((ended - startedAt cs) / 1000) in
  {| s_id := id cs;
     s_userId := userId cs;
     s_startedAt := startedAt cs;
     s_endedAt := ended;
     durationSec := d;
     engagedSec := Math_round (st_engaged stats * d / 100);
     distractedSec := Math_round (st_distracted stats * d / 100);
     awaySec := Math_round (st_away stats * d / 100);
     sleepySec := Math_round (st_sleepy stats * d / 100);
     yawnCount :=
       of_nat (List.length
                 (List.filter (fun p => EngagementState_eqb (state p) sleepy)
                              (timeSeries cs)));
     distractedEpisodes := countEpisodes (timeSeries cs);
     version := 1 |}.

(** The [timeSeriesPoints] array of [stopSession]. *)
Definition timeSeriesPoints (cs : SessionData) : list TimeSeriesPoint :=
  Array_map
    (fun point index =>
       {| pt_id := (id cs ++ "-" ++ index_to_string index)%string;
          sessionId := id cs;
          tSec := of_nat index;
          pt_state := state point;
          pt_score := score point |})
    (timeSeries cs).

(** [{ ...currentSession, endedAt, isActive: false, duration }] *)
Definition with_stopped (cs : SessionData) (ended d : number) : SessionData :=
  {| id := id cs; userId := userId cs; startedAt := startedAt cs;
     endedAt := Some ended; isActive := false; isPaused := isPaused cs;
     duration := d; timeSeries := timeSeries cs;
     lastNudgeTime := lastNudgeTime cs; nudgeCount := nudgeCount cs |}.

(** [stopSession]; [now] is the reading of [new Date()]. *)
Definition stopSession (now : number) : Action string :=
  cur <- get ;;
  match cur with
  | None => throw "No active session"
  | Some cs =>
      stats <- getEngagementStats ;;
      saveSession (sessionRecord cs now stats) ;;;
      saveTimeSeries (timeSeriesPoints cs) ;;;
      set (with_stopped cs now (Math_floor ((now - startedAt cs) / 1000))) ;;;
      ret (id cs)
  end.

(* ------------------------------------------------------------------------- *)
(** ** routes/sync.ts: POST /sync/sessions *)
(* ------------------------------------------------------------------------- *)

(** An element of [timeSeries] after [syncSessionSchema.parse]: the schema
    keeps [tSec], [state] and [score] and strips the other keys. *)
Record SyncPoint := {
  sy_tSec : number;
  sy_state : EngagementState;
  sy_score : number
}.

Definition parsePoint (p : TimeSeriesPoint) : SyncPoint :=
  {| sy_tSec := tSec p; sy_state := pt_state p; sy_score := pt_score p |}.

(** The callback [(_, index) => index % 5 === 0]. *)
Definition every5th {A} : A -> nat -> bool :=
  fun _ index => Nat.eqb (index mod 5) 0.

(** [validatedData.timeSeries.filter((_, index) => index % 5 === 0)] *)
Definition downsampledTimeSeries (ts : list SyncPoint) : list SyncPoint :=
  Array_filter every5th ts.

(* ------------------------------------------------------------------------- *)
(** ** Vocabulary of the properties *)
(* ------------------------------------------------------------------------- *)

Definition initialWorld : World := {| currentSession := None; idb := [] |}.

(** The record and the world [stopSession] leaves for a session [cs]. *)
Definition stopRecord (cs : SessionData) (now : number) : Session :=
  sessionRecord cs now (engagementStatsOf (Some cs)).

Definition stopWorld (w : World) (cs : SessionData) (now : number) : World :=
  {| currentSession :=
       Some (with_stopped cs now (Math_floor ((now - startedAt cs) / 1000)));
     idb := (idb w ++ [PutSession (stopRecord cs now)])
              ++ List.map PutPoint (timeSeriesPoints cs) |}.

(** The points among the requests sent to IndexedDB. *)
Definition savedPoints (log : list IdbPut) : list TimeSeriesPoint :=
  flat_map (fun r => match r with PutPoint p => [p] | PutSession _ => [] end) log.

Definition savedSessions (log : list IdbPut) : list Session :=
  flat_map (fun r => match r with PutSession s => [s] | PutPoint _ => [] end) log.

(** A sample with a given state, score and timestamp. *)
Definition sample (s : EngagementState) (sc : number) (t : number)
  : EngagementMetrics :=
  {| state := s; score := sc; confidence := 1; timestamp := t |}.

(** A session to try the store on: started at 0 ms, two samples. *)
Definition twoTicks : World :=
  {| currentSession :=
       Some {| id := "s1"; userId := "u1"; startedAt := 0; endedAt := None;
               isActive := true; isPaused := false; duration := 2;
               timeSeries := [sample engaged 85 1000; sample distracted 60 2000];
               lastNudgeTime := None; nudgeCount := 0 |};
     idb := [] |}.

(** An action reports an error to its caller when it throws. *)
Definition reportsError {A} (a : Action A) (w : World) : Prop :=
  exists msg w', a w = Thrown msg w'.

(** A point is distracting when its state is [distracted] or [sleepy]. *)
Definition distracting (m : EngagementMetrics) : Prop :=
  state m = distracted \/ state m = sleepy.

Definition calm (m : EngagementMetrics) : Prop :=
  state m = engaged \/ state m = away.

(** [startsCalm l]: [l] does not begin with a distracting point. *)
Definition startsCalm (l : list EngagementMetrics) : Prop :=
  match l with
  | [] => True
  | m :: _ => calm m
  end.

(** [hasRuns k l]: [l] is [k] maximal runs of distracting points, separated
    and possibly surrounded by calm points. *)
Inductive hasRuns : nat -> list EngagementMetrics -> Prop :=
| runs_calm : forall gap,
    Forall calm gap -> hasRuns 0 gap
| runs_next : forall k gap run rest,
    Forall calm gap ->
    run <> [] -> Forall distracting run ->
    startsCalm rest ->
    hasRuns k rest ->
    hasRuns (S k) (gap ++ run ++ rest).

(** Three distracting points, two calm, one sleepy, one away, two distracted:
    three runs of lengths 3, 1 and 2. *)
Definition threeRuns : World :=
  {| currentSession :=
       Some {| id := "s2"; userId := "u1"; startedAt := 0; endedAt := None;
               isActive := true; isPaused := false; duration := 9;
               timeSeries :=
                 [sample distracted 50 1000; sample sleepy 40 2000;
                  sample distracted 50 3000; sample engaged 85 4000;
                  sample engaged 85 5000; sample sleepy 40 6000;
                  sample away 45 7000; sample distracted 50 8000;
                  sample distracted 50 9000];
               lastNudgeTime := None; nudgeCount := 0 |};
     idb := [] |}.

(** The face-absent duration the engine measures at a tick, in seconds: the
    time since [faceAbsentStart], read after the tick's update of the timers. *)
Definition faceAbsentDuration (e : EngagementEngine) (ts : number) : number :=
  elapsed (faceAbsentStart (stateHistory e)) ts.

(** A frame in which everything else points to [sleepy] and [distracted]. *)
Definition absentAndEverythingElse (t : number) : Frame :=
  {| f_cv := {| facePresent := false; eyesClosed := true; yawning := true;
                lookingAway := true; expressionLabel := "angry";
                expressionScores := []; eyeAspectRatio := 0.1;
                mouthOpenRatio := 0.9 |};
     f_hands := {| handsPresent := true; handsFidgeting := true;
                   handOverFace := true; fidgetingIntensity := 1 |};
     f_time := t |}.

(** The ticks of the scenario: no face detected, then a face back, looking
    at the screen with open eyes. *)
Definition absentFrame (t : number) : Frame :=
  {| f_cv := noFaceMetrics; f_hands := noHandMetrics; f_time := t |}.

Definition recoveredFrame (t : number) : Frame :=
  {| f_cv := {| facePresent := true; eyesClosed := false; yawning := false;
                lookingAway := false; expressionLabel := "neutral";
                expressionScores := []; eyeAspectRatio := 0.3;
                mouthOpenRatio := 0.1 |};
     f_hands := noHandMetrics;
     f_time := t |}.

Definition statesOf (fs : list Frame) : list EngagementState :=
  List.map state (fst (processFrames (newEngine emptyPartial) fs)).

Definition sumStats (s : Stats) : number :=
  st_engaged s + st_distracted s + st_sleepy s + st_away s.

Definition sumSeconds (r : Session) : number :=
  engagedSec r + distractedSec r + sleepySec r + awaySec r.

(** A session of 1000 samples, one per second: 982 engaged and 6 of each of
    the other three states. *)
Definition thousandTicks : World :=
  {| currentSession :=
       Some {| id := "s3"; userId := "u1"; startedAt := 0; endedAt := None;
               isActive := true; isPaused := false; duration := 1000;
               timeSeries :=
                 repeat (sample engaged 85 0) 982
                 ++ repeat (sample distracted 50 0) 6
                 ++ repeat (sample sleepy 40 0) 6
                 ++ repeat (sample away 45 0) 6;
               lastNudgeTime := None; nudgeCount := 0 |};
     idb := [] |}.

(** The calls a page makes on the store, with the clock and id readings each
    one takes. *)
Inductive Call :=
| CallStart (uuid : string) (now : number) (uid : string)
| CallPause
| CallResume
| CallAddMetrics (metrics : EngagementMetrics)
| CallRecordNudge (now : number)
| CallStop (now : number).

Definition worldAfter {A} (o : Outcome A) : World :=
  match o with
  | Returned _ w => w
  | Thrown _ w => w
  end.

Definition call (w : World) (c : Call) : World :=
  match c with
  | CallStart uuid now uid => worldAfter (startSession uuid now uid w)
  | CallPause => worldAfter (pauseSession w)
  | CallResume => worldAfter (resumeSession w)
  | CallAddMetrics m => worldAfter (addMetrics m w)
  | CallRecordNudge now => worldAfter (recordNudge now w)
  | CallStop now => worldAfter (stopSession now w)
  end.

Definition run (calls : list Call) : World := fold_left call calls initialWorld.

(** What the history of calls says, independently of the store: whether a
    session was started, and the times of the nudges recorded in the current
    session, oldest first. *)
Definition historyStep (g : bool * list number) (c : Call) : bool * list number :=
  match c with
  | CallStart _ _ _ => (true, [])
  | CallRecordNudge now => if fst g then (true, snd g ++ [now]) else g
  | _ => g
  end.

Definition history (calls : list Call) : bool * list number :=
  fold_left historyStep calls (false, []).

Definition nudgesRecorded (calls : list Call) : list number :=
  snd (history calls).

Definition lastOf (l : list number) : option number :=
  match rev l with
  | [] => None
  | x :: _ => Some x
  end.

(** The store agrees with the history of calls. *)
Definition agrees (g : bool * list number) (w : World) : Prop :=
  match currentSession w with
  | None => g = (false, [])
  | Some cs => fst g = true /\ lastNudgeTime cs = lastOf (snd g)
  end.

(* ------------------------------------------------------------------------- *)
(** ** engagementEngine.ts: the trend queries *)
(* ------------------------------------------------------------------------- *)

From Stdlib Require Import Sorted DecimalNat.

(** [ToIntegerOrInfinity] on a finite number: truncation towards zero. *)
Definition ToInteger (x : number) : Z :=
  if Qle_bool 0 x then Qfloor x else Qceiling x.

(** How [Array.prototype.slice] reads an index argument: a negative one
    counts from the end, and both ends are clamped to the array. *)
Definition relativeIndex (len : nat) (x : number) : nat :=
  let r := ToInteger x in
  if (r <? 0)%Z
  then Z.to_nat (Z.max (Z.of_nat len + r) 0)
  else Z.to_nat (Z.min r (Z.of_nat len)).

(** [l.slice(start, stop)]; [stop = None] is [l.slice(start)]. *)
Definition Array_slice {A} (l : list A) (start : number) (stop : option number)
  : list A :=
  let k := relativeIndex (List.length l) start in
  let final :=
    match stop with
    | None => List.length l
    | Some e => relativeIndex (List.length l) e
    end in
  firstn (final - k) (skipn k l).

(** A division whose result is used as a number: [None] stands for the
    result of dividing by zero (NaN for 0 / 0), which [Q] does not have. *)
Definition divide (a b : number) : option number :=
  if Qeq_bool b 0 then None else Some (a / b).

(** [scores.reduce((sum, score) => sum + score, 0)] *)
Definition sumScores (scores : list number) : number :=
  fold_left (fun sum sc => sum + sc) scores 0.

(** [getAverageScore(windowSeconds)]; the default argument is 10. *)
Definition getAverageScore (e : EngagementEngine) (windowSeconds : number)
  : option number :=
  let windowSize :=
    Math_min windowSeconds (of_nat (List.length (scoreHistory e))) in
  if Qeq_bool windowSize 0 then Some (baselineScore (config e))
  else
    let recentScores := Array_slice (scoreHistory e) (- windowSize) None in
    divide (sumScores recentScores) (of_nat (List.length recentScores)).

Inductive Trend := improving | declining | stable.

(** [getTrendDirection(windowSeconds)].  A comparison with NaN is false, so a
    half without an average gives [stable]. *)
Definition getTrendDirection (e : EngagementEngine) (windowSeconds : number)
  : Trend :=
  let windowSize :=
    Math_min windowSeconds (of_nat (List.length (scoreHistory e))) in
  if ltb windowSize 5 then stable
  else
    let recentScores := Array_slice (scoreHistory e) (- windowSize) None in
    let half := Math_floor (windowSize / 2) in
    let firstHalf := Array_slice recentScores 0 (Some half) in
    let secondHalf := Array_slice recentScores half None in
    match divide (sumScores firstHalf) (of_nat (List.length firstHalf)),
          divide (sumScores secondHalf) (of_nat (List.length secondHalf)) with
    | Some firstAvg, Some secondAvg =>
        let diff := secondAvg - firstAvg in
        if gtb diff 5 then improving
        else if ltb diff (-5) then declining
        else stable
    | _, _ => stable
    end.

(* ------------------------------------------------------------------------- *)
(** ** routes/sync.ts: the average score of an upload *)
(* ------------------------------------------------------------------------- *)

(** The refinement [z.number().min(0).max(100)] of a point's score. *)
Definition scoreInSchema (p : SyncPoint) : bool :=
  geb (sy_score p) 0 && geb 100 (sy_score p).

(** [timeSeries.length > 0 ? timeSeries.reduce(...) / timeSeries.length : 0] *)
Definition avgEngagementScore (ts : list SyncPoint) : number :=
  if Nat.ltb 0 (List.length ts)
  then fold_left (fun sum point => sum + sy_score point) ts 0
       / of_nat (List.length ts)
  else 0.

(** The value stored in the aggregate: [Math.round(avgEngagementScore)]. *)
Definition storedAvgEngagementScore (ts : list SyncPoint) : number :=
  Math_round (avgEngagementScore ts).

(* ------------------------------------------------------------------------- *)
(** ** pages/Summary.tsx: the tips shown for a saved session *)
(* ------------------------------------------------------------------------- *)

Definition tipExcellent : string :=
  "Excellent focus! You maintained high engagement throughout the session.".
Definition tipGood : string :=
  "Good focus overall. Try to minimize distractions for even better results.".
Definition tipShorter : string :=
  "Consider shorter study sessions or taking breaks to improve focus.".
Definition tipPomodoro : string :=
  "For sessions over an hour, try the Pomodoro technique: 25 minutes study, 5 minutes break.".
Definition tipDistractions : string :=
  "Multiple distractions detected. Try putting your phone in another room or using website blockers.".
Definition tipFatigue : string :=
  "You showed signs of fatigue. Ensure you're well-rested and stay hydrated while studying.".

(** [if (c) tips.push(tip)] *)
Definition pushIf (c : bool) (tip : string) (tips : list string) : list string :=
  if c then tips ++ [tip] else tips.

(** [generateTips(session, timeSeries)]: [Some tips] is the call
    [setTips(tips)]; [None] is the early return, which sets nothing. *)
Definition generateTips (session : Session) (points : list TimeSeriesPoint)
  : option (list string) :=
  let totalDuration := durationSec session in
  if Qeq_bool totalDuration 0 then None
  else
    let focusPercentage := (engagedSec session / totalDuration) * 100 in
    let tips1 :=
      [if geb focusPercentage 80 then tipExcellent
       else if geb focusPercentage 60 then tipGood
       else tipShorter] in
    let tips2 := pushIf (gtb totalDuration 3600) tipPomodoro tips1 in
    let tips3 := pushIf (gtb (distractedEpisodes session) 5) tipDistractions tips2 in
    let tips4 := pushIf (gtb (sleepySec session) (totalDuration * 0.2)) tipFatigue tips3 in
    Some (Array_slice tips4 0 (Some 3)).

(* ------------------------------------------------------------------------- *)
(** ** Vocabulary of the further properties *)
(* ------------------------------------------------------------------------- *)

(** Scores that never go down, and scores that never go up. *)
Definition nondecreasing (l : list number) : Prop :=
  StronglySorted (fun a b => a <= b) l.

Definition nonincreasing (l : list number) : Prop :=
  StronglySorted (fun a b => b <= a) l.

(** The scores [processFrame] returned over a run, oldest first. *)
Definition scoresOf (ms : list EngagementMetrics) : list number :=
  List.map score ms.

(** The last [n] elements of a list. *)
Definition lastN {A} (n : nat) (l : list A) : list A :=
  skipn (List.length l - n) l.

(** A frame with the eyes closed and the face in view. *)
Definition eyesClosedFrame (t : number) : Frame :=
  {| f_cv := {| facePresent := true; eyesClosed := true; yawning := false;
                lookingAway := false; expressionLabel := "neutral";
                expressionScores := []; eyeAspectRatio := 0.1;
                mouthOpenRatio := 0.1 |};
     f_hands := noHandMetrics;
     f_time := t |}.

(** The number of distracted-or-sleepy points of a series. *)
Definition countDistracting (ts : list EngagementMetrics) : nat :=
  List.length
    (List.filter (fun m => EngagementState_eqb (state m) distracted
                           || EngagementState_eqb (state m) sleepy) ts).

Definition countSleepy (ts : list EngagementMetrics) : nat :=
  List.length (List.filter (fun m => EngagementState_eqb (state m) sleepy) ts).

(** The calls of the page's timer and of the pause button. *)
Definition isTickOrPause (c : Call) : bool :=
  match c with
  | CallPause | CallResume | CallAddMetrics _ => true
  | _ => false
  end.

(** The store after a list of calls, from a given world. *)
Definition runFrom (w : World) (calls : list Call) : World :=
  fold_left call calls w.

(** The two facts about the session that every call keeps. *)
Definition durationCountsTicks (w : World) : Prop :=
  forall cs, currentSession w = Some cs -> isActive cs = true ->
             duration cs = of_nat (List.length (timeSeries cs)).

Definition countsNudges (g : bool * list number) (w : World) : Prop :=
  forall cs, currentSession w = Some cs ->
             nudgeCount cs = of_nat (List.length (snd g)).

(** A running session with a sample already recorded. *)
Definition oneTick : SessionData :=
  {| id := "s6"; userId := "u1"; startedAt := 1735732800000; endedAt := None;
     isActive := true; isPaused := false; duration := 1;
     timeSeries := [sample engaged 85 1735732801000];
     lastNudgeTime := None; nudgeCount := 0 |}.

(** A saved session of two hours with many episodes and much sleepiness. *)
Definition longTiredSession : Session :=
  {| s_id := "s5"; s_userId := "u1"; s_startedAt := 0; s_endedAt := 7200000;
     durationSec := 7200; engagedSec := 3600; distractedSec := 1000;
     awaySec := 600; sleepySec := 2000; yawnCount := 2000;
     distractedEpisodes := 9; version := 1 |}.

(* ------------------------------------------------------------------------- *)
(** ** Numbers a caller can pass: NaN, the infinities, undefined *)
(* ------------------------------------------------------------------------- *)

(** The configuration of the engine is supplied by the caller and never
    checked, so its values range over everything the declared type [number]
    and the optional keys of [Partial<...>] admit.  [JSNumber.t] is such a
    number (finite ones exact, as everywhere in this file); [JSNumber.value]
    adds [undefined]. *)
Module JSNumber.

Inductive t := Fin (q : Q) | NaN | PosInf | NegInf.

Inductive value := Undefined | Num (n : t).

(** [ToNumber]: what arithmetic and comparison make of a value. *)
Definition ToNumber (v : value) : t :=
  match v with
  | Undefined => NaN
  | Num n => n
  end.

(** [a + b] *)
Definition add (a b : t) : t :=
  match a, b with
  | NaN, _ | _, NaN => NaN
  | Fin x, Fin y => Fin (x + y)
  | PosInf, NegInf | NegInf, PosInf => NaN
  | PosInf, _ | _, PosInf => PosInf
  | NegInf, _ | _, NegInf => NegInf
  end.

(** [a >= b]: false as soon as one side is NaN. *)
Definition ge (a b : t) : bool :=
  match a, b with
  | NaN, _ | _, NaN => false
  | Fin x, Fin y => Qle_bool y x
  | PosInf, _ => true
  | _, NegInf => true
  | _, _ => false
  end.

(** [Math.round], [Math.min] and [Math.max]: NaN in, NaN out. *)
Definition round (a : t) : t :=
  match a with
  | Fin x => Fin (Math_round x)
  | other => other
  end.

Definition min (a b : t) : t :=
  match a, b with
  | NaN, _ | _, NaN => NaN
  | Fin x, Fin y => Fin (Math_min x y)
  | NegInf, _ | _, NegInf => NegInf
  | PosInf, y => y
  | x, PosInf => x
  end.

Definition max (a b : t) : t :=
  match a, b with
  | NaN, _ | _, NaN => NaN
  | Fin x, Fin y => Fin (Math_max x y)
  | PosInf, _ | _, PosInf => PosInf
  | NegInf, y => y
  | x, NegInf => x
  end.

(** [a / b] for a divisor that is an array length (never negative zero). *)
Definition div (a b : t) : t :=
  match a, b with
  | NaN, _ | _, NaN => NaN
  | Fin x, Fin y =>
      if Qeq_bool y 0
      then (if Qeq_bool x 0 then NaN
            else if Qle_bool 0 x then PosInf else NegInf)
      else Fin (x / y)
  | Fin _, _ => Fin 0
  | PosInf, Fin y => if Qle_bool 0 y then PosInf else NegInf
  | NegInf, Fin y => if Qle_bool 0 y then NegInf else PosInf
  | _, _ => NaN
  end.

(** A number that is a whole number between 0 and 100. *)
Definition wholePercent (a : t) : Prop :=
  exists z : Z, a = Fin (inject_Z z) /\ (0 <= z <= 100)%Z.

End JSNumber.

(* ------------------------------------------------------------------------- *)
(** ** engagementEngine.ts with an unchecked configuration *)
(* ------------------------------------------------------------------------- *)

(** The engine once more, this time with a configuration that holds whatever
    the caller passed.  The samples, the timestamps and the timers are as
    above; only what depends on the configuration is restated: the
    constructor's spread, the thresholds of [determineEngagementState], and
    the score with the history and the average built on it.  On a
    configuration of finite numbers it is the engine above
    ([Raw_processFrames_refines]). *)
Module Raw.

Record StateWeights := {
  w_engaged : JSNumber.t;
  w_distracted : JSNumber.t;
  w_sleepy : JSNumber.t;
  w_away : JSNumber.t
}.

(** The [config] field.  A key of [Partial<EngagementConfig>] may be present
    with the value [undefined], and the spread then stores [undefined]:
    for the four numbers that is [JSNumber.Undefined], for [stateWeights] it
    is [None]. *)
Record EngagementConfig := {
  eyeClosedDuration : JSNumber.value;
  yawnDuration : JSNumber.value;
  lookAwayDuration : JSNumber.value;
  baselineScore : JSNumber.value;
  stateWeights : option StateWeights
}.

(** [Partial<EngagementConfig>]: for each key, [None] when the key is absent
    and [Some v] when it is present with value [v]. *)
Record PartialEngagementConfig := {
  p_eyeClosedDuration : option JSNumber.value;
  p_yawnDuration : option JSNumber.value;
  p_lookAwayDuration : option JSNumber.value;
  p_baselineScore : option JSNumber.value;
  p_stateWeights : option (option StateWeights)
}.

Record EngagementMetrics := {
  state : EngagementState;
  score : JSNumber.t;
  confidence : number;
  timestamp : number
}.

Record EngagementEngine := {
  config : EngagementConfig;
  stateHistory : StateHistory;
  scoreHistory : list JSNumber.t
}.

Definition defaultConfig : EngagementConfig := {|
  eyeClosedDuration := JSNumber.Num (JSNumber.Fin 1.0);
  yawnDuration := JSNumber.Num (JSNumber.Fin 1.0);
  lookAwayDuration := JSNumber.Num (JSNumber.Fin 1.0);
  baselineScore := JSNumber.Num (JSNumber.Fin 70);
  stateWeights :=
    Some {| w_engaged := JSNumber.Fin 10; w_distracted := JSNumber.Fin (-15);
            w_sleepy := JSNumber.Fin (-25); w_away := JSNumber.Fin (-20) |}
|}.

(** The object spread [{ ...base, ...partial }]: every key present in
    [partial] overwrites, also with [undefined]. *)
Definition spread (base : EngagementConfig) (p : PartialEngagementConfig)
  : EngagementConfig := {|
  eyeClosedDuration := or_default (p_eyeClosedDuration p) (eyeClosedDuration base);
  yawnDuration := or_default (p_yawnDuration p) (yawnDuration base);
  lookAwayDuration := or_default (p_lookAwayDuration p) (lookAwayDuration base);
  baselineScore := or_default (p_baselineScore p) (baselineScore base);
  stateWeights := or_default (p_stateWeights p) (stateWeights base)
|}.

(** The argument of [new EngagementEngine()]: no key at all. *)
Definition emptyPartial : PartialEngagementConfig :=
  {| p_eyeClosedDuration := None; p_yawnDuration := None;
     p_lookAwayDuration := None; p_baselineScore := None;
     p_stateWeights := None |}.

(** [new EngagementEngine(config)] *)
Definition newEngine (p : PartialEngagementConfig) : EngagementEngine :=
  {| config := spread defaultConfig p;
     stateHistory := emptyHistory;
     scoreHistory := [] |}.

Definition updateConfig (e : EngagementEngine) (p : PartialEngagementConfig)
  : EngagementEngine :=
  {| config := spread (config e) p;
     stateHistory := stateHistory e;
     scoreHistory := scoreHistory e |}.

(** [duration >= this.config.threshold] for a measured duration. *)
Definition reached (measured : number) (threshold : JSNumber.value) : bool :=
  JSNumber.ge (JSNumber.Fin measured) (JSNumber.ToNumber threshold).

Definition determineEngagementState (cfg : EngagementConfig) (h : StateHistory)
    (cvMetrics : CVMetrics) (handMetrics : HandMetrics) (ts : number)
  : EngagementState :=
  if negb (facePresent cvMetrics)
     && geb (elapsed (faceAbsentStart h) ts) 2.0
  then away
  else
    let eyesClosedFor := elapsed (eyesClosedStart h) ts in
    let yawnFor := elapsed (yawnStart h) ts in
    if reached eyesClosedFor (eyeClosedDuration cfg)
       || reached yawnFor (yawnDuration cfg)
    then sleepy
    else
      let lookAwayFor := elapsed (lookAwayStart h) ts in
      let isDistracted :=
        reached lookAwayFor (lookAwayDuration cfg)
        || handsFidgeting handMetrics
        || handOverFace handMetrics
        || isNegativeExpression (expressionLabel cvMetrics) in
      if isDistracted then distracted
      else
        if facePresent cvMetrics
           && negb (lookingAway cvMetrics)
           && negb (eyesClosed cvMetrics)
        then engaged
        else distracted.

(** [this.config.stateWeights[state]] on a defined [stateWeights]. *)
Definition weightOf (w : StateWeights) (s : EngagementState) : JSNumber.t :=
  match s with
  | engaged => w_engaged w
  | distracted => w_distracted w
  | sleepy => w_sleepy w
  | away => w_away w
  end.

(** [if (c) score += d] *)
Definition adjust (c : bool) (d : number) (x : JSNumber.t) : JSNumber.t :=
  if c then JSNumber.add x (JSNumber.Fin d) else x.

(** [calculateEngagementScore]; [None] is the [TypeError] of reading
    [stateWeights[state]] when [stateWeights] is [undefined]. *)
Definition calculateEngagementScore (cfg : EngagementConfig)
    (st : EngagementState) (cvMetrics : CVMetrics) (handMetrics : HandMetrics)
  : option JSNumber.t :=
  match stateWeights cfg with
  | None => None
  | Some w =>
      let s0 := JSNumber.ToNumber (baselineScore cfg) in
      let s1 := JSNumber.add s0 (weightOf w st) in
      let s2 := adjust (facePresent cvMetrics) 5 s1 in
      let s3 := adjust (String.eqb (expressionLabel cvMetrics) "happy"
                        || String.eqb (expressionLabel cvMetrics) "neutral") 5 s2 in
      let s4 := adjust (handsFidgeting handMetrics) (-10) s3 in
      let s5 := adjust (handOverFace handMetrics) (-15) s4 in
      let s6 := adjust (ltb (eyeAspectRatio cvMetrics) 0.15) (-20) s5 in
      let s7 := adjust (gtb (mouthOpenRatio cvMetrics) 0.8) (-15) s6 in
      Some (JSNumber.max (JSNumber.Fin 0)
              (JSNumber.min (JSNumber.Fin 100) (JSNumber.round s7)))
  end.

(** [scoreHistory.push(score); if (length > maxHistoryLength) shift()] *)
Definition pushScore (hist : list JSNumber.t) (s : JSNumber.t)
  : list JSNumber.t :=
  let hist' := hist ++ [s] in
  if Nat.ltb maxHistoryLength (List.length hist') then tl hist' else hist'.

(** What a call of [processFrame] does: it returns a record, or it throws
    (after the timers were updated and before a score is recorded). *)
Inductive FrameResult :=
| FrameReturned (m : EngagementMetrics) (e : EngagementEngine)
| FrameThrew (e : EngagementEngine).

Definition processFrame (e : EngagementEngine) (cvMetrics : CVMetrics)
    (handMetrics : HandMetrics) (ts : number) : FrameResult :=
  let h := updateStateHistory (stateHistory e) cvMetrics ts in
  let st := determineEngagementState (config e) h cvMetrics handMetrics ts in
  match calculateEngagementScore (config e) st cvMetrics handMetrics with
  | None =>
      FrameThrew {| config := config e; stateHistory := h;
                    scoreHistory := scoreHistory e |}
  | Some sc =>
      let cf := calculateConfidence cvMetrics handMetrics in
      FrameReturned
        {| state := st; score := sc; confidence := cf; timestamp := ts |}
        {| config := config e; stateHistory := h;
           scoreHistory := pushScore (scoreHistory e) sc |}
  end.

Definition engineAfter (r : FrameResult) : EngagementEngine :=
  match r with
  | FrameReturned _ e => e
  | FrameThrew e => e
  end.

Definition returned (r : FrameResult) : option EngagementMetrics :=
  match r with
  | FrameReturned m _ => Some m
  | FrameThrew _ => None
  end.

(** The engine run over a sequence of ticks by a caller that, like the study
    page, catches what a tick throws and goes on: for each tick the record
    returned, or [None]. *)
Fixpoint processFrames (e : EngagementEngine) (fs : list Frame)
  : list (option EngagementMetrics) * EngagementEngine :=
  match fs with
  | [] => ([], e)
  | f :: r =>
      let res := processFrame e (f_cv f) (f_hands f) (f_time f) in
      let '(ms, e2) := processFrames (engineAfter res) r in
      (returned res :: ms, e2)
  end.

(** [scores.reduce((sum, score) => sum + score, 0)] *)
Definition sumScores (scores : list JSNumber.t) : JSNumber.t :=
  fold_left JSNumber.add scores (JSNumber.Fin 0).

(** [getAverageScore(windowSeconds)] *)
Definition getAverageScore (e : EngagementEngine) (windowSeconds : number)
  : JSNumber.value :=
  let windowSize :=
    Math_min windowSeconds (of_nat (List.length (scoreHistory e))) in
  if Qeq_bool windowSize 0 then baselineScore (config e)
  else
    let recentScores := Array_slice (scoreHistory e) (- windowSize) None in
    JSNumber.Num
      (JSNumber.div (sumScores recentScores)
         (JSNumber.Fin (of_nat (List.length recentScores)))).

(** The configurations on which the score is a number: [stateWeights] is
    defined and [baselineScore] plus each weight is not NaN.  Every
    configuration of finite numbers is one. *)
Definition scoreDefined (cfg : EngagementConfig) : Prop :=
  exists w, stateWeights cfg = Some w
            /\ forall st, JSNumber.add (JSNumber.ToNumber (baselineScore cfg))
                            (weightOf w st) <> JSNumber.NaN.

End Raw.

(** A configuration of finite numbers, a record and an engine of the first
    embedding, as values of the second. *)
Definition liftWeights (w : StateWeights) : Raw.StateWeights :=
  {| Raw.w_engaged := JSNumber.Fin (w_engaged w);
     Raw.w_distracted := JSNumber.Fin (w_distracted w);
     Raw.w_sleepy := JSNumber.Fin (w_sleepy w);
     Raw.w_away := JSNumber.Fin (w_away w) |}.

Definition liftNumber (x : number) : JSNumber.value :=
  JSNumber.Num (JSNumber.Fin x).

Definition liftConfig (c : EngagementConfig) : Raw.EngagementConfig :=
  {| Raw.eyeClosedDuration := liftNumber (eyeClosedDuration c);
     Raw.yawnDuration := liftNumber (yawnDuration c);
     Raw.lookAwayDuration := liftNumber (lookAwayDuration c);
     Raw.baselineScore := liftNumber (baselineScore c);
     Raw.stateWeights := Some (liftWeights (stateWeights c)) |}.

Definition liftPartial (p : PartialEngagementConfig)
  : Raw.PartialEngagementConfig :=
  {| Raw.p_eyeClosedDuration := option_map liftNumber (p_eyeClosedDuration p);
     Raw.p_yawnDuration := option_map liftNumber (p_yawnDuration p);
     Raw.p_lookAwayDuration := option_map liftNumber (p_lookAwayDuration p);
     Raw.p_baselineScore := option_map liftNumber (p_baselineScore p);
     Raw.p_stateWeights :=
       option_map (fun w => Some (liftWeights w)) (p_stateWeights p) |}.

Definition liftMetrics (m : EngagementMetrics) : Raw.EngagementMetrics :=
  {| Raw.state := state m; Raw.score := JSNumber.Fin (score m);
     Raw.confidence := confidence m; Raw.timestamp := timestamp m |}.

Definition liftEngine (e : EngagementEngine) : Raw.EngagementEngine :=
  {| Raw.config := liftConfig (config e);
     Raw.stateHistory := stateHistory e;
     Raw.scoreHistory := List.map JSNumber.Fin (scoreHistory e) |}.

(** An engine whose recorded scores are all numbers from 0 to 100. *)
Definition Raw_historyInRange (e : Raw.EngagementEngine) : Prop :=
  exists qs, Raw.scoreHistory e = List.map JSNumber.Fin qs
             /\ Forall (fun x => 0 <= x) qs /\ Forall (fun x => x <= 100) qs.

(** [new EngagementEngine({ baselineScore: undefined })]: the key is present,
    its value is [undefined]. *)
Definition baselineUndefined : Raw.PartialEngagementConfig :=
  {| Raw.p_eyeClosedDuration := None; Raw.p_yawnDuration := None;
     Raw.p_lookAwayDuration := None;
     Raw.p_baselineScore := Some JSNumber.Undefined;
     Raw.p_stateWeights := None |}.

(** [new EngagementEngine({ baselineScore: NaN })] *)
Definition baselineNaN : Raw.PartialEngagementConfig :=
  {| Raw.p_eyeClosedDuration := None; Raw.p_yawnDuration := None;
     Raw.p_lookAwayDuration := None;
     Raw.p_baselineScore := Some (JSNumber.Num JSNumber.NaN);
     Raw.p_stateWeights := None |}.


(* ========================================================================= *)
(** * Lemmas and theorems *)
(* ========================================================================= *)

(* ------------------------------------------------------------------------- *)
(** ** Arrays: [map] and [filter] with an index *)
(* ------------------------------------------------------------------------- *)

Section Arrays.
Context {A B : Type}.

Lemma map_from_length (f : A -> nat -> B) (l : list A) :
  forall i, List.length (map_from f i l) = List.length l.
Proof.
  induction l as [|x r IH]; intros i; simpl; [reflexivity|].
  now rewrite IH.
Qed.

Lemma map_from_nth_error (f : A -> nat -> B) (l : list A) :
  forall i k, nth_error (map_from f i l) k
              = option_map (fun x => f x (i + k)%nat) (nth_error l k).
Proof.
  induction l as [|x r IH]; intros i k; destruct k as [|k]; simpl; try reflexivity.
  - now rewrite Nat.add_0_r.
  - rewrite IH. now replace (S i + k)%nat with (i + S k)%nat by lia.
Qed.

(** Induction on lists five elements at a time. *)
Lemma list_ind5 (P : list A -> Prop) :
  P [] ->
  (forall a, P [a]) ->
  (forall a b, P [a; b]) ->
  (forall a b c, P [a; b; c]) ->
  (forall a b c d, P [a; b; c; d]) ->
  (forall a b c d e r, P r -> P (a :: b :: c :: d :: e :: r)) ->
  forall l, P l.
Proof.
  intros H0 H1 H2 H3 H4 H5 l.
  assert (H : forall n l, (List.length l <= n)%nat -> P l).
  { clear l. induction n as [n IH] using lt_wf_ind. intros l Hl.
    destruct l as [|a [|b [|c [|d [|e r]]]]]; auto.
    apply H5. apply (IH (List.length r)); simpl in Hl; lia. }
  apply (H (List.length l)). lia.
Qed.

Lemma every5th_shift (l : list A) :
  forall i, filter_from every5th (5 + i) l = filter_from every5th i l.
Proof.
  induction l as [|x r IH]; intros i; [reflexivity|].
  cbn [filter_from].
  assert (E : every5th x (5 + i) = every5th x i).
  { unfold every5th. f_equal.
    replace (5 + i)%nat with (i + 1 * 5)%nat by lia.
    apply Nat.Div0.mod_add. }
  rewrite E, <- (IH (S i)).
  now replace (5 + S i)%nat with (S (5 + i)) by lia.
Qed.

Lemma every5th_step (a b c d e : A) (r : list A) :
  Array_filter every5th (a :: b :: c :: d :: e :: r)
  = a :: Array_filter every5th r.
Proof.
  unfold Array_filter. cbn. exact (f_equal (cons a) (every5th_shift r 0)).
Qed.

(** The stride keeps [ceil (n / 5)] elements. *)
Lemma every5th_length (l : list A) :
  List.length (Array_filter every5th l) = ((List.length l + 4) / 5)%nat.
Proof.
  induction l as [| | | | |a b c d e r IH] using list_ind5; try reflexivity.
  rewrite every5th_step. cbn [List.length]. rewrite IH.
  replace (S (S (S (S (S (List.length r))))) + 4)%nat
    with (1 * 5 + (List.length r + 4))%nat by lia.
  now rewrite Nat.div_add_l by discriminate.
Qed.

(** The element kept at position [i] is the one at index [5 i]. *)
Lemma every5th_nth_error (l : list A) :
  forall i, nth_error (Array_filter every5th l) i = nth_error l (5 * i).
Proof.
  induction l as [| | | | |a b c d e r IH] using list_ind5; intros i;
    try (destruct i as [|i]; [reflexivity|];
         transitivity (@None A); [|symmetry];
         apply nth_error_None; simpl; lia).
  - rewrite every5th_step. destruct i as [|i]; [reflexivity|].
    replace (5 * S i)%nat with (5 + 5 * i)%nat by lia.
    cbn [nth_error Nat.add]. apply IH.
Qed.

End Arrays.

(* ------------------------------------------------------------------------- *)
(** ** Numbers: rounding *)
(* ------------------------------------------------------------------------- *)

Lemma of_nat_succ (n : nat) : of_nat n + 1 = of_nat (S n).
Proof.
  unfold of_nat, inject_Z, Qplus. cbn [Qnum Qden].
  f_equal. lia.
Qed.

Lemma Math_floor_spec (x : number) :
  exists z : Z, Math_floor x = inject_Z z /\ inject_Z z <= x /\ x < inject_Z z + 1.
Proof.
  exists (Qfloor x). split; [reflexivity|]. split.
  - apply Qfloor_le.
  - generalize (Qlt_floor x). rewrite inject_Z_plus. now intros H.
Qed.

Lemma Math_round_lower (x : number) : x - (1#2) < Math_round x.
Proof.
  unfold Math_round.
  generalize (Qlt_floor (x + (1#2))). rewrite inject_Z_plus.
  change (inject_Z 1) with 1. lra.
Qed.

Lemma Math_round_upper (x : number) : Math_round x <= x + (1#2).
Proof. unfold Math_round. apply Qfloor_le. Qed.

(* ------------------------------------------------------------------------- *)
(** ** The store: how [stopSession] runs *)
(* ------------------------------------------------------------------------- *)

Lemma stopSession_some (w : World) (cs : SessionData) (now : number) :
  currentSession w = Some cs ->
  stopSession now w = Returned (id cs) (stopWorld w cs now).
Proof.
  destruct w as [cur log]. cbn. intros ->. reflexivity.
Qed.

Lemma stopSession_none (w : World) (now : number) :
  currentSession w = None ->
  stopSession now w = Thrown "No active session" w.
Proof.
  destruct w as [cur log]. cbn. intros ->. reflexivity.
Qed.

Lemma timeSeriesPoints_length (cs : SessionData) :
  List.length (timeSeriesPoints cs) = List.length (timeSeries cs).
Proof. apply map_from_length. Qed.

Lemma timeSeriesPoints_nth_error (cs : SessionData) (i : nat) (m : EngagementMetrics) :
  nth_error (timeSeries cs) i = Some m ->
  exists p, nth_error (timeSeriesPoints cs) i = Some p
            /\ pt_state p = state m /\ pt_score p = score m
            /\ tSec p = of_nat i /\ sessionId p = id cs.
Proof.
  intros H. unfold timeSeriesPoints, Array_map.
  rewrite map_from_nth_error, H. cbn.
  eexists. split; [reflexivity|]. cbn. repeat split; reflexivity.
Qed.

(* ------------------------------------------------------------------------- *)
(** ** C1: the series stored at stop and the stride of the sync route *)
(* ------------------------------------------------------------------------- *)

(** [stopSession] on a two-sample session sends two points to IndexedDB, not
    [ceil (2 / 5) = 1]: the series it stores is not strided. *)
Lemma C1_stop_stores_every_point :
  exists w',
    stopSession 2000 twoTicks = Returned "s1"%string w'
    /\ List.length (savedPoints (idb w')) = 2%nat
    /\ List.length (savedPoints (idb w')) <> ((2 + 4) / 5)%nat.
Proof.
  eexists. split; [reflexivity|]. split; [reflexivity|]. cbn. discriminate.
Qed.

(** C1 (amended).  [stopSession] stores the series at full resolution: one
    point per accumulated sample, point [i] carrying the state and score of
    sample [i] and [tSec = i].  The stride is taken by POST /sync/sessions:
    of the points it receives it keeps those at index 0, 5, 10, ...; applied
    to the points of a stopped session of [n] samples that is [ceil (n / 5)]
    points, the [i]-th with the state and score of sample [5 i]. *)
Theorem C1_full_resolution_at_stop_stride_at_sync :
  forall (w : World) (cs : SessionData) (now : number),
    currentSession w = Some cs ->
    let n := List.length (timeSeries cs) in
    exists w',
      stopSession now w = Returned (id cs) w'
      /\ savedPoints (idb w') = savedPoints (idb w) ++ timeSeriesPoints cs
      /\ List.length (timeSeriesPoints cs) = n
      /\ (forall i m, nth_error (timeSeries cs) i = Some m ->
            exists p, nth_error (timeSeriesPoints cs) i = Some p
                      /\ pt_state p = state m /\ pt_score p = score m
                      /\ tSec p = of_nat i)
      /\ let stored :=
           downsampledTimeSeries (List.map parsePoint (timeSeriesPoints cs)) in
         List.length stored = ((n + 4) / 5)%nat
         /\ (forall i, (i < (n + 4) / 5)%nat ->
               exists p m, nth_error stored i = Some p
                           /\ nth_error (timeSeries cs) (5 * i) = Some m
                           /\ sy_state p = state m /\ sy_score p = score m).
Proof.
  intros w cs now Hcur n.
  exists (stopWorld w cs now). split; [now apply stopSession_some|].
  split.
  { unfold stopWorld, savedPoints. cbn [idb].
    rewrite !flat_map_app. cbn [flat_map]. rewrite app_nil_r. f_equal.
    induction (timeSeriesPoints cs) as [|p r IH]; [reflexivity|].
    cbn. now rewrite IH. }
  split; [apply timeSeriesPoints_length|].
  split.
  { intros i m Hm. destruct (timeSeriesPoints_nth_error cs i m Hm)
      as (p & Hp & Hs & Hc & Ht & _). now exists p. }
  assert (Hlen : List.length
            (downsampledTimeSeries (List.map parsePoint (timeSeriesPoints cs)))
          = ((n + 4) / 5)%nat).
  { unfold downsampledTimeSeries.
    now rewrite every5th_length, length_map, timeSeriesPoints_length. }
  cbv zeta. split; [exact Hlen|].
  intros i Hi.
  assert (Hsome : exists p,
            nth_error (downsampledTimeSeries
                         (List.map parsePoint (timeSeriesPoints cs))) i = Some p).
  { destruct (nth_error _ i) eqn:E; [eauto|].
    apply nth_error_None in E. lia. }
  destruct Hsome as [p Hp]. generalize Hp. unfold downsampledTimeSeries.
  rewrite every5th_nth_error, nth_error_map.
  destruct (nth_error (timeSeriesPoints cs) (5 * i)) as [q|] eqn:Eq;
    [|discriminate].
  cbn. intros [= <-].
  destruct (nth_error (timeSeries cs) (5 * i)) as [m|] eqn:Em.
  - destruct (timeSeriesPoints_nth_error cs _ m Em)
      as (q' & Hq' & Hs & Hc & _).
    rewrite Eq in Hq'. injection Hq' as <-.
    exists (parsePoint q), m. now repeat split.
  - apply nth_error_None in Em. rewrite <- timeSeriesPoints_length in Em.
    apply nth_error_None in Em. congruence.
Qed.

Lemma C1_full_resolution_at_stop_stride_at_sync_witness :
  exists w',
    stopSession 2000 twoTicks = Returned "s1"%string w'
    /\ List.length
         (downsampledTimeSeries (List.map parsePoint (savedPoints (idb w'))))
       = 1%nat.
Proof.
  destruct (C1_full_resolution_at_stop_stride_at_sync twoTicks _ 2000 eq_refl)
    as (w' & Hrun & Hsaved & _ & _ & Hlen & _).
  exists w'. split; [exact Hrun|].
  rewrite Hsaved. exact Hlen.
Defined.

(* ------------------------------------------------------------------------- *)
(** ** C2: the duration of the session record *)
(* ------------------------------------------------------------------------- *)

(** A session started at 0 ms that accumulated two samples and is stopped at
    10000 ms gets [durationSec = 10], not 2. *)
Lemma C2_duration_is_not_the_tick_count :
  exists w' r,
    stopSession 10000 twoTicks = Returned "s1"%string w'
    /\ savedSessions (idb w') = [r]
    /\ durationSec r == 10
    /\ ~ durationSec r == of_nat (List.length [sample engaged 85 1000;
                                                sample distracted 60 2000]).
Proof.
  eexists. eexists. split; [reflexivity|]. split; [reflexivity|].
  split; [reflexivity|]. intros H. vm_compute in H. discriminate.
Qed.

Lemma savedSessions_stopWorld (w : World) (cs : SessionData) (now : number) :
  savedSessions (idb (stopWorld w cs now))
  = savedSessions (idb w) ++ [stopRecord cs now].
Proof.
  unfold stopWorld, savedSessions. cbn [idb].
  rewrite !flat_map_app. cbn [flat_map]. rewrite app_nil_r.
  replace (flat_map _ (List.map PutPoint (timeSeriesPoints cs))) with (@nil Session);
    [now rewrite app_nil_r|].
  induction (timeSeriesPoints cs) as [|p r IH]; [reflexivity|exact IH].
Qed.

(** C2 (amended).  The duration of the record [stopSession] saves is the wall
    clock: the whole seconds between [startedAt] and the stop,
    [floor ((endedAt - startedAt) / 1000)]; the same value overwrites the
    [duration] of the session in the store.  The tick count
    [len (timeSeries)] is the [duration] that [addMetrics] keeps in the
    running session. *)
Theorem C2_duration_is_wall_clock :
  forall (w : World) (cs : SessionData) (now : number),
    currentSession w = Some cs ->
    (exists w' cs' z,
       stopSession now w = Returned (id cs) w'
       /\ savedSessions (idb w') = savedSessions (idb w) ++ [stopRecord cs now]
       /\ durationSec (stopRecord cs now) = inject_Z z
       /\ inject_Z z * 1000 <= now - startedAt cs
       /\ now - startedAt cs < (inject_Z z + 1) * 1000
       /\ currentSession w' = Some cs'
       /\ duration cs' = inject_Z z)
    /\ (forall metrics, isActive cs = true -> isPaused cs = false ->
          exists w' cs',
            addMetrics metrics w = Returned tt w'
            /\ currentSession w' = Some cs'
            /\ timeSeries cs' = timeSeries cs ++ [metrics]
            /\ duration cs' = of_nat (List.length (timeSeries cs'))).
Proof.
  intros w cs now Hcur. split.
  - destruct (Math_floor_spec ((now - startedAt cs) / 1000)) as (z & Hz & Hlo & Hhi).
    exists (stopWorld w cs now).
    exists (with_stopped cs now (Math_floor ((now - startedAt cs) / 1000))).
    exists z.
    split; [now apply stopSession_some|].
    split; [apply savedSessions_stopWorld|].
    split; [exact Hz|].
    assert (E : (now - startedAt cs) / 1000 * 1000 == now - startedAt cs)
      by (field).
    split; [rewrite <- E; nra|].
    split; [rewrite <- E; nra|].
    split; [reflexivity|exact Hz].
  - intros metrics Ha Hp. destruct w as [cur log]. cbn in Hcur. subst cur.
    eexists. eexists. unfold addMetrics, bind, get. cbn.
    rewrite Ha, Hp. cbn. split; [reflexivity|].
    split; [reflexivity|]. split; reflexivity.
Qed.

Lemma C2_duration_is_wall_clock_witness :
  exists w' cs' z,
    stopSession 10000 twoTicks = Returned "s1"%string w'
    /\ currentSession w' = Some cs'
    /\ duration cs' = inject_Z z
    /\ inject_Z z * 1000 <= 10000 - 0.
Proof.
  destruct (C2_duration_is_wall_clock twoTicks _ 10000 eq_refl)
    as [(w' & cs' & z & Hrun & _ & _ & Hlo & _ & Hcur & Hd) _].
  exists w', cs', z. repeat split; assumption.
Defined.

(* ------------------------------------------------------------------------- *)
(** ** C4: the operations when there is no session *)
(* ------------------------------------------------------------------------- *)

(** With no session in the store, [pauseSession] and [addMetrics] return
    normally: neither reports anything to its caller. *)
Lemma C4_pause_and_addMetrics_return_silently :
  ~ reportsError pauseSession initialWorld
  /\ ~ reportsError (addMetrics (sample engaged 85 1000)) initialWorld.
Proof.
  split; intros (msg & w' & H); discriminate H.
Qed.

(** An ended session is still in the store: on it the guards of
    [pauseSession] and [addMetrics] return, and [stopSession] does not throw. *)
Lemma inactive_session_noop (w : World) (cs : SessionData)
    (metrics : EngagementMetrics) :
  currentSession w = Some cs -> isActive cs = false ->
  pauseSession w = Returned tt w /\ addMetrics metrics w = Returned tt w.
Proof.
  destruct w as [cur log]. cbn. intros -> Ha.
  unfold pauseSession, addMetrics, bind, get. cbn. rewrite Ha. cbn. now split.
Qed.

(** C4 (amended).  With no session in the store, [stopSession] throws
    [Error('No active session')] to its caller and changes nothing, while
    [pauseSession] and [addMetrics] return without an error and leave the
    store as it was. *)
Theorem C4_only_stop_reports_missing_session :
  forall (w : World) (now : number) (metrics : EngagementMetrics),
    currentSession w = None ->
    stopSession now w = Thrown "No active session" w
    /\ pauseSession w = Returned tt w
    /\ addMetrics metrics w = Returned tt w.
Proof.
  intros w now metrics Hcur. split; [now apply stopSession_none|].
  destruct w as [cur log]. cbn in Hcur. subst cur. split; reflexivity.
Qed.

Lemma C4_only_stop_reports_missing_session_witness :
  currentSession initialWorld = None
  /\ stopSession 2000 initialWorld = Thrown "No active session" initialWorld
  /\ pauseSession initialWorld = Returned tt initialWorld
  /\ addMetrics (sample engaged 85 1000) initialWorld = Returned tt initialWorld.
Proof.
  split; [reflexivity|].
  exact (C4_only_stop_reports_missing_session
           initialWorld 2000 (sample engaged 85 1000) eq_refl).
Defined.

(* ------------------------------------------------------------------------- *)
(** ** C6: distracted episodes *)
(* ------------------------------------------------------------------------- *)

Lemma episodeStep_calm (n : number) (b : bool) (m : EngagementMetrics) :
  calm m -> episodeStep (n, b) m = (n, false).
Proof.
  unfold episodeStep. now intros [-> | ->].
Qed.

Lemma episodeStep_rising (n : number) (m : EngagementMetrics) :
  distracting m -> episodeStep (n, false) m = (n + 1, true).
Proof.
  unfold episodeStep. now intros [-> | ->].
Qed.

Lemma episodeStep_sustained (n : number) (m : EngagementMetrics) :
  distracting m -> episodeStep (n, true) m = (n, true).
Proof.
  unfold episodeStep. now intros [-> | ->].
Qed.

Lemma fold_calm (gap : list EngagementMetrics) (n : number) :
  Forall calm gap ->
  fold_left episodeStep gap (n, false) = (n, false).
Proof.
  induction 1 as [|m r Hm _ IH]; [reflexivity|].
  cbn [fold_left]. now rewrite episodeStep_calm.
Qed.

Lemma fold_sustained (run : list EngagementMetrics) (n : number) :
  Forall distracting run ->
  fold_left episodeStep run (n, true) = (n, true).
Proof.
  induction 1 as [|m r Hm _ IH]; [reflexivity|].
  cbn [fold_left]. now rewrite episodeStep_sustained.
Qed.

Lemma fold_run (run : list EngagementMetrics) (n : number) :
  run <> [] -> Forall distracting run ->
  fold_left episodeStep run (n, false) = (n + 1, true).
Proof.
  intros Hne H. destruct H as [|m r Hm Hr]; [congruence|].
  cbn [fold_left]. rewrite episodeStep_rising by assumption.
  now apply fold_sustained.
Qed.

Lemma fold_startsCalm (rest : list EngagementMetrics) (n : number) :
  startsCalm rest ->
  fst (fold_left episodeStep rest (n, true))
  = fst (fold_left episodeStep rest (n, false)).
Proof.
  destruct rest as [|m r]; [reflexivity|].
  cbn [startsCalm fold_left]. intros Hm. now rewrite !episodeStep_calm.
Qed.

Lemma hasRuns_fold (k : nat) (l : list EngagementMetrics) :
  hasRuns k l ->
  forall j, fst (fold_left episodeStep l (of_nat j, false)) = of_nat (j + k).
Proof.
  induction 1 as [gap Hgap | k gap run rest Hgap Hne Hrun Hrest _ IH]; intros j.
  - rewrite fold_calm by assumption. now rewrite Nat.add_0_r.
  - rewrite !fold_left_app, fold_calm by assumption.
    rewrite fold_run by assumption.
    rewrite fold_startsCalm by assumption.
    rewrite of_nat_succ, IH. f_equal. lia.
Qed.

(** Every series splits into runs, so the count of runs is always defined. *)
Lemma hasRuns_total (l : list EngagementMetrics) : exists k, hasRuns k l.
Proof.
  induction l as [|m l [k Hk]].
  - exists 0%nat. now constructor.
  - assert (Hm : calm m \/ distracting m)
      by (unfold calm, distracting; destruct (state m); auto).
    destruct Hm as [Hm | Hm].
    + destruct Hk as [gap Hgap | k gap run rest Hgap Hne Hrun Hrest Hk].
      * exists 0%nat. constructor. now constructor.
      * exists (S k). change (hasRuns (S k) ((m :: gap) ++ run ++ rest)).
        constructor; auto.
    + destruct Hk as [gap Hgap | k gap run rest Hgap Hne Hrun Hrest Hk].
      * exists 1%nat. change (hasRuns 1 ([] ++ [m] ++ gap)).
        constructor; auto; [discriminate| |now constructor].
        destruct Hgap; cbn; auto.
      * destruct gap as [|g gap].
        -- exists (S k). change (hasRuns (S k) ([] ++ (m :: run) ++ rest)).
           constructor; auto; discriminate.
        -- exists (S (S k)).
           change (hasRuns (S (S k)) ([] ++ [m] ++ ((g :: gap) ++ run ++ rest))).
           constructor; auto; [discriminate| |constructor; auto].
           cbn. now inversion Hgap.
Qed.

(** C6.  If the accumulated series consists of exactly [k] maximal runs of
    distracted-or-sleepy points, whatever their lengths and whatever calm
    points lie between and around them, the record [stopSession] saves has
    [distractedEpisodes = k]. *)
Theorem C6_distractedEpisodes_counts_runs :
  forall (w : World) (cs : SessionData) (now : number) (k : nat),
    currentSession w = Some cs ->
    hasRuns k (timeSeries cs) ->
    exists w',
      stopSession now w = Returned (id cs) w'
      /\ savedSessions (idb w') = savedSessions (idb w) ++ [stopRecord cs now]
      /\ distractedEpisodes (stopRecord cs now) = of_nat k.
Proof.
  intros w cs now k Hcur Hruns.
  exists (stopWorld w cs now).
  split; [now apply stopSession_some|].
  split; [apply savedSessions_stopWorld|].
  exact (hasRuns_fold k _ Hruns 0%nat).
Qed.

Ltac all_points :=
  repeat (apply Forall_cons; [unfold calm, distracting; cbn; auto|]);
  apply Forall_nil.

Lemma threeRuns_hasRuns :
  hasRuns 3 [sample distracted 50 1000; sample sleepy 40 2000;
             sample distracted 50 3000; sample engaged 85 4000;
             sample engaged 85 5000; sample sleepy 40 6000;
             sample away 45 7000; sample distracted 50 8000;
             sample distracted 50 9000].
Proof.
  apply (runs_next 2 []
           [sample distracted 50 1000; sample sleepy 40 2000; sample distracted 50 3000]
           [sample engaged 85 4000; sample engaged 85 5000; sample sleepy 40 6000;
            sample away 45 7000; sample distracted 50 8000; sample distracted 50 9000]).
  - constructor.
  - discriminate.
  - all_points.
  - left; reflexivity.
  - apply (runs_next 1 [sample engaged 85 4000; sample engaged 85 5000]
             [sample sleepy 40 6000]
             [sample away 45 7000; sample distracted 50 8000; sample distracted 50 9000]).
    + all_points.
    + discriminate.
    + all_points.
    + right; reflexivity.
    + apply (runs_next 0 [sample away 45 7000]
               [sample distracted 50 8000; sample distracted 50 9000] []).
      * all_points.
      * discriminate.
      * all_points.
      * exact I.
      * constructor. constructor.
Defined.

Lemma C6_distractedEpisodes_counts_runs_witness :
  exists w' r,
    stopSession 9500 threeRuns = Returned "s2"%string w'
    /\ savedSessions (idb w') = [r]
    /\ distractedEpisodes r = 3.
Proof.
  destruct (C6_distractedEpisodes_counts_runs threeRuns _ 9500 3 eq_refl
              threeRuns_hasRuns) as (w' & Hrun & Hsaved & Hk).
  exists w'. eexists. split; [exact Hrun|]. split; [exact Hsaved|]. exact Hk.
Defined.

(* ------------------------------------------------------------------------- *)
(** ** C7, C9, C10: priority of [away], bounds of score and confidence *)
(* ------------------------------------------------------------------------- *)

Lemma track_present (start : option number) (ts : number) :
  track false start ts = None.
Proof. reflexivity. Qed.

Lemma determine_away (cfg : EngagementConfig) (h : StateHistory)
    (cvMetrics : CVMetrics) (handMetrics : HandMetrics) (ts : number) :
  facePresent cvMetrics = false ->
  2.0 <= elapsed (faceAbsentStart h) ts ->
  determineEngagementState cfg h cvMetrics handMetrics ts = away.
Proof.
  intros Hf Hd. unfold determineEngagementState, geb.
  rewrite Hf. apply Qle_bool_iff in Hd. now rewrite Hd.
Qed.

Lemma processFrame_away (e : EngagementEngine) (cvMetrics : CVMetrics)
    (handMetrics : HandMetrics) (ts : number) :
  2.0 <= faceAbsentDuration (snd (processFrame e cvMetrics handMetrics ts)) ts ->
  state (fst (processFrame e cvMetrics handMetrics ts)) = away.
Proof.
  unfold faceAbsentDuration, processFrame. cbn [fst snd state stateHistory].
  destruct (facePresent cvMetrics) eqn:Hf.
  - unfold updateStateHistory at 1. cbn [faceAbsentStart]. rewrite Hf.
    cbn. intros H. exfalso. revert H. apply Qlt_not_le. reflexivity.
  - intros H. now apply determine_away.
Qed.


(** C7.  At every tick of every run of the engine, whatever the configuration
    and whatever the sample and the hand reading of the tick say (and so also
    when the eyes-closed, yawn or look-away timers have run out, the hands
    fidget or cover the face, or the expression is a negative one): if the
    face-absent duration measured at the tick is at least 2.0 s, the state
    [processFrame] returns is [away]. *)
Theorem C7_away_has_priority :
  forall (p : PartialEngagementConfig) (before : list Frame) (f : Frame),
    let e := snd (processFrames (newEngine p) before) in
    let r := processFrame e (f_cv f) (f_hands f) (f_time f) in
    2.0 <= faceAbsentDuration (snd r) (f_time f) ->
    state (fst r) = away.
Proof.
  intros p before f e r. apply processFrame_away.
Qed.

Lemma C7_away_has_priority_witness :
  state (fst (processFrame
                (snd (processFrames (newEngine emptyPartial)
                        [absentAndEverythingElse 5000;
                         absentAndEverythingElse 6000]))
                (f_cv (absentAndEverythingElse 7000))
                (f_hands (absentAndEverythingElse 7000))
                7000))
  = away.
Proof.
  apply (C7_away_has_priority emptyPartial
           [absentAndEverythingElse 5000; absentAndEverythingElse 6000]
           (absentAndEverythingElse 7000)).
  vm_compute. discriminate.
Defined.

Lemma clamp_integer (lo hi : Z) (x : number) :
  (lo <= hi)%Z ->
  exists z : Z,
    Math_max (inject_Z lo) (Math_min (inject_Z hi) (Math_round x)) = inject_Z z
    /\ (lo <= z <= hi)%Z.
Proof.
  intros Hlh. unfold Math_max, Math_min, Math_round.
  destruct (Qle_bool (inject_Z hi) (inject_Z (Qfloor (x + (1#2))))) eqn:E1.
  - destruct (Qle_bool (inject_Z lo) (inject_Z hi)) eqn:E2.
    + exists hi. split; [reflexivity|lia].
    + exists lo. split; [reflexivity|lia].
  - destruct (Qle_bool (inject_Z lo) (inject_Z (Qfloor (x + (1#2))))) eqn:E2.
    + exists (Qfloor (x + (1#2))). split; [reflexivity|].
      apply Qle_bool_iff in E2. rewrite <- Zle_Qle in E2.
      assert (~ inject_Z hi <= inject_Z (Qfloor (x + (1#2)))) as E1'
        by (intros H; apply Qle_bool_iff in H; congruence).
      rewrite <- Zle_Qle in E1'. lia.
    + exists lo. split; [reflexivity|lia].
Qed.

Lemma score_bounds (cfg : EngagementConfig) (st : EngagementState)
    (cvMetrics : CVMetrics) (handMetrics : HandMetrics) :
  exists z : Z,
    calculateEngagementScore cfg st cvMetrics handMetrics = inject_Z z
    /\ (0 <= z <= 100)%Z.
Proof.
  unfold calculateEngagementScore. cbv zeta.
  apply (clamp_integer 0 100). lia.
Qed.

Lemma adjust_nonneg (c : bool) (d x : number) :
  0 <= d -> x <= adjust c d x.
Proof.
  intros Hd. unfold adjust. destruct c; lra.
Qed.

Lemma Math_min_spec (a b : number) :
  (Math_min a b == a /\ a <= b) \/ (Math_min a b == b /\ b <= a).
Proof.
  unfold Math_min. destruct (Qle_bool a b) eqn:E.
  - left. apply Qle_bool_iff in E. split; [reflexivity|assumption].
  - right. split; [reflexivity|].
    destruct (Qlt_le_dec b a) as [H|H]; [lra|].
    apply Qle_bool_iff in H. congruence.
Qed.

Lemma Math_max_spec (a b : number) :
  (Math_max a b == b /\ a <= b) \/ (Math_max a b == a /\ b <= a).
Proof.
  unfold Math_max. destruct (Qle_bool a b) eqn:E.
  - left. apply Qle_bool_iff in E. split; [reflexivity|assumption].
  - right. split; [reflexivity|].
    destruct (Qlt_le_dec b a) as [H|H]; [lra|].
    apply Qle_bool_iff in H. congruence.
Qed.

Lemma confidence_bounds (cvMetrics : CVMetrics) (handMetrics : HandMetrics) :
  0.5 <= calculateConfidence cvMetrics handMetrics <= 1.
Proof.
  unfold calculateConfidence. cbv zeta.
  set (c1 := adjust (facePresent cvMetrics) 0.3 0.5).
  set (c2 := adjust _ 0.1 c1).
  set (c3 := adjust _ 0.1 c2).
  assert (H1 : 0.5 <= c1) by (apply adjust_nonneg; lra).
  assert (H2 : c1 <= c2) by (apply adjust_nonneg; lra).
  assert (H3 : c2 <= c3) by (apply adjust_nonneg; lra).
  destruct (Math_min_spec 1 c3) as [[Em Hm] | [Em Hm]];
    destruct (Math_max_spec 0 (Math_min 1 c3)) as [[Ex Hx] | [Ex Hx]];
    rewrite Ex; lra.
Qed.

Lemma processFrames_In (fs : list Frame) :
  forall (e : EngagementEngine) (m : EngagementMetrics),
    In m (fst (processFrames e fs)) ->
    exists e' f, In f fs
                 /\ m = fst (processFrame e' (f_cv f) (f_hands f) (f_time f)).
Proof.
  induction fs as [|f r IH]; intros e m; cbn [processFrames].
  - intros [].
  - destruct (processFrame e (f_cv f) (f_hands f) (f_time f)) as [m1 e1] eqn:E1.
    destruct (processFrames e1 r) as [ms e2] eqn:E2. cbn [fst In].
    intros [<- | Hin].
    + exists e, f. split; [now left|]. now rewrite E1.
    + destruct (IH e1 m) as (e' & f' & Hf' & Hm); [now rewrite E2|].
      exists e', f'. split; [now right|assumption].
Qed.

(** C10.  The confidence of every record [processFrame] returns is at least
    0.5: it is the base 0.5 plus 0.3 when the face is present, plus 0.1 when
    the eye aspect ratio is positive, plus 0.1 when the expression is not
    ["unknown"] (a sum the clamp never changes); and for the sample of a total
    detection failure (no face, the detector's defaults) it is exactly 0.5. *)
Theorem C10_confidence_at_least_half :
  (forall (e : EngagementEngine) (fs : list Frame) (m : EngagementMetrics),
      In m (fst (processFrames e fs)) -> 0.5 <= confidence m)
  /\ (forall (e : EngagementEngine) (cvMetrics : CVMetrics)
             (handMetrics : HandMetrics) (ts : number),
        confidence (fst (processFrame e cvMetrics handMetrics ts))
        == 0.5
           + (if facePresent cvMetrics then 0.3 else 0)
           + (if gtb (eyeAspectRatio cvMetrics) 0 then 0.1 else 0)
           + (if negb (String.eqb (expressionLabel cvMetrics) "unknown")
              then 0.1 else 0))
  /\ (forall (e : EngagementEngine) (handMetrics : HandMetrics) (ts : number),
        confidence (fst (processFrame e noFaceMetrics handMetrics ts)) = 0.5).
Proof.
  split; [|split].
  - intros e fs m Hin.
    destruct (processFrames_In fs e m Hin) as (e' & f & _ & ->).
    unfold processFrame. cbn [fst confidence].
    apply confidence_bounds.
  - intros e cvMetrics handMetrics ts.
    unfold processFrame, calculateConfidence. cbn [fst confidence].
    destruct (facePresent cvMetrics), (gtb (eyeAspectRatio cvMetrics) 0),
      (negb (String.eqb (expressionLabel cvMetrics) "unknown"));
      reflexivity.
  - intros e handMetrics ts. reflexivity.
Qed.

Lemma C10_confidence_at_least_half_witness :
  0.5 <= confidence (fst (processFrame (newEngine emptyPartial)
                            (f_cv (absentAndEverythingElse 5000))
                            (f_hands (absentAndEverythingElse 5000)) 5000)).
Proof.
  apply (proj1 C10_confidence_at_least_half (newEngine emptyPartial)
           [absentAndEverythingElse 5000]).
  left. reflexivity.
Defined.

(* ------------------------------------------------------------------------- *)
(** ** C3: three ticks without a face from timestamp 0, then recovery *)
(* ------------------------------------------------------------------------- *)

(** A timer armed at timestamp 0 reads as not armed: the next tick on which
    the condition still holds arms it again, at that tick's timestamp. *)
Lemma track_rearms_after_zero (ts : number) :
  track true (track true None 0) ts = Some ts.
Proof. reflexivity. Qed.

Lemma track_keeps_nonzero (t0 ts : number) :
  ~ t0 == 0 -> track true (track true None t0) ts = Some t0.
Proof.
  intros H. unfold track. cbn.
  destruct (Qeq_bool t0 0) eqn:E; [|reflexivity].
  apply Qeq_bool_eq in E. contradiction.
Qed.

(** Whatever else the three samples without a face say, and whatever the
    configuration: with timestamps 0, 1000 and 2000 the third tick is never
    [away]; the engine measures one second of absence there. *)
Lemma absent_from_zero_never_away (p : PartialEngagementConfig)
    (f0 f1 f2 : Frame) :
  facePresent (f_cv f0) = false -> f_time f0 = 0 ->
  facePresent (f_cv f1) = false -> f_time f1 = 1000 ->
  facePresent (f_cv f2) = false -> f_time f2 = 2000 ->
  forall m, nth_error (fst (processFrames (newEngine p) [f0; f1; f2])) 2 = Some m ->
            state m <> away.
Proof.
  destruct f0 as [cv0 h0 t0], f1 as [cv1 h1 t1], f2 as [cv2 h2 t2].
  cbn [f_cv f_time]. intros F0 -> F1 -> F2 -> m.
  cbn [processFrames processFrame fst snd nth_error f_cv f_hands f_time
       config stateHistory].
  intros [= <-]. cbn [state].
  unfold determineEngagementState.
  unfold updateStateHistory at 1. cbn [faceAbsentStart].
  unfold updateStateHistory at 1. cbn [faceAbsentStart].
  unfold updateStateHistory at 1. cbn [faceAbsentStart].
  rewrite F0, F1, F2. cbn [negb andb newEngine stateHistory emptyHistory faceAbsentStart].
  rewrite track_rearms_after_zero.
  change (geb (elapsed (track true (Some 1000) 2000) 2000) 2.0) with false.
  cbn [andb].
  repeat match goal with
         | |- context [if ?c then _ else _] => destruct c
         end; discriminate.
Qed.

(** C3, as the code runs it.  On the scenario of the claim the engine returns
    [distracted] on the tick at 2000 ms, not [away]: the absence that began at
    timestamp 0 is recorded as [faceAbsentStart = 0], which the next tick
    reads as "not set" and replaces by 1000, so that only one second of
    absence is measured at 2000 ms.  The tick at 2100 ms is [engaged].  The
    same scenario one millisecond later (1, 1001, 2001, 2101) gives [away] on
    the third tick. *)
Theorem C3_absence_from_timestamp_zero :
  statesOf [absentFrame 0; absentFrame 1000; absentFrame 2000; recoveredFrame 2100]
  = [distracted; distracted; distracted; engaged]
  /\ faceAbsentStart
       (stateHistory
          (snd (processFrames (newEngine emptyPartial)
                  [absentFrame 0; absentFrame 1000; absentFrame 2000])))
     = Some 1000
  /\ statesOf [absentFrame 1; absentFrame 1001; absentFrame 2001; recoveredFrame 2101]
     = [distracted; distracted; away; engaged].
Proof.
  split; [reflexivity|]. split; reflexivity.
Qed.

(* ------------------------------------------------------------------------- *)
(** ** C5: the per-state seconds against the duration *)
(* ------------------------------------------------------------------------- *)

Lemma bump_sum (acc : Stats) (m : EngagementMetrics) :
  sumStats (bump acc m) == sumStats acc + 1.
Proof.
  unfold bump, sumStats. destruct (state m); cbn; ring.
Qed.

Lemma counts_sum (ts : list EngagementMetrics) :
  forall acc, sumStats (fold_left bump ts acc)
              == sumStats acc + of_nat (List.length ts).
Proof.
  induction ts as [|m r IH]; intros acc.
  - cbn. unfold of_nat. cbn. ring.
  - cbn [fold_left List.length]. rewrite IH, bump_sum, <- of_nat_succ. ring.
Qed.

Lemma of_nat_pos (n : nat) : (0 < n)%nat -> 0 < of_nat n.
Proof.
  intros H. unfold of_nat. change 0 with (inject_Z 0).
  rewrite <- Zlt_Qlt. lia.
Qed.

(** The four percentages of a non-empty series add up to 100 give or take 2. *)
Lemma stats_sum (cs : SessionData) :
  timeSeries cs <> [] ->
  98 < sumStats (engagementStatsOf (Some cs)) <= 102.
Proof.
  intros Hne. unfold engagementStatsOf.
  destruct (timeSeries cs) as [|m0 r] eqn:Ets; [congruence|].
  cbn [List.length Nat.eqb]. rewrite <- Ets.
  set (total := of_nat (S (List.length r))).
  set (counts := fold_left bump (timeSeries cs) zeroStats).
  assert (Hpos : 0 < total) by (apply of_nat_pos; lia).
  assert (Hsum : sumStats counts == total).
  { unfold counts. rewrite counts_sum, Ets. cbn [List.length].
    unfold sumStats, zeroStats. cbn. fold total. ring. }
  unfold sumStats in *. cbn [st_engaged st_distracted st_sleepy st_away].
  set (xe := st_engaged counts / total * 100).
  set (xd := st_distracted counts / total * 100).
  set (xs := st_sleepy counts / total * 100).
  set (xa := st_away counts / total * 100).
  assert (Hx : xe + xd + xs + xa == 100).
  { unfold xe, xd, xs, xa.
    transitivity ((st_engaged counts + st_distracted counts
                   + st_sleepy counts + st_away counts) / total * 100).
    - field. lra.
    - rewrite Hsum. field. lra. }
  generalize (Math_round_lower xe) (Math_round_upper xe)
             (Math_round_lower xd) (Math_round_upper xd)
             (Math_round_lower xs) (Math_round_upper xs)
             (Math_round_lower xa) (Math_round_upper xa).
  lra.
Qed.

Lemma seconds_bound (stats : Stats) (d : number) :
  0 <= d ->
  98 < sumStats stats <= 102 ->
  let se := Math_round (st_engaged stats * d / 100) in
  let sd := Math_round (st_distracted stats * d / 100) in
  let ss := Math_round (st_sleepy stats * d / 100) in
  let sa := Math_round (st_away stats * d / 100) in
  - (2 + d / 50) <= se + sd + ss + sa - d <= 2 + d / 50.
Proof.
  intros Hd [Hlo Hhi]. unfold sumStats in *. cbv zeta.
  set (pe := st_engaged stats) in *. set (pd := st_distracted stats) in *.
  set (ps := st_sleepy stats) in *. set (pa := st_away stats) in *.
  assert (Hy : pe * d / 100 + pd * d / 100 + ps * d / 100 + pa * d / 100
               == (pe + pd + ps + pa) * d / 100) by field.
  assert (H1 : 98 * d <= (pe + pd + ps + pa) * d) by nra.
  assert (H2 : (pe + pd + ps + pa) * d <= 102 * d) by nra.
  assert (Hq : (pe + pd + ps + pa) * d / 100 * 100 == (pe + pd + ps + pa) * d)
    by field.
  assert (Hd50 : d / 50 * 50 == d) by field.
  generalize (Math_round_lower (pe * d / 100)) (Math_round_upper (pe * d / 100))
             (Math_round_lower (pd * d / 100)) (Math_round_upper (pd * d / 100))
             (Math_round_lower (ps * d / 100)) (Math_round_upper (ps * d / 100))
             (Math_round_lower (pa * d / 100)) (Math_round_upper (pa * d / 100)).
  lra.
Qed.

Lemma durationSec_nonneg (cs : SessionData) (now : number) (stats : Stats) :
  startedAt cs <= now -> 0 <= durationSec (sessionRecord cs now stats).
Proof.
  intros H. cbn [sessionRecord durationSec]. unfold Math_floor.
  change 0 with (inject_Z 0). rewrite <- Zle_Qle.
  change 0%Z with (Qfloor 0). apply Qfloor_resp_le.
  assert (E : (now - startedAt cs) / 1000 * 1000 == now - startedAt cs) by field.
  lra.
Qed.

(** Stopped after 1000 s, the 1000-sample session gets 980 + 10 + 10 + 10
    seconds: ten more than its duration (by both measures), beyond any
    tolerance of 4. *)
Lemma C5_sum_off_by_ten :
  exists w' r,
    stopSession 1000000 thousandTicks = Returned "s3"%string w'
    /\ savedSessions (idb w') = [r]
    /\ durationSec r == 1000
    /\ engagedSec r == 980 /\ distractedSec r == 10
    /\ sleepySec r == 10 /\ awaySec r == 10
    /\ ~ (sumSeconds r - durationSec r <= 4).
Proof.
  eexists. eexists. split; [reflexivity|]. split; [reflexivity|].
  repeat (split; [vm_compute; reflexivity|]).
  vm_compute. intros H. apply H. reflexivity.
Qed.

(** C5 (amended).  For a session with at least one sample, stopped no earlier
    than it started, the four per-state seconds of the record add up to its
    duration within 2 + duration / 50: four roundings of half a second, and
    the up to two percentage points by which the rounded percentages miss
    100.  For durations up to 100 s that is within 4. *)
Theorem C5_seconds_sum_within_two_percent :
  forall (w : World) (cs : SessionData) (now : number),
    currentSession w = Some cs ->
    timeSeries cs <> [] ->
    startedAt cs <= now ->
    exists w',
      stopSession now w = Returned (id cs) w'
      /\ savedSessions (idb w') = savedSessions (idb w) ++ [stopRecord cs now]
      /\ let r := stopRecord cs now in
         - (2 + durationSec r / 50) <= sumSeconds r - durationSec r
                                    <= 2 + durationSec r / 50
         /\ (durationSec r <= 100 -> -4 <= sumSeconds r - durationSec r <= 4).
Proof.
  intros w cs now Hcur Hne Hle.
  exists (stopWorld w cs now).
  split; [now apply stopSession_some|].
  split; [apply savedSessions_stopWorld|].
  cbv zeta.
  assert (Hd : 0 <= durationSec (stopRecord cs now))
    by (now apply durationSec_nonneg).
  assert (Hb := seconds_bound (engagementStatsOf (Some cs))
                  (durationSec (stopRecord cs now)) Hd (stats_sum cs Hne)).
  cbv zeta in Hb.
  assert (Hs : sumSeconds (stopRecord cs now)
               == Math_round (st_engaged (engagementStatsOf (Some cs))
                              * durationSec (stopRecord cs now) / 100)
                  + Math_round (st_distracted (engagementStatsOf (Some cs))
                                * durationSec (stopRecord cs now) / 100)
                  + Math_round (st_sleepy (engagementStatsOf (Some cs))
                                * durationSec (stopRecord cs now) / 100)
                  + Math_round (st_away (engagementStatsOf (Some cs))
                                * durationSec (stopRecord cs now) / 100))
    by reflexivity.
  rewrite Hs. split; [exact Hb|].
  intros H100.
  assert (Hd50 : durationSec (stopRecord cs now) / 50 * 50
                 == durationSec (stopRecord cs now)) by field.
  lra.
Qed.

Lemma C5_seconds_sum_within_two_percent_witness :
  exists w',
    stopSession 2000 twoTicks = Returned "s1"%string w'
    /\ -4 <= sumSeconds (stopRecord
                           {| id := "s1"; userId := "u1"; startedAt := 0;
                              endedAt := None; isActive := true;
                              isPaused := false; duration := 2;
                              timeSeries := [sample engaged 85 1000;
                                             sample distracted 60 2000];
                              lastNudgeTime := None; nudgeCount := 0 |} 2000)
             - 2 <= 4.
Proof.
  destruct (C5_seconds_sum_within_two_percent twoTicks _ 2000 eq_refl)
    as (w' & Hrun & _ & _ & H4).
  - discriminate.
  - vm_compute. discriminate.
  - exists w'. split; [exact Hrun|]. apply H4. vm_compute. discriminate.
Defined.

(* ------------------------------------------------------------------------- *)
(** ** C8: the nudge cooldown *)
(* ------------------------------------------------------------------------- *)

Lemma lastOf_snoc (l : list number) (x : number) : lastOf (l ++ [x]) = Some x.
Proof. unfold lastOf. now rewrite rev_unit. Qed.

Lemma call_agrees (g : bool * list number) (w : World) (c : Call) :
  agrees g w -> agrees (historyStep g c) (call w c).
Proof.
  destruct w as [[cs|] log]; unfold agrees; cbn [currentSession].
  - intros [Hs Hl]. destruct c; cbn; auto.
    + destruct (isActive cs); cbn; auto.
    + destruct (isActive cs); cbn; auto.
    + destruct (isActive cs), (isPaused cs); cbn; auto.
    + rewrite Hs. cbn. now rewrite lastOf_snoc.
  - intros ->. destruct c; cbn; auto.
Qed.

Lemma run_agrees (calls : list Call) : agrees (history calls) (run calls).
Proof.
  unfold history, run.
  induction calls as [|c calls IH] using rev_ind; [reflexivity|].
  rewrite !fold_left_app. cbn [fold_left]. now apply call_agrees.
Qed.

Lemma nudgesRecorded_In (calls : list Call) (t : number) :
  In t (nudgesRecorded calls) -> In (CallRecordNudge t) calls.
Proof.
  unfold nudgesRecorded, history.
  induction calls as [|c calls IH] using rev_ind; [intros []|].
  rewrite fold_left_app. cbn [fold_left]. rewrite in_app_iff.
  destruct c; cbn [historyStep snd]; auto.
  - intros [].
  - destruct (fst (fold_left historyStep calls (false, []))); cbn [snd]; auto.
    rewrite in_app_iff. cbn. intros [H | [<- | []]]; auto.
Qed.

Lemma lastOf_In (l : list number) (t : number) : lastOf l = Some t -> In t l.
Proof.
  unfold lastOf. intros H. apply in_rev.
  destruct (rev l); [discriminate|]. injection H as ->. now left.
Qed.

Lemma lastOf_None (l : list number) : lastOf l = None -> l = [].
Proof.
  unfold lastOf. intros H. destruct (rev l) eqn:E; [|discriminate].
  rewrite <- (rev_involutive l), E. reflexivity.
Qed.

(** [shouldShowNudge] on a session whose last nudge was recorded at [t]. *)
Lemma shouldShowNudge_after (w : World) (cs : SessionData) (t now : number) :
  currentSession w = Some cs -> lastNudgeTime cs = Some t -> ~ t == 0 ->
  shouldShowNudge now w = Returned (geb (now - t) NUDGE_COOLDOWN_MS) w.
Proof.
  destruct w as [cur log]. cbn [currentSession]. intros -> Hl Hnz.
  unfold shouldShowNudge, bind, get. cbn. rewrite Hl. cbn.
  destruct (Qeq_bool t 0) eqn:E; [|reflexivity].
  apply Qeq_bool_eq in E. contradiction.
Qed.

Lemma recordNudge_some (w : World) (cs : SessionData) (now : number) :
  currentSession w = Some cs ->
  recordNudge now w
  = Returned tt {| currentSession := Some (with_nudge cs now); idb := idb w |}.
Proof.
  destruct w as [cur log]. cbn [currentSession]. intros ->. reflexivity.
Qed.

(** C8.  Whatever calls were made on the store so far, with the clock never
    reading 0 when a nudge was recorded: [shouldShowNudge now] returns, leaves
    the store alone, and answers [true] exactly when no nudge was recorded in
    the current session or [now] is at least 60000 ms after the last one.
    In particular, when a session is in the store and a nudge is recorded at
    [tn] between a call at [t1] and a call at [t2] less than 60000 ms later,
    the second call answers [false]; and any call at 60000 ms or more after
    [tn] answers [true]. *)
Theorem C8_nudge_cooldown :
  (forall (calls : list Call) (now : number),
      (forall t, In (CallRecordNudge t) calls -> ~ t == 0) ->
      exists b,
        shouldShowNudge now (run calls) = Returned b (run calls)
        /\ (b = true <->
            nudgesRecorded calls = []
            \/ exists t, lastOf (nudgesRecorded calls) = Some t
                         /\ 60000 <= now - t))
  /\ (forall (w : World) (cs : SessionData) (t1 tn t2 t3 : number),
        currentSession w = Some cs ->
        ~ tn == 0 -> t1 <= tn -> tn <= t2 ->
        t2 - t1 < 60000 -> 60000 <= t3 - tn ->
        exists b1 w1,
          shouldShowNudge t1 w = Returned b1 w
          /\ recordNudge tn w = Returned tt w1
          /\ shouldShowNudge t2 w1 = Returned false w1
          /\ shouldShowNudge t3 w1 = Returned true w1).
Proof.
  split.
  - intros calls now Hclock.
    generalize (run_agrees calls). unfold agrees.
    destruct (currentSession (run calls)) as [cs|] eqn:Hcur.
    + intros [_ Hlast].
      change (snd (history calls)) with (nudgesRecorded calls) in Hlast.
      destruct (lastNudgeTime cs) as [t|] eqn:Hl.
      * assert (Hnz : ~ t == 0).
        { apply Hclock, nudgesRecorded_In, lastOf_In. now symmetry. }
        exists (geb (now - t) NUDGE_COOLDOWN_MS).
        split; [now apply (shouldShowNudge_after _ cs)|].
        unfold geb, NUDGE_COOLDOWN_MS. rewrite Qle_bool_iff. split.
        -- intros H. right. exists t. now split.
        -- intros [Hnil | (t' & Ht' & H)].
           ++ rewrite Hnil in Hlast. discriminate.
           ++ rewrite Ht' in Hlast. now injection Hlast as ->.
      * exists true. split.
        -- destruct (run calls) as [cur log]. cbn in Hcur. subst cur.
           unfold shouldShowNudge, bind, get. cbn. now rewrite Hl.
        -- split; [|reflexivity]. intros _. left.
           apply lastOf_None. now symmetry.
    + intros Hg. exists true. split.
      * destruct (run calls) as [cur log]. cbn in Hcur. now subst cur.
      * split; [|reflexivity]. intros _. left.
        unfold nudgesRecorded. now rewrite Hg.
  - intros w cs t1 tn t2 t3 Hcur Hnz H1 H2 Hclose Hfar.
    assert (Hret : exists b1, shouldShowNudge t1 w = Returned b1 w).
    { destruct w as [cur log]. cbn in Hcur. subst cur.
      unfold shouldShowNudge, bind, get. cbn.
      destruct (lastNudgeTime cs); [|eauto].
      destruct (negb (truthy (Some q))); unfold ret; eauto. }
    destruct Hret as [b1 Hb1]. exists b1. eexists.
    split; [exact Hb1|].
    split; [exact (recordNudge_some w cs tn Hcur)|].
    split.
    + rewrite (shouldShowNudge_after
                 {| currentSession := Some (with_nudge cs tn); idb := idb w |}
                 (with_nudge cs tn) tn t2 eq_refl eq_refl Hnz).
      f_equal. unfold geb, NUDGE_COOLDOWN_MS.
      destruct (Qle_bool 60000 (t2 - tn)) eqn:E; [|reflexivity].
      apply Qle_bool_iff in E. lra.
    + rewrite (shouldShowNudge_after
                 {| currentSession := Some (with_nudge cs tn); idb := idb w |}
                 (with_nudge cs tn) tn t3 eq_refl eq_refl Hnz).
      f_equal. unfold geb, NUDGE_COOLDOWN_MS.
      now apply Qle_bool_iff.
Qed.

(** A session started at noon of 2025-01-01 (1735732800000 ms), a nudge
    recorded 5 s later, and the gate asked 10 s and 70 s after the start. *)
Lemma C8_nudge_cooldown_witness :
  let calls := [CallStart "s4" 1735732800000 "u1";
                CallRecordNudge 1735732805000] in
  (exists b, shouldShowNudge 1735732810000 (run calls) = Returned b (run calls)
             /\ b = false)
  /\ (exists b, shouldShowNudge 1735732870000 (run calls) = Returned b (run calls)
                /\ b = true).
Proof.
  intros calls.
  assert (Hclock : forall t, In (CallRecordNudge t) calls -> ~ t == 0).
  { intros t [H | [H | []]]; [discriminate|]. injection H as <-.
    intros E. vm_compute in E. discriminate. }
  split.
  - destruct (proj1 C8_nudge_cooldown calls 1735732810000 Hclock)
      as (b & Hrun & Hiff).
    exists b. split; [exact Hrun|].
    destruct b; [|reflexivity]. exfalso.
    destruct (proj1 Hiff eq_refl) as [H | (t & Ht & H)].
    + vm_compute in H. discriminate.
    + vm_compute in Ht. injection Ht as <-. vm_compute in H. now apply H.
  - destruct (proj1 C8_nudge_cooldown calls 1735732870000 Hclock)
      as (b & Hrun & Hiff).
    exists b. split; [exact Hrun|].
    apply Hiff. right. exists 1735732805000. split; [reflexivity|].
    vm_compute. discriminate.
Defined.

(** The one reading the hypothesis on the clock excludes: a nudge recorded
    when [Date.now()] is 0 is stored as [lastNudgeTime = 0], which
    [shouldShowNudge] reads as "no nudge yet". *)
Lemma nudge_at_clock_zero :
  let calls := [CallStart "s4" 0 "u1"; CallRecordNudge 0] in
  nudgesRecorded calls = [0]
  /\ shouldShowNudge 1000 (run calls) = Returned true (run calls).
Proof. split; reflexivity. Qed.

(* ------------------------------------------------------------------------- *)
(** ** The score history is a window of the last 30 scores *)
(* ------------------------------------------------------------------------- *)

Lemma lastN_all {A} (n : nat) (l : list A) :
  (List.length l <= n)%nat -> lastN n l = l.
Proof.
  intros H. unfold lastN. now replace (List.length l - n)%nat with 0%nat by lia.
Qed.

Lemma lastN_length {A} (n : nat) (l : list A) :
  List.length (lastN n l) = Nat.min (List.length l) n.
Proof. unfold lastN. rewrite length_skipn. lia. Qed.

Lemma lastN_app_lastN {A} (n : nat) (a b : list A) :
  lastN n (lastN n a ++ b) = lastN n (a ++ b).
Proof.
  destruct (Nat.le_gt_cases (List.length a) n) as [H | H].
  - now rewrite (lastN_all n a).
  - unfold lastN at 1 3. rewrite !length_app, lastN_length.
    rewrite !skipn_app. unfold lastN. rewrite skipn_skipn, length_skipn.
    f_equal; f_equal; lia.
Qed.

Lemma lastN_In {A} (n : nat) (l : list A) (x : A) : In x (lastN n l) -> In x l.
Proof.
  unfold lastN. intros H. rewrite <- (firstn_skipn (List.length l - n) l).
  apply in_or_app. now right.
Qed.

Lemma pushScore_lastN (hist : list number) (s : number) :
  (List.length hist <= maxHistoryLength)%nat ->
  pushScore hist s = lastN maxHistoryLength (hist ++ [s]).
Proof.
  intros H. unfold pushScore, lastN. rewrite length_app. cbn [List.length].
  destruct (Nat.ltb_spec maxHistoryLength (List.length hist + 1)) as [L | L].
  - replace (List.length hist + 1 - maxHistoryLength)%nat with 1%nat by lia.
    now destruct (hist ++ [s]).
  - now replace (List.length hist + 1 - maxHistoryLength)%nat with 0%nat by lia.
Qed.

Lemma processFrames_app (fs gs : list Frame) :
  forall e,
    processFrames e (fs ++ gs)
    = (fst (processFrames e fs) ++ fst (processFrames (snd (processFrames e fs)) gs),
       snd (processFrames (snd (processFrames e fs)) gs)).
Proof.
  induction fs as [|f r IH]; intros e.
  - cbn. now destruct (processFrames e gs).
  - cbn [app processFrames].
    destruct (processFrame e (f_cv f) (f_hands f) (f_time f)) as [m e1].
    rewrite IH. destruct (processFrames e1 r) as [ms e2]. reflexivity.
Qed.

Lemma processFrames_length (fs : list Frame) :
  forall e, List.length (fst (processFrames e fs)) = List.length fs.
Proof.
  induction fs as [|f r IH]; intros e; [reflexivity|].
  cbn [processFrames].
  destruct (processFrame e (f_cv f) (f_hands f) (f_time f)) as [m e1].
  specialize (IH e1). destruct (processFrames e1 r) as [ms e2].
  cbn in *. now rewrite IH.
Qed.

Lemma processFrames_config (fs : list Frame) :
  forall e, config (snd (processFrames e fs)) = config e.
Proof.
  induction fs as [|f r IH]; intros e; [reflexivity|].
  cbn [processFrames].
  destruct (processFrame e (f_cv f) (f_hands f) (f_time f)) as [m e1] eqn:E1.
  specialize (IH e1). destruct (processFrames e1 r) as [ms e2].
  cbn [snd] in *. rewrite IH.
  unfold processFrame in E1. injection E1 as _ <-. reflexivity.
Qed.

Lemma scoreHistory_window (fs : list Frame) :
  forall e,
    (List.length (scoreHistory e) <= maxHistoryLength)%nat ->
    scoreHistory (snd (processFrames e fs))
    = lastN maxHistoryLength
        (scoreHistory e ++ scoresOf (fst (processFrames e fs))).
Proof.
  induction fs as [|f r IH]; intros e He.
  - cbn. rewrite app_nil_r. now rewrite lastN_all.
  - cbn [processFrames].
    destruct (processFrame e (f_cv f) (f_hands f) (f_time f)) as [m e1] eqn:E1.
    assert (Hh : scoreHistory e1 = pushScore (scoreHistory e) (score m)).
    { unfold processFrame in E1. injection E1 as <- <-. reflexivity. }
    assert (He1 : (List.length (scoreHistory e1) <= maxHistoryLength)%nat).
    { rewrite Hh, pushScore_lastN, lastN_length by assumption. lia. }
    specialize (IH e1 He1). destruct (processFrames e1 r) as [ms e2].
    cbn [fst snd] in *. rewrite IH, Hh, pushScore_lastN by assumption.
    rewrite lastN_app_lastN. unfold scoresOf. cbn [List.map].
    now rewrite <- app_assoc.
Qed.

Lemma scoreHistory_is_last_30_aux (p : PartialEngagementConfig) (fs : list Frame) :
  scoreHistory (snd (processFrames (newEngine p) fs))
  = lastN 30 (scoresOf (fst (processFrames (newEngine p) fs)))
  /\ List.length (scoreHistory (snd (processFrames (newEngine p) fs)))
     = Nat.min (List.length fs) 30.
Proof.
  assert (H : scoreHistory (snd (processFrames (newEngine p) fs))
              = lastN 30 (scoresOf (fst (processFrames (newEngine p) fs)))).
  { rewrite scoreHistory_window by (cbn; lia). reflexivity. }
  split; [exact H|].
  rewrite H, lastN_length. unfold scoresOf. rewrite length_map.
  now rewrite processFrames_length.
Qed.

(** X1.  The engine keeps the scores of the last 30 ticks and no more: after
    any run of a new engine the score history is the last [min (n, 30)] scores
    it returned, oldest first. *)
Theorem scoreHistory_is_last_30 :
  forall (p : PartialEngagementConfig) (fs : list Frame),
    let r := processFrames (newEngine p) fs in
    scoreHistory (snd r) = lastN 30 (scoresOf (fst r))
    /\ List.length (scoreHistory (snd r)) = Nat.min (List.length fs) 30.
Proof.
  intros p fs r. apply scoreHistory_is_last_30_aux.
Qed.

(* ------------------------------------------------------------------------- *)
(** ** The trend queries *)
(* ------------------------------------------------------------------------- *)

Lemma sumScores_from (l : list number) :
  forall a, fold_left (fun sum sc => sum + sc) l a == a + sumScores l.
Proof.
  unfold sumScores. induction l as [|x r IH]; intros a; cbn [fold_left].
  - ring.
  - rewrite (IH (a + x)), (IH (0 + x)). ring.
Qed.

Lemma sumScores_cons (x : number) (l : list number) :
  sumScores (x :: l) == x + sumScores l.
Proof.
  unfold sumScores at 1. cbn [fold_left]. rewrite sumScores_from. ring.
Qed.

Lemma of_nat_cons {A} (x : A) (l : list A) :
  of_nat (List.length (x :: l)) == of_nat (List.length l) + 1.
Proof. cbn [List.length]. now rewrite <- of_nat_succ. Qed.

Lemma of_nat_nonneg (n : nat) : 0 <= of_nat n.
Proof.
  unfold of_nat. change 0 with (inject_Z 0). rewrite <- Zle_Qle. lia.
Qed.

Lemma sumScores_upper (hi : number) (l : list number) :
  Forall (fun x => x <= hi) l ->
  sumScores l <= hi * of_nat (List.length l).
Proof.
  induction 1 as [|x r Hx _ IH].
  - change (0 <= hi * 0). lra.
  - rewrite sumScores_cons, of_nat_cons. lra.
Qed.

Lemma sumScores_lower (lo : number) (l : list number) :
  Forall (fun x => lo <= x) l ->
  lo * of_nat (List.length l) <= sumScores l.
Proof.
  induction 1 as [|x r Hx _ IH].
  - change (lo * 0 <= 0). lra.
  - rewrite sumScores_cons, of_nat_cons. lra.
Qed.

(** The mean of a non-empty array lies between any bounds of its elements. *)
Lemma mean_bounds (lo hi : number) (l : list number) :
  l <> [] ->
  Forall (fun x => lo <= x) l -> Forall (fun x => x <= hi) l ->
  exists avg, divide (sumScores l) (of_nat (List.length l)) = Some avg
              /\ lo <= avg <= hi.
Proof.
  intros Hne Hlo Hhi.
  assert (Hpos : 0 < of_nat (List.length l)).
  { apply of_nat_pos. destruct l; [congruence|cbn; lia]. }
  unfold divide. destruct (Qeq_bool (of_nat (List.length l)) 0) eqn:E.
  - apply Qeq_bool_eq in E. lra.
  - eexists. split; [reflexivity|].
    generalize (sumScores_lower lo l Hlo) (sumScores_upper hi l Hhi).
    set (n := of_nat (List.length l)) in *. set (s := sumScores l).
    intros H1 H2.
    assert (En : s / n * n == s) by (field; lra).
    split.
    + apply Qmult_le_r with (z := n); [assumption|]. lra.
    + apply Qmult_le_r with (z := n); [assumption|]. lra.
Qed.

Lemma ToInteger_neg_bounds (len : nat) (ws : number) :
  0 < ws -> ws <= of_nat len ->
  (- Z.of_nat len <= ToInteger (- ws) <= 0)%Z.
Proof.
  intros Hpos Hle. unfold ToInteger.
  destruct (Qle_bool 0 (- ws)) eqn:E.
  - apply Qle_bool_iff in E. lra.
  - split.
    + change (- Z.of_nat len)%Z with (- Z.of_nat len)%Z.
      rewrite <- (Qceiling_Z (- Z.of_nat len)).
      apply Qceiling_resp_le. rewrite inject_Z_opp. unfold of_nat in Hle. lra.
    + change 0%Z with (Qceiling 0). apply Qceiling_resp_le. lra.
Qed.

(** [scores.slice(-windowSize)] for a window within the array: a non-empty
    suffix. *)
Lemma slice_recent (l : list number) (ws : number) :
  0 < ws -> ws <= of_nat (List.length l) ->
  exists k, (k < List.length l)%nat /\ Array_slice l (- ws) None = skipn k l.
Proof.
  intros Hpos Hle.
  assert (Hlen : (0 < List.length l)%nat).
  { destruct l; [|cbn; lia]. change (ws <= 0) in Hle. lra. }
  destruct (ToInteger_neg_bounds _ _ Hpos Hle) as [Hlo Hhi].
  unfold Array_slice.
  set (k := relativeIndex (List.length l) (- ws)).
  assert (Hk : (k < List.length l)%nat).
  { unfold k, relativeIndex. destruct (Z.ltb_spec (ToInteger (- ws)) 0); lia. }
  exists k. split; [exact Hk|].
  rewrite firstn_all2; [reflexivity|]. rewrite length_skipn. lia.
Qed.

Lemma Forall_skipn {A} (P : A -> Prop) (k : nat) (l : list A) :
  Forall P l -> Forall P (skipn k l).
Proof.
  intros H. rewrite <- (firstn_skipn k l) in H.
  now apply Forall_app in H.
Qed.

Lemma Math_min_window (w : number) (n : nat) :
  0 < w -> (0 < n)%nat ->
  0 < Math_min w (of_nat n) /\ Math_min w (of_nat n) <= of_nat n.
Proof.
  intros Hw Hn. generalize (of_nat_pos n Hn). intros Hp.
  destruct (Math_min_spec w (of_nat n)) as [[E H] | [E H]]; rewrite E; lra.
Qed.

Lemma trend_needs_five (e : EngagementEngine) (w : number) :
  (List.length (scoreHistory e) < 5)%nat \/ w < 5 ->
  getTrendDirection e w = stable.
Proof.
  intros H. unfold getTrendDirection.
  set (ws := Math_min w (of_nat (List.length (scoreHistory e)))).
  assert (Hws : ws < 5).
  { assert (Hn : (List.length (scoreHistory e) < 5)%nat -> 
                 of_nat (List.length (scoreHistory e)) < 5).
    { intros L. unfold of_nat. change 5 with (inject_Z 5).
      rewrite <- Zlt_Qlt. lia. }
    unfold ws.
    destruct (Math_min_spec w (of_nat (List.length (scoreHistory e))))
      as [[E L] | [E L]]; rewrite E; destruct H as [H | H];
      try lra; specialize (Hn H); lra. }
  unfold ltb. destruct (Qle_bool 5 ws) eqn:E; [|reflexivity].
  apply Qle_bool_iff in E. lra.
Qed.

(** X3.  [getTrendDirection] answers ["stable"] whenever fewer than five
    frames have been processed since the engine was made, or the window is
    shorter than five, whatever the scores are. *)
Theorem getTrendDirection_stable_below_five :
  forall (p : PartialEngagementConfig) (fs : list Frame) (w : number),
    (List.length fs < 5)%nat \/ w < 5 ->
    getTrendDirection (snd (processFrames (newEngine p) fs)) w = stable.
Proof.
  intros p fs w H. apply trend_needs_five.
  destruct H as [H | H]; [left|now right].
  rewrite (proj2 (scoreHistory_is_last_30_aux p fs)). lia.
Qed.

Lemma getTrendDirection_stable_below_five_witness :
  getTrendDirection
    (snd (processFrames (newEngine emptyPartial)
            [recoveredFrame 1000; absentFrame 2000; absentFrame 3000;
             absentFrame 4000])) 10
  = stable.
Proof.
  apply (getTrendDirection_stable_below_five emptyPartial
           [recoveredFrame 1000; absentFrame 2000; absentFrame 3000;
            absentFrame 4000] 10).
  left. cbn. lia.
Defined.

Lemma StronglySorted_app_inv {A} (R : A -> A -> Prop) (a b : list A) :
  StronglySorted R (a ++ b) ->
  StronglySorted R a /\ StronglySorted R b
  /\ (forall x y, In x a -> In y b -> R x y).
Proof.
  induction a as [|h a IH]; cbn [app]; intros H.
  - split; [constructor|]. split; [assumption|]. intros x y [].
  - apply StronglySorted_inv in H. destruct H as [Hs Hh].
    destruct (IH Hs) as (Ha & Hb & Hab).
    rewrite Forall_app in Hh. destruct Hh as [Hha Hhb].
    split; [now constructor|]. split; [assumption|].
    intros x y [<- | Hx] Hy.
    + rewrite Forall_forall in Hhb. now apply Hhb.
    + now apply Hab.
Qed.

Lemma StronglySorted_slice {A} (R : A -> A -> Prop) (l : list A)
    (start : number) (stop : option number) :
  StronglySorted R l -> StronglySorted R (Array_slice l start stop).
Proof.
  intros H. unfold Array_slice.
  set (k := relativeIndex (List.length l) start).
  set (n := (_ - k)%nat).
  rewrite <- (firstn_skipn k l) in H.
  apply StronglySorted_app_inv in H. destruct H as (_ & H & _).
  rewrite <- (firstn_skipn n (skipn k l)) in H.
  now apply StronglySorted_app_inv in H.
Qed.

(** The two halves [getTrendDirection] compares split the window in two. *)
Lemma slice_halves {A} (l : list A) (h : number) :
  Array_slice l 0 (Some h) = firstn (relativeIndex (List.length l) h) l
  /\ Array_slice l h None = skipn (relativeIndex (List.length l) h) l.
Proof.
  unfold Array_slice. split.
  - change (relativeIndex (List.length l) 0) with (Z.to_nat (Z.min 0 (Z.of_nat (List.length l)))).
    replace (Z.to_nat (Z.min 0 (Z.of_nat (List.length l)))) with 0%nat by lia.
    cbn [skipn]. now rewrite Nat.sub_0_r.
  - rewrite firstn_all2; [reflexivity|]. rewrite length_skipn. lia.
Qed.

Lemma divide_some (a b avg : number) :
  divide a b = Some avg -> ~ b == 0 /\ avg == a / b.
Proof.
  unfold divide. destruct (Qeq_bool b 0) eqn:E; [discriminate|].
  intros [= <-]. split; [now apply Qeq_bool_neq|reflexivity].
Qed.

Lemma mean_upper (hi avg : number) (l : list number) :
  Forall (fun x => x <= hi) l ->
  divide (sumScores l) (of_nat (List.length l)) = Some avg -> avg <= hi.
Proof.
  intros Hhi Hd. apply divide_some in Hd. destruct Hd as [Hnz ->].
  generalize (sumScores_upper hi l Hhi) (of_nat_nonneg (List.length l)).
  set (n := of_nat (List.length l)) in *. set (s := sumScores l).
  intros H1 H2.
  assert (Hpos : 0 < n) by (apply Qle_lteq in H2; destruct H2 as [H2|H2];
                            [assumption|symmetry in H2; contradiction]).
  assert (En : s / n * n == s) by (field; lra).
  apply Qmult_le_r with (z := n); [assumption|]. lra.
Qed.

Lemma mean_lower (lo avg : number) (l : list number) :
  Forall (fun x => lo <= x) l ->
  divide (sumScores l) (of_nat (List.length l)) = Some avg -> lo <= avg.
Proof.
  intros Hlo Hd. apply divide_some in Hd. destruct Hd as [Hnz ->].
  generalize (sumScores_lower lo l Hlo) (of_nat_nonneg (List.length l)).
  set (n := of_nat (List.length l)) in *. set (s := sumScores l).
  intros H1 H2.
  assert (Hpos : 0 < n) by (apply Qle_lteq in H2; destruct H2 as [H2|H2];
                            [assumption|symmetry in H2; contradiction]).
  assert (En : s / n * n == s) by (field; lra).
  apply Qmult_le_r with (z := n); [assumption|]. lra.
Qed.

(** When every element of one array is related to every element of another,
    so are their means (for [<=] and for [>=]). *)
Lemma means_ordered (a b : list number) (ma mb : number) :
  divide (sumScores a) (of_nat (List.length a)) = Some ma ->
  divide (sumScores b) (of_nat (List.length b)) = Some mb ->
  ((forall x y, In x a -> In y b -> x <= y) -> ma <= mb)
  /\ ((forall x y, In x a -> In y b -> y <= x) -> mb <= ma).
Proof.
  intros Ha Hb.
  assert (Hnb : exists y r, b = y :: r).
  { destruct b as [|y r]; [|eauto]. apply divide_some in Hb.
    destruct Hb as [Hb _]. exfalso. apply Hb. reflexivity. }
  destruct Hnb as (y0 & r & Eb). split; intros H.
  - assert (H1 : ma <= y0).
    { apply (mean_upper y0 ma a); [|assumption].
      apply Forall_forall. intros x Hx. apply H; [assumption|].
      rewrite Eb. now left. }
    assert (H2 : ma <= mb).
    { apply (mean_lower ma mb b); [|assumption].
      apply Forall_forall. intros y Hy.
      apply (mean_upper y ma a); [|assumption].
      apply Forall_forall. intros x Hx. now apply H. }
    exact H2.
  - apply (mean_upper ma mb b); [|assumption].
    apply Forall_forall. intros y Hy.
    apply (mean_lower y ma a); [|assumption].
    apply Forall_forall. intros x Hx. now apply H.
Qed.

(** X4.  The trend follows the scores: when the recorded scores never go
    down, [getTrendDirection] does not answer ["declining"], and when they
    never go up it does not answer ["improving"], for every window. *)
Theorem getTrendDirection_follows_monotone_scores :
  forall (e : EngagementEngine) (w : number),
    (nondecreasing (scoreHistory e) -> getTrendDirection e w <> declining)
    /\ (nonincreasing (scoreHistory e) -> getTrendDirection e w <> improving).
Proof.
  intros e w. unfold getTrendDirection, nondecreasing, nonincreasing.
  set (ws := Math_min w (of_nat (List.length (scoreHistory e)))).
  destruct (ltb ws 5); [split; discriminate|].
  set (recent := Array_slice (scoreHistory e) (- ws) None).
  destruct (slice_halves recent (Math_floor (ws / 2))) as [-> ->].
  set (f := relativeIndex (List.length recent) (Math_floor (ws / 2))).
  destruct (divide (sumScores (firstn f recent)) _) as [ma|] eqn:Ea;
    [|split; discriminate].
  destruct (divide (sumScores (skipn f recent)) _) as [mb|] eqn:Eb;
    [|split; discriminate].
  destruct (means_ordered _ _ ma mb Ea Eb) as [Hup Hdown].
  split; intros Hs.
  - assert (Hr : StronglySorted (fun a b => a <= b) recent)
      by (now apply StronglySorted_slice).
    rewrite <- (firstn_skipn f recent) in Hr.
    apply StronglySorted_app_inv in Hr. destruct Hr as (_ & _ & Hr).
    specialize (Hup Hr).
    destruct (gtb (mb - ma) 5); [discriminate|].
    unfold ltb. destruct (Qle_bool (-5) (mb - ma)) eqn:E; [discriminate|].
    exfalso. assert (H5 : -5 <= mb - ma) by lra.
    apply Qle_bool_iff in H5. congruence.
  - assert (Hr : StronglySorted (fun a b => b <= a) recent)
      by (now apply StronglySorted_slice).
    rewrite <- (firstn_skipn f recent) in Hr.
    apply StronglySorted_app_inv in Hr. destruct Hr as (_ & _ & Hr).
    specialize (Hdown Hr).
    unfold gtb. destruct (Qle_bool (mb - ma) 5) eqn:E.
    + cbn. destruct (ltb (mb - ma) (-5)); discriminate.
    + exfalso. assert (H5 : mb - ma <= 5) by lra.
      apply Qle_bool_iff in H5. congruence.
Qed.

Lemma getTrendDirection_follows_monotone_scores_witness :
  getTrendDirection
    {| config := defaultConfig; stateHistory := emptyHistory;
       scoreHistory := [40; 50; 60; 70; 80; 90] |} 6
  <> declining.
Proof.
  apply (proj1 (getTrendDirection_follows_monotone_scores
                  {| config := defaultConfig; stateHistory := emptyHistory;
                     scoreHistory := [40; 50; 60; 70; 80; 90] |} 6)).
  unfold nondecreasing. cbn [scoreHistory].
  repeat (apply SSorted_cons;
          [|repeat (apply Forall_cons; [vm_compute; discriminate|]);
            apply Forall_nil]).
  apply SSorted_nil.
Defined.

(** X5.  [reset] forgets what the engine has seen and keeps its
    configuration: after it the average over any non-negative window is the
    baseline score, the trend is ["stable"], and what the engine returns for
    the next frames does not depend on the frames processed before the
    reset. *)
Theorem reset_forgets_the_past :
  forall (e : EngagementEngine) (past fs : list Frame) (w : number),
    0 <= w ->
    let e' := reset (snd (processFrames e past)) in
    getAverageScore e' w = Some (baselineScore (config e))
    /\ getTrendDirection e' w = stable
    /\ processFrames e' fs = processFrames (reset e) fs.
Proof.
  intros e past fs w Hw e'.
  assert (He' : e' = reset e).
  { unfold e', reset. now rewrite processFrames_config. }
  rewrite He'. split; [|split].
  - unfold getAverageScore, reset. cbn [scoreHistory List.length config].
    assert (E : Qeq_bool (Math_min w (of_nat 0)) 0 = true).
    { apply Qeq_bool_iff.
      destruct (Math_min_spec w (of_nat 0)) as [[E L] | [E L]]; rewrite E.
      - change (of_nat 0) with 0 in L. lra.
      - reflexivity. }
    now rewrite E.
  - apply trend_needs_five. left. cbn. lia.
  - reflexivity.
Qed.

Lemma reset_forgets_the_past_witness :
  getAverageScore
    (reset (snd (processFrames (newEngine emptyPartial)
                   [absentFrame 1000; absentFrame 2000]))) 10
  = Some 70.
Proof.
  apply (reset_forgets_the_past (newEngine emptyPartial)
           [absentFrame 1000; absentFrame 2000] [] 10).
  vm_compute. discriminate.
Defined.

(** On an engine without scores a negative window makes [getAverageScore]
    divide 0 by 0. *)
Lemma getAverageScore_negative_window :
  getAverageScore (newEngine emptyPartial) (-3) = None.
Proof. reflexivity. Qed.

(* ------------------------------------------------------------------------- *)
(** ** What each state tells about the tick *)
(* ------------------------------------------------------------------------- *)

(** A timer armed on this very tick has measured nothing yet. *)
Lemma elapsed_just_armed (c : bool) (ts : number) :
  elapsed (track c None ts) ts == 0.
Proof.
  destruct c; [|reflexivity]. unfold track, elapsed. cbn.
  destruct (Qeq_bool ts 0); cbn; [reflexivity|]. field.
Qed.

(** X6.  The state names what the tick showed.  [engaged] is returned only
    for a sample with the face present, not looking away, eyes open, no
    fidgeting, no hand over the face and no negative expression; [away] is
    returned only for a sample without a face. *)
Theorem state_reflects_the_sample :
  forall (e : EngagementEngine) (cvMetrics : CVMetrics)
         (handMetrics : HandMetrics) (ts : number),
    let m := fst (processFrame e cvMetrics handMetrics ts) in
    (state m = engaged ->
       facePresent cvMetrics = true /\ lookingAway cvMetrics = false
       /\ eyesClosed cvMetrics = false
       /\ handsFidgeting handMetrics = false /\ handOverFace handMetrics = false
       /\ isNegativeExpression (expressionLabel cvMetrics) = false)
    /\ (state m = away -> facePresent cvMetrics = false).
Proof.
  intros e cvMetrics handMetrics ts m. unfold m, processFrame.
  cbn [fst state]. unfold determineEngagementState.
  repeat match goal with
         | |- context [geb ?a ?b] => destruct (geb a b)
         end;
    destruct (facePresent cvMetrics), (lookingAway cvMetrics),
      (eyesClosed cvMetrics), (handsFidgeting handMetrics),
      (handOverFace handMetrics),
      (isNegativeExpression (expressionLabel cvMetrics));
    cbn [negb andb orb];
    split; intros H; try discriminate H; repeat split; reflexivity.
Qed.

Lemma state_reflects_the_sample_witness :
  facePresent (f_cv (recoveredFrame 2100)) = true
  /\ lookingAway (f_cv (recoveredFrame 2100)) = false
  /\ eyesClosed (f_cv (recoveredFrame 2100)) = false
  /\ handsFidgeting (f_hands (recoveredFrame 2100)) = false
  /\ handOverFace (f_hands (recoveredFrame 2100)) = false
  /\ isNegativeExpression (expressionLabel (f_cv (recoveredFrame 2100))) = false.
Proof.
  apply (proj1 (state_reflects_the_sample (newEngine emptyPartial)
                  (f_cv (recoveredFrame 2100)) (f_hands (recoveredFrame 2100))
                  2100)).
  reflexivity.
Defined.

Lemma not_sleepy_when_timers_unset (e : EngagementEngine)
    (cvMetrics : CVMetrics) (handMetrics : HandMetrics) (ts : number) :
  eyesClosedStart (stateHistory e) = None ->
  yawnStart (stateHistory e) = None ->
  0 < eyeClosedDuration (config e) -> 0 < yawnDuration (config e) ->
  state (fst (processFrame e cvMetrics handMetrics ts)) <> sleepy.
Proof.
  intros He Hy Hde Hdy. unfold processFrame. cbn [fst state].
  unfold determineEngagementState.
  unfold updateStateHistory at 2 3. cbn [eyesClosedStart yawnStart].
  rewrite He, Hy.
  assert (E1 : geb (elapsed (track (eyesClosed cvMetrics) None ts) ts)
                   (eyeClosedDuration (config e)) = false).
  { unfold geb. destruct (Qle_bool _ _) eqn:E; [|reflexivity].
    apply Qle_bool_iff in E. rewrite elapsed_just_armed in E. lra. }
  assert (E2 : geb (elapsed (track (yawning cvMetrics) None ts) ts)
                   (yawnDuration (config e)) = false).
  { unfold geb. destruct (Qle_bool _ _) eqn:E; [|reflexivity].
    apply Qle_bool_iff in E. rewrite elapsed_just_armed in E. lra. }
  rewrite E1, E2. cbn [orb].
  repeat match goal with
         | |- context [if ?c then _ else _] => destruct c
         end; discriminate.
Qed.

Lemma processFrame_clears_timers (e : EngagementEngine)
    (cvMetrics : CVMetrics) (handMetrics : HandMetrics) (ts : number) :
  eyesClosed cvMetrics = false -> yawning cvMetrics = false ->
  eyesClosedStart (stateHistory (snd (processFrame e cvMetrics handMetrics ts)))
  = None
  /\ yawnStart (stateHistory (snd (processFrame e cvMetrics handMetrics ts)))
     = None.
Proof.
  intros He Hy. unfold processFrame, updateStateHistory.
  cbn [snd stateHistory eyesClosedStart yawnStart]. now rewrite He, Hy.
Qed.

(** X7.  Hysteresis: with positive [eyeClosedDuration] and [yawnDuration],
    the first tick after a tick with the eyes open and no yawn is never
    [sleepy], whatever that tick shows; a single closed-eyes sample cannot
    trigger the state. *)
Theorem first_tick_of_a_closure_is_not_sleepy :
  forall (e : EngagementEngine) (before : list Frame) (f0 f : Frame),
    0 < eyeClosedDuration (config e) -> 0 < yawnDuration (config e) ->
    eyesClosed (f_cv f0) = false -> yawning (f_cv f0) = false ->
    forall m,
      nth_error (fst (processFrames e (before ++ [f0; f])))
                (S (List.length before)) = Some m ->
      state m <> sleepy.
Proof.
  intros e before f0 f Hde Hdy He Hy m.
  rewrite processFrames_app. cbn [fst].
  rewrite nth_error_app2 by (rewrite processFrames_length; lia).
  rewrite processFrames_length.
  replace (S (List.length before) - List.length before)%nat with 1%nat by lia.
  set (e1 := snd (processFrames e before)).
  assert (Hc : config e1 = config e) by apply processFrames_config.
  cbn [processFrames].
  destruct (processFrame e1 (f_cv f0) (f_hands f0) (f_time f0)) as [m0 e2] eqn:E0.
  destruct (processFrame e2 (f_cv f) (f_hands f) (f_time f)) as [m1 e3] eqn:E1.
  cbn [fst nth_error]. intros [= <-].
  destruct (processFrame_clears_timers e1 (f_cv f0) (f_hands f0) (f_time f0) He Hy)
    as [T1 T2].
  rewrite E0 in T1, T2. cbn [snd] in T1, T2.
  assert (Hc2 : config e2 = config e).
  { unfold processFrame in E0. injection E0 as _ <-. exact Hc. }
  replace m1 with (fst (processFrame e2 (f_cv f) (f_hands f) (f_time f)))
    by now rewrite E1.
  apply not_sleepy_when_timers_unset; try assumption; now rewrite Hc2.
Qed.

Lemma first_tick_of_a_closure_is_not_sleepy_witness :
  exists m,
    nth_error (fst (processFrames (newEngine emptyPartial)
                      ([eyesClosedFrame 1000] ++
                       [recoveredFrame 2000; eyesClosedFrame 3000])))
              2 = Some m
    /\ state m <> sleepy.
Proof.
  eexists. split; [reflexivity|].
  apply (first_tick_of_a_closure_is_not_sleepy (newEngine emptyPartial)
           [eyesClosedFrame 1000] (recoveredFrame 2000) (eyesClosedFrame 3000));
    reflexivity.
Defined.

(* ------------------------------------------------------------------------- *)
(** ** Sustained conditions *)
(* ------------------------------------------------------------------------- *)

Lemma track_kept (t0 ts : number) :
  ~ t0 == 0 -> track true (Some t0) ts = Some t0.
Proof.
  intros H. unfold track. cbn.
  destruct (Qeq_bool t0 0) eqn:E; [|reflexivity].
  apply Qeq_bool_eq in E. contradiction.
Qed.

Lemma elapsed_since (t0 ts : number) :
  ~ t0 == 0 -> elapsed (Some t0) ts = (ts - t0) / 1000.
Proof.
  intros H. unfold elapsed. cbn.
  destruct (Qeq_bool t0 0) eqn:E; [|reflexivity].
  apply Qeq_bool_eq in E. contradiction.
Qed.

Lemma eyesClosedStart_kept (fs : list Frame) :
  forall (e : EngagementEngine) (t0 : number),
    eyesClosedStart (stateHistory e) = Some t0 -> ~ t0 == 0 ->
    Forall (fun f => eyesClosed (f_cv f) = true) fs ->
    eyesClosedStart (stateHistory (snd (processFrames e fs))) = Some t0.
Proof.
  induction fs as [|f r IH]; intros e t0 Hs Hnz Hall; [exact Hs|].
  inversion Hall as [|f' r' Hf Hr]; subst.
  cbn [processFrames].
  destruct (processFrame e (f_cv f) (f_hands f) (f_time f)) as [m1 e1] eqn:E1.
  destruct (processFrames e1 r) as [ms e2] eqn:E2. cbn [snd].
  replace e2 with (snd (processFrames e1 r)) by now rewrite E2.
  apply IH; [|assumption|assumption].
  replace e1 with (snd (processFrame e (f_cv f) (f_hands f) (f_time f)))
    by now rewrite E1.
  unfold processFrame. cbn [snd stateHistory].
  unfold updateStateHistory. cbn [eyesClosedStart].
  rewrite Hf, Hs. now apply track_kept.
Qed.



(** X9.  Sustained closure: when the eyes are closed on consecutive ticks,
    the first of them at a timestamp [t0] other than 0 and not preceded by a
    closure, every tick of the run with the face present and at least
    [eyeClosedDuration] seconds after [t0] is [sleepy]. *)
Theorem sustained_closure_is_sleepy :
  forall (e : EngagementEngine) (f0 : Frame) (fs : list Frame) (f : Frame),
    eyesClosedStart (stateHistory e) = None ->
    eyesClosed (f_cv f0) = true ->
    Forall (fun g => eyesClosed (f_cv g) = true) fs ->
    eyesClosed (f_cv f) = true ->
    facePresent (f_cv f) = true ->
    ~ f_time f0 == 0 ->
    eyeClosedDuration (config e) * 1000 <= f_time f - f_time f0 ->
    state (fst (processFrame (snd (processFrames e (f0 :: fs)))
                  (f_cv f) (f_hands f) (f_time f))) = sleepy.
Proof.
  intros e f0 fs f Hnone H0 Hfs Hf Hface Hnz Hlong.
  set (e1 := snd (processFrames e (f0 :: fs))).
  assert (Hstart : eyesClosedStart (stateHistory e1) = Some (f_time f0)).
  { unfold e1. change (f0 :: fs) with ([f0] ++ fs).
    rewrite processFrames_app. cbn [snd].
    apply eyesClosedStart_kept; [|assumption|assumption].
    cbn [processFrames processFrame snd stateHistory].
    unfold updateStateHistory. cbn [eyesClosedStart]. now rewrite H0, Hnone. }
  assert (Hc : config e1 = config e) by apply processFrames_config.
  unfold processFrame. cbn [fst state]. unfold determineEngagementState.
  rewrite Hface. cbn [negb andb].
  unfold updateStateHistory at 1. cbn [eyesClosedStart].
  rewrite Hf, Hstart, track_kept, elapsed_since, Hc by assumption.
  assert (E : geb ((f_time f - f_time f0) / 1000) (eyeClosedDuration (config e))
              = true).
  { unfold geb. apply Qle_bool_iff. apply Qle_shift_div_l; [reflexivity|].
    exact Hlong. }
  now rewrite E.
Qed.

Lemma sustained_closure_is_sleepy_witness :
  state (fst (processFrame
                (snd (processFrames (newEngine emptyPartial)
                        [eyesClosedFrame 5000]))
                (f_cv (eyesClosedFrame 6000)) (f_hands (eyesClosedFrame 6000))
                (f_time (eyesClosedFrame 6000))))
  = sleepy.
Proof.
  apply (sustained_closure_is_sleepy (newEngine emptyPartial)
           (eyesClosedFrame 5000) [] (eyesClosedFrame 6000)).
  - reflexivity.
  - reflexivity.
  - constructor.
  - reflexivity.
  - reflexivity.
  - intros H. vm_compute in H. discriminate.
  - vm_compute. discriminate.
Defined.

(* ------------------------------------------------------------------------- *)
(** ** The store over any history of calls *)
(* ------------------------------------------------------------------------- *)

(** A property of the session that every call preserves holds after every
    history of calls. *)
Lemma run_invariant (P : World -> Prop) :
  P initialWorld ->
  (forall w c, P w -> P (call w c)) ->
  forall calls, P (run calls).
Proof.
  intros H0 Hstep calls. unfold run.
  induction calls as [|c calls IH] using rev_ind; [exact H0|].
  rewrite fold_left_app. cbn [fold_left]. now apply Hstep.
Qed.

Lemma call_durationCountsTicks (w : World) (c : Call) :
  durationCountsTicks w -> durationCountsTicks (call w c).
Proof.
  unfold durationCountsTicks. destruct w as [[cs|] log]; cbn [currentSession];
    intros H; destruct c; cbn; intros cs';
    try discriminate;
    try (intros [= <-]; cbn; try reflexivity; try discriminate;
         now apply H).
  - destruct (isActive cs) eqn:Ha; cbn; intros [= <-]; cbn; auto.
  - destruct (isActive cs) eqn:Ha; cbn; intros [= <-]; cbn; auto.
  - destruct (isActive cs) eqn:Ha, (isPaused cs) eqn:Hp; cbn;
      intros [= <-]; cbn; auto.
Qed.

(** X10.  After any history of calls, a session that is still active has
    [duration] equal to the number of samples in its series. *)
Theorem active_duration_counts_samples :
  forall (calls : list Call) (cs : SessionData),
    currentSession (run calls) = Some cs -> isActive cs = true ->
    duration cs = of_nat (List.length (timeSeries cs)).
Proof.
  intros calls.
  apply (run_invariant durationCountsTicks).
  - intros cs H. discriminate H.
  - apply call_durationCountsTicks.
Qed.

Lemma active_duration_counts_samples_witness :
  exists cs,
    currentSession (run [CallStart "s4" 1735732800000 "u1";
                         CallAddMetrics (sample engaged 85 1735732801000);
                         CallPause;
                         CallAddMetrics (sample away 45 1735732802000);
                         CallResume;
                         CallAddMetrics (sample sleepy 40 1735732803000)])
    = Some cs
    /\ duration cs = 2.
Proof.
  eexists. split; [reflexivity|].
  apply (active_duration_counts_samples
           [CallStart "s4" 1735732800000 "u1";
            CallAddMetrics (sample engaged 85 1735732801000);
            CallPause;
            CallAddMetrics (sample away 45 1735732802000);
            CallResume;
            CallAddMetrics (sample sleepy 40 1735732803000)] _ eq_refl eq_refl).
Defined.

Lemma call_countsNudges (g : bool * list number) (w : World) (c : Call) :
  agrees g w -> countsNudges g w ->
  countsNudges (historyStep g c) (call w c).
Proof.
  unfold agrees, countsNudges. destruct w as [[cs|] log]; cbn [currentSession].
  - intros [Hs _] H. specialize (H cs eq_refl).
    destruct c; cbn; intros cs'.
    + intros [= <-]. reflexivity.
    + destruct (isActive cs); cbn; intros [= <-]; cbn; auto.
    + destruct (isActive cs); cbn; intros [= <-]; cbn; auto.
    + destruct (isActive cs), (isPaused cs); cbn; intros [= <-]; cbn; auto.
    + rewrite Hs. cbn. intros [= <-]. cbn.
      rewrite H, length_app. cbn [List.length].
      rewrite Nat.add_1_r. apply of_nat_succ.
    + intros [= <-]. cbn. exact H.
  - intros -> _. destruct c; cbn; intros cs'; try discriminate.
    intros [= <-]. reflexivity.
Qed.

Lemma run_countsNudges (calls : list Call) :
  countsNudges (history calls) (run calls).
Proof.
  unfold history, run.
  induction calls as [|c calls IH] using rev_ind; [intros cs H; discriminate H|].
  rewrite !fold_left_app. cbn [fold_left]. apply call_countsNudges.
  - apply run_agrees.
  - exact IH.
Qed.

(** X11.  After any history of calls, [nudgeCount] is the number of nudges
    recorded since the session in the store was started. *)
Theorem nudgeCount_counts_recorded_nudges :
  forall (calls : list Call) (cs : SessionData),
    currentSession (run calls) = Some cs ->
    nudgeCount cs = of_nat (List.length (nudgesRecorded calls)).
Proof.
  intros calls cs H. now apply (run_countsNudges calls).
Qed.

Lemma nudgeCount_counts_recorded_nudges_witness :
  exists cs,
    currentSession (run [CallRecordNudge 1735732700000;
                         CallStart "s4" 1735732800000 "u1";
                         CallRecordNudge 1735732805000;
                         CallStop 1735732900000;
                         CallRecordNudge 1735732905000]) = Some cs
    /\ nudgeCount cs = 2.
Proof.
  eexists. split; [reflexivity|].
  apply (nudgeCount_counts_recorded_nudges
           [CallRecordNudge 1735732700000;
            CallStart "s4" 1735732800000 "u1";
            CallRecordNudge 1735732805000;
            CallStop 1735732900000;
            CallRecordNudge 1735732905000] _ eq_refl).
Defined.

(* ------------------------------------------------------------------------- *)
(** ** Accumulating samples, pausing, and an ended session *)
(* ------------------------------------------------------------------------- *)

Lemma addMetrics_active (w : World) (cs : SessionData) (m : EngagementMetrics) :
  currentSession w = Some cs -> isActive cs = true -> isPaused cs = false ->
  call w (CallAddMetrics m)
  = {| currentSession :=
         Some (with_timeSeries cs (timeSeries cs ++ [m])
                 (of_nat (List.length (timeSeries cs ++ [m]))));
       idb := idb w |}.
Proof.
  destruct w as [cur log]. cbn [currentSession]. intros -> Ha Hp.
  cbn. now rewrite Ha, Hp.
Qed.

Lemma addMetrics_all (ms : list EngagementMetrics) :
  forall (w : World) (cs : SessionData),
    currentSession w = Some cs -> isActive cs = true -> isPaused cs = false ->
    exists cs',
      runFrom w (List.map CallAddMetrics ms)
      = {| currentSession := Some cs'; idb := idb w |}
      /\ timeSeries cs' = timeSeries cs ++ ms
      /\ isActive cs' = true /\ isPaused cs' = false
      /\ id cs' = id cs /\ startedAt cs' = startedAt cs
      /\ lastNudgeTime cs' = lastNudgeTime cs /\ nudgeCount cs' = nudgeCount cs.
Proof.
  induction ms as [|m ms IH]; intros w cs Hcur Ha Hp.
  - exists cs. destruct w as [cur log]. cbn in *. subst cur.
    rewrite app_nil_r. repeat split; auto.
  - cbn [List.map runFrom fold_left].
    rewrite (addMetrics_active w cs m Hcur Ha Hp).
    destruct (IH {| currentSession :=
                      Some (with_timeSeries cs (timeSeries cs ++ [m])
                              (of_nat (List.length (timeSeries cs ++ [m]))));
                    idb := idb w |} _ eq_refl Ha Hp)
      as (cs' & Hrun & Hts & Ha' & Hp' & Hid & Hst & Hl & Hn).
    exists cs'. unfold runFrom in Hrun. rewrite Hrun. cbn [idb].
    split; [reflexivity|]. cbn in Hts. rewrite <- app_assoc in Hts.
    repeat split; assumption.
Qed.

(** X12.  On a running session that is not paused, a sequence of
    [addMetrics] calls appends its samples to the series in arrival order and
    sends nothing to IndexedDB; the [duration] becomes the new length. *)
Theorem addMetrics_appends_in_order :
  forall (w : World) (cs : SessionData) (ms : list EngagementMetrics),
    currentSession w = Some cs -> isActive cs = true -> isPaused cs = false ->
    exists cs',
      runFrom w (List.map CallAddMetrics ms)
      = {| currentSession := Some cs'; idb := idb w |}
      /\ timeSeries cs' = timeSeries cs ++ ms
      /\ (ms <> [] ->
          duration cs' = of_nat (List.length (timeSeries cs) + List.length ms)).
Proof.
  intros w cs ms Hcur Ha Hp.
  destruct (addMetrics_all ms w cs Hcur Ha Hp)
    as (cs' & Hrun & Hts & Ha' & _).
  exists cs'. split; [exact Hrun|]. split; [exact Hts|].
  intros Hne. rewrite <- length_app, <- Hts.
  destruct (exists_last Hne) as (ms0 & m & ->).
  rewrite map_app in Hrun. unfold runFrom in Hrun.
  rewrite fold_left_app in Hrun. cbn [List.map fold_left] in Hrun.
  destruct (addMetrics_all ms0 w cs Hcur Ha Hp)
    as (cs0 & Hrun0 & Hts0 & Ha0 & Hp0 & _).
  unfold runFrom in Hrun0. rewrite Hrun0 in Hrun.
  rewrite (addMetrics_active {| currentSession := Some cs0; idb := idb w |}
             cs0 m eq_refl Ha0 Hp0) in Hrun.
  injection Hrun as <-. reflexivity.
Qed.

Lemma addMetrics_appends_in_order_witness :
  exists cs',
    runFrom {| currentSession := Some oneTick; idb := [] |}
      (List.map CallAddMetrics [sample away 45 1735732802000;
                                sample sleepy 40 1735732803000])
    = {| currentSession := Some cs'; idb := [] |}
    /\ timeSeries cs' = [sample engaged 85 1735732801000;
                         sample away 45 1735732802000;
                         sample sleepy 40 1735732803000].
Proof.
  destruct (addMetrics_appends_in_order
              {| currentSession := Some oneTick; idb := [] |} oneTick
              [sample away 45 1735732802000; sample sleepy 40 1735732803000]
              eq_refl eq_refl eq_refl) as (cs' & Hrun & Hts & _).
  exists cs'. split; [exact Hrun|exact Hts].
Defined.

Lemma paused_addMetrics_noop (ms : list EngagementMetrics) :
  forall (w : World) (cs : SessionData),
    currentSession w = Some cs -> isPaused cs = true ->
    runFrom w (List.map CallAddMetrics ms) = w.
Proof.
  induction ms as [|m ms IH]; intros w cs Hcur Hp; [reflexivity|].
  cbn [List.map runFrom fold_left].
  assert (E : call w (CallAddMetrics m) = w).
  { destruct w as [cur log]. cbn in Hcur. subst cur. cbn.
    rewrite Hp. now destruct (isActive cs). }
  rewrite E. now apply (IH w cs).
Qed.

(** X13.  Samples offered while the session is paused are dropped: pausing a
    running session, offering any samples, and resuming leaves the series,
    the duration and IndexedDB as they were, with the session running again. *)
Theorem paused_samples_are_dropped :
  forall (w : World) (cs : SessionData) (ms : list EngagementMetrics),
    currentSession w = Some cs -> isActive cs = true ->
    runFrom w (CallPause :: List.map CallAddMetrics ms ++ [CallResume])
    = {| currentSession := Some (with_isPaused cs false); idb := idb w |}.
Proof.
  intros w cs ms Hcur Ha. unfold runFrom.
  cbn [fold_left]. rewrite fold_left_app.
  assert (E : call w CallPause
              = {| currentSession := Some (with_isPaused cs true);
                   idb := idb w |}).
  { destruct w as [cur log]. cbn in Hcur. subst cur. cbn. now rewrite Ha. }
  rewrite E.
  generalize (paused_addMetrics_noop ms
                {| currentSession := Some (with_isPaused cs true);
                   idb := idb w |} _ eq_refl eq_refl).
  unfold runFrom. intros ->. cbn. now rewrite Ha.
Qed.

Lemma paused_samples_are_dropped_witness :
  runFrom {| currentSession := Some oneTick; idb := [] |}
    (CallPause :: List.map CallAddMetrics [sample away 45 1735732802000]
       ++ [CallResume])
  = {| currentSession := Some (with_isPaused oneTick false); idb := [] |}.
Proof.
  apply (paused_samples_are_dropped
           {| currentSession := Some oneTick; idb := [] |} oneTick
           [sample away 45 1735732802000] eq_refl eq_refl).
Defined.

Lemma ended_call_noop (w : World) (cs : SessionData) (c : Call) :
  currentSession w = Some cs -> isActive cs = false ->
  isTickOrPause c = true -> call w c = w.
Proof.
  destruct w as [cur log]. cbn [currentSession]. intros -> Ha Hc.
  destruct c; try discriminate Hc; cbn; now rewrite Ha.
Qed.

(** X14.  An ended session stays in the store and is frozen: after
    [stopSession], any sequence of [pauseSession], [resumeSession] and
    [addMetrics] calls changes nothing.  [stopSession] itself is not guarded
    against an ended session: a second call does not throw, returns the same
    id and sends the record and all the points to IndexedDB once more. *)
Theorem ended_session_is_frozen_but_can_be_stopped_again :
  forall (w : World) (cs : SessionData) (now1 now2 : number)
         (calls : list Call),
    currentSession w = Some cs ->
    forallb isTickOrPause calls = true ->
    exists w1 w2,
      stopSession now1 w = Returned (id cs) w1
      /\ runFrom w1 calls = w1
      /\ stopSession now2 w1 = Returned (id cs) w2
      /\ List.length (savedSessions (idb w2))
         = (List.length (savedSessions (idb w)) + 2)%nat
      /\ savedPoints (idb w2)
         = savedPoints (idb w) ++ timeSeriesPoints cs ++ timeSeriesPoints cs.
Proof.
  intros w cs now1 now2 calls Hcur Hcalls.
  set (cs1 := with_stopped cs now1 (Math_floor ((now1 - startedAt cs) / 1000))).
  exists (stopWorld w cs now1), (stopWorld (stopWorld w cs now1) cs1 now2).
  split; [now apply stopSession_some|]. split.
  { unfold runFrom. induction calls as [|c calls IH]; [reflexivity|].
    cbn [forallb] in Hcalls. apply andb_prop in Hcalls.
    destruct Hcalls as [Hc Hcalls]. cbn [fold_left].
    rewrite (ended_call_noop (stopWorld w cs now1) cs1 c eq_refl eq_refl Hc).
    now apply IH. }
  split; [exact (stopSession_some (stopWorld w cs now1) cs1 now2 eq_refl)|].
  split.
  - rewrite !savedSessions_stopWorld, !length_app. cbn. lia.
  - assert (Hp : forall w0 c0 n0,
               savedPoints (idb (stopWorld w0 c0 n0))
               = savedPoints (idb w0) ++ timeSeriesPoints c0).
    { intros w0 c0 n0. unfold stopWorld, savedPoints. cbn [idb].
      rewrite !flat_map_app. cbn [flat_map]. rewrite app_nil_r. f_equal.
      induction (timeSeriesPoints c0) as [|q r IH]; [reflexivity|].
      cbn. now rewrite IH. }
    rewrite !Hp, <- app_assoc. reflexivity.
Qed.

Lemma ended_session_is_frozen_but_can_be_stopped_again_witness :
  exists w1 w2,
    stopSession 2000 twoTicks = Returned "s1"%string w1
    /\ runFrom w1 [CallAddMetrics (sample engaged 85 3000); CallPause] = w1
    /\ stopSession 9000 w1 = Returned "s1"%string w2
    /\ List.length (savedSessions (idb w2)) = 2%nat.
Proof.
  destruct (ended_session_is_frozen_but_can_be_stopped_again
              twoTicks _ 2000 9000
              [CallAddMetrics (sample engaged 85 3000); CallPause]
              eq_refl eq_refl) as (w1 & w2 & H1 & H2 & H3 & H4 & _).
  exists w1, w2. repeat split; assumption.
Defined.

(* ------------------------------------------------------------------------- *)
(** ** The percentages and the counts of the record *)
(* ------------------------------------------------------------------------- *)

Lemma bump_nonneg (acc : Stats) (m : EngagementMetrics) :
  0 <= st_engaged acc /\ 0 <= st_distracted acc
  /\ 0 <= st_sleepy acc /\ 0 <= st_away acc ->
  0 <= st_engaged (bump acc m) /\ 0 <= st_distracted (bump acc m)
  /\ 0 <= st_sleepy (bump acc m) /\ 0 <= st_away (bump acc m).
Proof.
  intros (H1 & H2 & H3 & H4). unfold bump.
  destruct (state m); cbn; repeat split; lra.
Qed.

Lemma counts_nonneg (ts : list EngagementMetrics) :
  forall acc,
    0 <= st_engaged acc /\ 0 <= st_distracted acc
    /\ 0 <= st_sleepy acc /\ 0 <= st_away acc ->
    let c := fold_left bump ts acc in
    0 <= st_engaged c /\ 0 <= st_distracted c
    /\ 0 <= st_sleepy c /\ 0 <= st_away c.
Proof.
  induction ts as [|m r IH]; intros acc H; [exact H|].
  cbn [fold_left]. apply IH. now apply bump_nonneg.
Qed.

(** Rounding a share of a positive total, as a percentage. *)
Lemma percentage_in_range (c total : number) :
  0 < total -> 0 <= c -> c <= total ->
  exists z : Z, Math_round (c / total * 100) = inject_Z z /\ (0 <= z <= 100)%Z.
Proof.
  intros Ht Hc Hle. unfold Math_round.
  exists (Qfloor (c / total * 100 + (1 # 2))). split; [reflexivity|].
  assert (E : c / total * total == c) by (field; lra).
  assert (H0 : 0 <= c / total).
  { apply Qmult_le_r with (z := total); [assumption|]. lra. }
  assert (H1 : c / total <= 1).
  { apply Qmult_le_r with (z := total); [assumption|]. lra. }
  split.
  - change 0%Z with (Qfloor 0). apply Qfloor_resp_le. lra.
  - rewrite <- (Qfloor_Z 100) at 2. 
    destruct (Z_le_gt_dec (Qfloor (c / total * 100 + (1 # 2))) 100) as [L|G];
      [now rewrite Qfloor_Z|].
    exfalso. assert (G' : (101 <= Qfloor (c / total * 100 + (1 # 2)))%Z) by lia.
    rewrite Zle_Qle in G'.
    generalize (Qfloor_le (c / total * 100 + (1 # 2))).
    change (inject_Z 101) with 101 in G'. lra.
Qed.

Lemma getEngagementStats_are_percentages_aux (cur : option SessionData) :
  exists ze zd zs za : Z,
    st_engaged (engagementStatsOf cur) = inject_Z ze
    /\ st_distracted (engagementStatsOf cur) = inject_Z zd
    /\ st_sleepy (engagementStatsOf cur) = inject_Z zs
    /\ st_away (engagementStatsOf cur) = inject_Z za
    /\ (0 <= ze <= 100)%Z /\ (0 <= zd <= 100)%Z
    /\ (0 <= zs <= 100)%Z /\ (0 <= za <= 100)%Z.
Proof.
  destruct cur as [cs|]; cbn [engagementStatsOf].
  2:{ exists 0%Z, 0%Z, 0%Z, 0%Z. repeat split; try reflexivity; lia. }
  destruct (timeSeries cs) as [|m0 r] eqn:Ets.
  { exists 0%Z, 0%Z, 0%Z, 0%Z. repeat split; try reflexivity; lia. }
  cbn [List.length Nat.eqb].
  set (total := of_nat (S (List.length r))).
  set (counts := fold_left bump (m0 :: r) zeroStats).
  assert (Hpos : 0 < total) by (apply of_nat_pos; lia).
  assert (Hsum : sumStats counts == total).
  { unfold counts. rewrite counts_sum. cbn [List.length].
    unfold sumStats, zeroStats. cbn. fold total. ring. }
  destruct (counts_nonneg (m0 :: r) zeroStats) as (N1 & N2 & N3 & N4).
  { cbn. repeat split; lra. }
  fold counts in N1, N2, N3, N4. unfold sumStats in Hsum.
  destruct (percentage_in_range (st_engaged counts) total)
    as (ze & Ee & He); try assumption; [lra|].
  destruct (percentage_in_range (st_distracted counts) total)
    as (zd & Ed & Hd); try assumption; [lra|].
  destruct (percentage_in_range (st_sleepy counts) total)
    as (zs & Es & Hs); try assumption; [lra|].
  destruct (percentage_in_range (st_away counts) total)
    as (za & Ea & Ha); try assumption; [lra|].
  exists ze, zd, zs, za. cbn [st_engaged st_distracted st_sleepy st_away].
  repeat split; try assumption; lia.
Qed.

(** X15.  The four numbers [getEngagementStats] returns are whole
    percentages between 0 and 100; they are all 0 when there is no session
    or the series is empty; and the call leaves the store alone. *)
Theorem getEngagementStats_are_percentages :
  forall (w : World),
    exists s,
      getEngagementStats w = Returned s w
      /\ (exists ze zd zs za : Z,
            st_engaged s = inject_Z ze /\ st_distracted s = inject_Z zd
            /\ st_sleepy s = inject_Z zs /\ st_away s = inject_Z za
            /\ (0 <= ze <= 100)%Z /\ (0 <= zd <= 100)%Z
            /\ (0 <= zs <= 100)%Z /\ (0 <= za <= 100)%Z)
      /\ ((forall cs, currentSession w = Some cs -> timeSeries cs = []) ->
          s = zeroStats).
Proof.
  intros [cur log]. exists (engagementStatsOf cur).
  split; [reflexivity|].
  split; [apply getEngagementStats_are_percentages_aux|].
  cbn [currentSession]. intros H. destruct cur as [cs|]; [|reflexivity].
  cbn [engagementStatsOf]. now rewrite (H cs eq_refl).
Qed.

Lemma hasRuns_count (k : nat) (l : list EngagementMetrics) :
  hasRuns k l ->
  (k <= countDistracting l)%nat /\ (k = 0%nat -> countDistracting l = 0%nat).
Proof.
  assert (Hcalm : forall gap, Forall calm gap -> countDistracting gap = 0%nat).
  { induction 1 as [|m r Hm _ IH]; [reflexivity|].
    unfold countDistracting in *. cbn [List.filter].
    destruct Hm as [-> | ->]; cbn; exact IH. }
  assert (Hrun : forall run, run <> [] -> Forall distracting run ->
                             (1 <= countDistracting run)%nat).
  { intros run Hne H. destruct H as [|m r Hm _]; [congruence|].
    unfold countDistracting. cbn [List.filter].
    destruct Hm as [-> | ->]; cbn; lia. }
  assert (Happ : forall a b, countDistracting (a ++ b)
                             = (countDistracting a + countDistracting b)%nat).
  { intros a b. unfold countDistracting. now rewrite filter_app, length_app. }
  induction 1 as [gap Hgap | k gap run rest Hgap Hne Hr Hrest _ [IH _]].
  - rewrite (Hcalm gap Hgap). split; [lia|reflexivity].
  - rewrite !Happ, (Hcalm gap Hgap).
    specialize (Hrun run Hne Hr). split; [lia|discriminate].
Qed.

Lemma filter_length_le {A} (f : A -> bool) (l : list A) :
  (List.length (List.filter f l) <= List.length l)%nat.
Proof.
  induction l as [|x r IH]; [reflexivity|].
  cbn. destruct (f x); cbn; lia.
Qed.

Lemma Math_round_nonneg (x : number) : 0 <= x -> 0 <= Math_round x.
Proof.
  intros H. unfold Math_round. change 0 with (inject_Z 0) at 1.
  rewrite <- Zle_Qle. change 0%Z with (Qfloor 0).
  apply Qfloor_resp_le. lra.
Qed.

Lemma stats_nonneg (cur : option SessionData) :
  0 <= st_engaged (engagementStatsOf cur)
  /\ 0 <= st_distracted (engagementStatsOf cur)
  /\ 0 <= st_sleepy (engagementStatsOf cur)
  /\ 0 <= st_away (engagementStatsOf cur).
Proof.
  destruct (getEngagementStats_are_percentages_aux cur)
    as (ze & zd & zs & za & -> & -> & -> & -> & He & Hd & Hs & Ha).
  change 0 with (inject_Z 0). rewrite <- !Zle_Qle. lia.
Qed.

(** X16.  The record [stopSession] saves for a session stopped no earlier
    than it started has non-negative duration and per-state seconds; its
    [yawnCount] is the number of sleepy samples; and its
    [distractedEpisodes] is a whole number, at most the number of distracted
    or sleepy samples, and 0 only when there is none. *)
Theorem stopRecord_counts :
  forall (cs : SessionData) (now : number),
    startedAt cs <= now ->
    let r := stopRecord cs now in
    0 <= durationSec r
    /\ 0 <= engagedSec r /\ 0 <= distractedSec r
    /\ 0 <= sleepySec r /\ 0 <= awaySec r
    /\ yawnCount r = of_nat (countSleepy (timeSeries cs))
    /\ (countSleepy (timeSeries cs) <= List.length (timeSeries cs))%nat
    /\ exists k : nat,
         distractedEpisodes r = of_nat k
         /\ (k <= countDistracting (timeSeries cs))%nat
         /\ (k = 0%nat <-> countDistracting (timeSeries cs) = 0%nat).
Proof.
  intros cs now Hle r.
  assert (Hd : 0 <= durationSec r) by (now apply durationSec_nonneg).
  destruct (stats_nonneg (Some cs)) as (N1 & N2 & N3 & N4).
  assert (Hsec : forall p, 0 <= p -> 0 <= Math_round (p * durationSec r / 100)).
  { intros p Hp. apply Math_round_nonneg.
    assert (E : p * durationSec r / 100 * 100 == p * durationSec r) by field.
    assert (0 <= p * durationSec r) by nra. lra. }
  split; [exact Hd|].
  split; [exact (Hsec _ N1)|]. split; [exact (Hsec _ N2)|].
  split; [exact (Hsec _ N3)|]. split; [exact (Hsec _ N4)|].
  split; [reflexivity|]. split; [apply filter_length_le|].
  destruct (hasRuns_total (timeSeries cs)) as [k Hk].
  exists k. split; [exact (hasRuns_fold k _ Hk 0%nat)|].
  destruct (hasRuns_count k _ Hk) as [H1 H2].
  split; [exact H1|]. split; [exact H2|lia].
Qed.

Lemma stopRecord_counts_witness :
  0 <= engagedSec (stopRecord oneTick 1735732810000).
Proof.
  apply (stopRecord_counts oneTick 1735732810000).
  vm_compute. discriminate.
Defined.

(* ------------------------------------------------------------------------- *)
(** ** The keys of the stored points *)
(* ------------------------------------------------------------------------- *)

Lemma index_to_string_inj (i j : nat) :
  index_to_string i = index_to_string j -> i = j.
Proof.
  unfold index_to_string. intros H.
  apply DecimalNat.Unsigned.to_uint_inj.
  assert (E : Some (Nat.to_uint i) = Some (Nat.to_uint j)).
  { rewrite <- !NilEmpty.usu. now rewrite H. }
  now injection E.
Qed.

Lemma append_inj (p a b : string) :
  (p ++ a)%string = (p ++ b)%string -> a = b.
Proof.
  induction p as [|c p IH]; cbn; [trivial|].
  intros [= H]. now apply IH.
Qed.

Lemma pointId_inj (sid : string) (i j : nat) :
  (sid ++ "-" ++ index_to_string i)%string
  = (sid ++ "-" ++ index_to_string j)%string -> i = j.
Proof.
  intros H. apply append_inj in H. apply (append_inj "-") in H.
  now apply index_to_string_inj.
Qed.

Lemma timeSeriesPoints_nth_id (cs : SessionData) (i : nat) (p : TimeSeriesPoint) :
  nth_error (timeSeriesPoints cs) i = Some p ->
  pt_id p = (id cs ++ "-" ++ index_to_string i)%string
  /\ tSec p = of_nat i /\ sessionId p = id cs.
Proof.
  unfold timeSeriesPoints, Array_map. rewrite map_from_nth_error.
  destruct (nth_error (timeSeries cs) i); [|discriminate].
  cbn. intros [= <-]. cbn. repeat split; reflexivity.
Qed.

(** X17.  The points [stopSession] saves carry pairwise distinct ids (so no
    [put] overwrites another point of the session), all carry the session's
    id, and the [tSec] of the point at position [i] is [i]. *)
Theorem timeSeriesPoints_have_distinct_ids :
  forall (cs : SessionData),
    NoDup (List.map pt_id (timeSeriesPoints cs))
    /\ (forall i p, nth_error (timeSeriesPoints cs) i = Some p ->
                    tSec p = of_nat i /\ sessionId p = id cs).
Proof.
  intros cs. split.
  - apply (proj2 (NoDup_nth_error _)). intros i j Hi E.
    rewrite length_map in Hi. rewrite !nth_error_map in E.
    destruct (nth_error (timeSeriesPoints cs) i) as [p|] eqn:Ep;
      [|apply nth_error_None in Ep; lia].
    destruct (nth_error (timeSeriesPoints cs) j) as [q|] eqn:Eq;
      [|discriminate].
    cbn in E. injection E as E.
    apply timeSeriesPoints_nth_id in Ep, Eq.
    destruct Ep as (Ep & _), Eq as (Eq & _). rewrite Ep, Eq in E.
    now apply pointId_inj in E.
  - intros i p H. now apply timeSeriesPoints_nth_id in H.
Qed.

(* ------------------------------------------------------------------------- *)
(** ** The sync route: what is stored for an upload *)
(* ------------------------------------------------------------------------- *)

Lemma round_in_range (x : number) :
  0 <= x <= 100 ->
  exists z : Z, Math_round x = inject_Z z /\ (0 <= z <= 100)%Z.
Proof.
  intros [H0 H1]. unfold Math_round.
  exists (Qfloor (x + (1 # 2))). split; [reflexivity|]. split.
  - change 0%Z with (Qfloor 0). apply Qfloor_resp_le. lra.
  - destruct (Z_le_gt_dec (Qfloor (x + (1 # 2))) 100) as [L|G]; [exact L|].
    exfalso. assert (G' : (101 <= Qfloor (x + (1 # 2)))%Z) by lia.
    rewrite Zle_Qle in G'. generalize (Qfloor_le (x + (1 # 2))).
    change (inject_Z 101) with 101 in G'. lra.
Qed.

Lemma sum_of_scores (ts : list SyncPoint) :
  forall a, fold_left (fun sum point => sum + sy_score point) ts a
            = fold_left (fun sum sc => sum + sc) (List.map sy_score ts) a.
Proof.
  induction ts as [|p r IH]; intros a; [reflexivity|]. cbn. apply IH.
Qed.

(** X18.  For an upload whose scores pass the schema (each between 0 and
    100), the average score stored in the aggregate is a whole number between
    0 and 100; for an upload without points it is 0. *)
Theorem storedAvgEngagementScore_in_range :
  forall (ts : list SyncPoint),
    forallb scoreInSchema ts = true ->
    (exists z : Z,
        storedAvgEngagementScore ts = inject_Z z /\ (0 <= z <= 100)%Z)
    /\ (ts = [] -> storedAvgEngagementScore ts = 0).
Proof.
  intros ts Hok. split; [|intros ->; reflexivity].
  unfold storedAvgEngagementScore. apply round_in_range.
  unfold avgEngagementScore.
  destruct ts as [|p0 r]; [cbn; lra|].
  cbn [List.length Nat.ltb Nat.leb]. rewrite sum_of_scores.
  rewrite forallb_forall in Hok.
  assert (Hlo : Forall (fun x => 0 <= x) (List.map sy_score (p0 :: r))).
  { apply Forall_forall. intros x Hx. apply in_map_iff in Hx.
    destruct Hx as (p & <- & Hp). specialize (Hok p Hp).
    unfold scoreInSchema, geb in Hok. apply andb_prop in Hok.
    now apply Qle_bool_iff. }
  assert (Hhi : Forall (fun x => x <= 100) (List.map sy_score (p0 :: r))).
  { apply Forall_forall. intros x Hx. apply in_map_iff in Hx.
    destruct Hx as (p & <- & Hp). specialize (Hok p Hp).
    unfold scoreInSchema, geb in Hok. apply andb_prop in Hok.
    now apply Qle_bool_iff. }
  destruct (mean_bounds 0 100 (List.map sy_score (p0 :: r)))
    as (avg & Hd & Hb); [discriminate|assumption|assumption|].
  rewrite length_map in Hd. unfold divide, sumScores in Hd.
  destruct (Qeq_bool (of_nat (List.length (p0 :: r))) 0); [discriminate|].
  injection Hd as <-. exact Hb.
Qed.

Lemma storedAvgEngagementScore_in_range_witness :
  exists z : Z,
    storedAvgEngagementScore
      [{| sy_tSec := 0; sy_state := engaged; sy_score := 85 |};
       {| sy_tSec := 1; sy_state := distracted; sy_score := 60 |}]
    = inject_Z z
    /\ (0 <= z <= 100)%Z.
Proof.
  apply (storedAvgEngagementScore_in_range
           [{| sy_tSec := 0; sy_state := engaged; sy_score := 85 |};
            {| sy_tSec := 1; sy_state := distracted; sy_score := 60 |}]).
  reflexivity.
Defined.



(* ------------------------------------------------------------------------- *)
(** ** The tips of the summary page *)
(* ------------------------------------------------------------------------- *)

(** X20.  [generateTips] sets no tips for a session of duration 0.  For any
    other session it sets between one and three tips, of which the first is
    one of the three tips about the overall focus; and the fatigue tip is the
    one dropped when all four apply: it is absent whenever the session lasted
    more than an hour and had more than five distracted episodes. *)
Theorem generateTips_shows_at_most_three :
  forall (session : Session) (points : list TimeSeriesPoint),
    (durationSec session == 0 -> generateTips session points = None)
    /\ (~ durationSec session == 0 ->
        exists first rest,
          generateTips session points = Some (first :: rest)
          /\ (List.length rest <= 2)%nat
          /\ (first = tipExcellent \/ first = tipGood \/ first = tipShorter)
          /\ (3600 < durationSec session -> 5 < distractedEpisodes session ->
              rest = [tipPomodoro; tipDistractions])).
Proof.
  intros session points. unfold generateTips. split.
  - intros H. apply Qeq_bool_iff in H. now rewrite H.
  - intros H. destruct (Qeq_bool (durationSec session) 0) eqn:E;
      [apply Qeq_bool_eq in E; contradiction|].
    cbv zeta.
    set (first := if geb _ 80 then tipExcellent
                  else if geb _ 60 then tipGood else tipShorter).
    assert (Hfirst : first = tipExcellent \/ first = tipGood
                     \/ first = tipShorter).
    { unfold first. destruct (geb _ 80); [auto|]. destruct (geb _ 60); auto. }
    unfold gtb.
    destruct (Qle_bool (durationSec session) 3600) eqn:E1;
      destruct (Qle_bool (distractedEpisodes session) 5) eqn:E2;
      destruct (negb (Qle_bool (sleepySec session)
                               (durationSec session * 0.2)));
      cbn [negb pushIf app]; unfold Array_slice; cbn;
      eexists; eexists; (split; [reflexivity|]);
      (split; [cbn; lia|]); (split; [exact Hfirst|]);
      intros L1 L2;
      try (apply Qle_bool_iff in E1; lra);
      try (apply Qle_bool_iff in E2; lra);
      reflexivity.
Qed.

Lemma generateTips_shows_at_most_three_witness :
  exists first,
    generateTips longTiredSession [] = Some (first :: [tipPomodoro; tipDistractions]).
Proof.
  destruct (proj2 (generateTips_shows_at_most_three longTiredSession []))
    as (first & rest & Hg & _ & _ & Hrest).
  - intros H. vm_compute in H. discriminate.
  - exists first. rewrite Hg, Hrest; [reflexivity| |]; vm_compute; reflexivity.
Defined.

(* ------------------------------------------------------------------------- *)
(** ** The engine on an unchecked configuration *)
(* ------------------------------------------------------------------------- *)

(** *** The two embeddings agree on finite configurations *)

Lemma Raw_adjust_lift (c : bool) (d x : number) :
  Raw.adjust c d (JSNumber.Fin x) = JSNumber.Fin (adjust c d x).
Proof. now destruct c. Qed.

Lemma Raw_weightOf_lift (w : StateWeights) (st : EngagementState) :
  Raw.weightOf (liftWeights w) st = JSNumber.Fin (weightOf w st).
Proof. now destruct st. Qed.

Lemma Raw_score_lift (c : EngagementConfig) (st : EngagementState)
    (cvMetrics : CVMetrics) (handMetrics : HandMetrics) :
  Raw.calculateEngagementScore (liftConfig c) st cvMetrics handMetrics
  = Some (JSNumber.Fin (calculateEngagementScore c st cvMetrics handMetrics)).
Proof.
  unfold Raw.calculateEngagementScore, calculateEngagementScore.
  cbn [liftConfig Raw.stateWeights Raw.baselineScore liftNumber
       JSNumber.ToNumber].
  rewrite Raw_weightOf_lift. cbn [JSNumber.add].
  now rewrite !Raw_adjust_lift.
Qed.

Lemma Raw_state_lift (c : EngagementConfig) (h : StateHistory)
    (cvMetrics : CVMetrics) (handMetrics : HandMetrics) (ts : number) :
  Raw.determineEngagementState (liftConfig c) h cvMetrics handMetrics ts
  = determineEngagementState c h cvMetrics handMetrics ts.
Proof. reflexivity. Qed.

Lemma Raw_pushScore_lift (hist : list number) (s : number) :
  Raw.pushScore (List.map JSNumber.Fin hist) (JSNumber.Fin s)
  = List.map JSNumber.Fin (pushScore hist s).
Proof.
  unfold Raw.pushScore, pushScore.
  change [JSNumber.Fin s] with (List.map JSNumber.Fin [s]).
  rewrite <- map_app, length_map.
  destruct (Nat.ltb maxHistoryLength (List.length (hist ++ [s])));
    [|reflexivity].
  now destruct (hist ++ [s]).
Qed.

Lemma Raw_spread_lift (base : EngagementConfig) (p : PartialEngagementConfig) :
  Raw.spread (liftConfig base) (liftPartial p) = liftConfig (spread base p).
Proof.
  destruct p as [[a|] [b|] [c|] [d|] [w|]]; reflexivity.
Qed.

Lemma Raw_processFrame_lift (e : EngagementEngine) (cvMetrics : CVMetrics)
    (handMetrics : HandMetrics) (ts : number) :
  Raw.processFrame (liftEngine e) cvMetrics handMetrics ts
  = Raw.FrameReturned
      (liftMetrics (fst (processFrame e cvMetrics handMetrics ts)))
      (liftEngine (snd (processFrame e cvMetrics handMetrics ts))).
Proof.
  unfold Raw.processFrame, processFrame.
  cbn [liftEngine Raw.config Raw.stateHistory Raw.scoreHistory fst snd].
  rewrite Raw_state_lift, Raw_score_lift.
  unfold liftMetrics, liftEngine. cbn [state score confidence timestamp
                                       config stateHistory scoreHistory].
  now rewrite Raw_pushScore_lift.
Qed.

(** On a configuration of finite numbers the engine with the unchecked
    configuration is the engine of the first embedding: the constructor
    builds the same engine, no tick throws, and every tick returns the same
    record and leaves the same engine. *)
Theorem Raw_processFrames_refines :
  (forall p : PartialEngagementConfig,
      Raw.newEngine (liftPartial p) = liftEngine (newEngine p))
  /\ (forall (fs : list Frame) (e : EngagementEngine),
        Raw.processFrames (liftEngine e) fs
        = (List.map (fun m => Some (liftMetrics m)) (fst (processFrames e fs)),
           liftEngine (snd (processFrames e fs)))).
Proof.
  split.
  - intros p. unfold Raw.newEngine, newEngine, liftEngine.
    cbn [config stateHistory scoreHistory List.map].
    now rewrite <- Raw_spread_lift.
  - induction fs as [|f r IH]; intros e; [reflexivity|].
    cbn [Raw.processFrames processFrames].
    rewrite Raw_processFrame_lift. cbn [Raw.engineAfter Raw.returned].
    destruct (processFrame e (f_cv f) (f_hands f) (f_time f)) as [m e1].
    cbn [fst snd]. rewrite IH.
    destruct (processFrames e1 r) as [ms e2]. reflexivity.
Qed.

(** *** The score on any configuration *)

Lemma JSNumber_add_Fin_defined (x : JSNumber.t) (d : number) :
  x <> JSNumber.NaN -> JSNumber.add x (JSNumber.Fin d) <> JSNumber.NaN.
Proof. destruct x; cbn; congruence. Qed.

Lemma Raw_adjust_defined (c : bool) (d : number) (x : JSNumber.t) :
  x <> JSNumber.NaN -> Raw.adjust c d x <> JSNumber.NaN.
Proof.
  intros H. unfold Raw.adjust. destruct c; [|exact H].
  now apply JSNumber_add_Fin_defined.
Qed.

(** The clamp of a number other than NaN is a whole number from 0 to 100:
    the rounded value when that is in the range, else the nearer end. *)
Lemma JSNumber_clamp (x : JSNumber.t) :
  x <> JSNumber.NaN ->
  JSNumber.wholePercent
    (JSNumber.max (JSNumber.Fin 0)
       (JSNumber.min (JSNumber.Fin 100) (JSNumber.round x))).
Proof.
  intros H. destruct x as [q| | |]; [| congruence | |].
  - destruct (clamp_integer 0 100 q) as (z & Hz & Hr); [lia|].
    exists z. split; [|exact Hr]. cbn. f_equal. exact Hz.
  - exists 100%Z. split; [reflexivity|lia].
  - exists 0%Z. split; [reflexivity|lia].
Qed.

Lemma JSNumber_clamp_NaN :
  JSNumber.max (JSNumber.Fin 0)
    (JSNumber.min (JSNumber.Fin 100) (JSNumber.round JSNumber.NaN))
  = JSNumber.NaN.
Proof. reflexivity. Qed.

Lemma Raw_score_defined (cfg : Raw.EngagementConfig) (st : EngagementState)
    (cvMetrics : CVMetrics) (handMetrics : HandMetrics) :
  Raw.scoreDefined cfg ->
  exists sc,
    Raw.calculateEngagementScore cfg st cvMetrics handMetrics = Some sc
    /\ JSNumber.wholePercent sc.
Proof.
  intros (w & Hw & Hsum). unfold Raw.calculateEngagementScore. rewrite Hw.
  eexists. split; [reflexivity|]. cbv zeta.
  apply JSNumber_clamp. repeat apply Raw_adjust_defined. apply Hsum.
Qed.

Lemma Raw_processFrame_defined (e : Raw.EngagementEngine)
    (cvMetrics : CVMetrics) (handMetrics : HandMetrics) (ts : number) :
  Raw.scoreDefined (Raw.config e) ->
  exists m e',
    Raw.processFrame e cvMetrics handMetrics ts = Raw.FrameReturned m e'
    /\ JSNumber.wholePercent (Raw.score m)
    /\ Raw.config e' = Raw.config e
    /\ Raw.scoreHistory e' = Raw.pushScore (Raw.scoreHistory e) (Raw.score m).
Proof.
  intros Hd. unfold Raw.processFrame.
  destruct (Raw_score_defined (Raw.config e)
              (Raw.determineEngagementState (Raw.config e)
                 (updateStateHistory (Raw.stateHistory e) cvMetrics ts)
                 cvMetrics handMetrics ts) cvMetrics handMetrics Hd)
    as (sc & -> & Hsc).
  eexists. eexists. split; [reflexivity|]. cbn. now repeat split.
Qed.

Lemma Raw_processFrame_confidence (e : Raw.EngagementEngine)
    (cvMetrics : CVMetrics) (handMetrics : HandMetrics) (ts : number)
    (m : Raw.EngagementMetrics) :
  Raw.returned (Raw.processFrame e cvMetrics handMetrics ts) = Some m ->
  0 <= Raw.confidence m <= 1.
Proof.
  unfold Raw.processFrame.
  destruct (Raw.calculateEngagementScore _ _ _ _); [|discriminate].
  cbn. intros [= <-]. cbn.
  generalize (confidence_bounds cvMetrics handMetrics). lra.
Qed.

Lemma Raw_engineAfter_config (e : Raw.EngagementEngine)
    (cvMetrics : CVMetrics) (handMetrics : HandMetrics) (ts : number) :
  Raw.config (Raw.engineAfter (Raw.processFrame e cvMetrics handMetrics ts))
  = Raw.config e.
Proof.
  unfold Raw.processFrame.
  now destruct (Raw.calculateEngagementScore _ _ _ _).
Qed.

Lemma Raw_processFrames_In (fs : list Frame) :
  forall (e : Raw.EngagementEngine) (r : option Raw.EngagementMetrics),
    In r (fst (Raw.processFrames e fs)) ->
    exists e' f,
      In f fs /\ Raw.config e' = Raw.config e
      /\ r = Raw.returned (Raw.processFrame e' (f_cv f) (f_hands f) (f_time f)).
Proof.
  induction fs as [|f fs IH]; intros e r; cbn [Raw.processFrames].
  - intros [].
  - destruct (Raw.processFrames
                (Raw.engineAfter
                   (Raw.processFrame e (f_cv f) (f_hands f) (f_time f))) fs)
      as [ms e2] eqn:E2.
    cbn [fst In]. intros [<- | Hin].
    + exists e, f. split; [now left|]. now split.
    + destruct (IH (Raw.engineAfter
                      (Raw.processFrame e (f_cv f) (f_hands f) (f_time f))) r)
        as (e' & f' & Hf' & Hc & Hr); [now rewrite E2|].
      exists e', f'. split; [now right|]. split; [|exact Hr].
      now rewrite Hc, Raw_engineAfter_config.
Qed.

Lemma liftConfig_scoreDefined (c : EngagementConfig) :
  Raw.scoreDefined (liftConfig c).
Proof.
  exists (liftWeights (stateWeights c)). split; [reflexivity|].
  intros st. destruct st; discriminate.
Qed.

(** With [baselineScore] present and [undefined], or NaN, the first record
    the engine returns has the score NaN: the clamp lets NaN through, and the
    score is no number between 0 and 100. *)
Lemma C9_score_is_NaN_without_a_baseline :
  (exists m e',
      Raw.processFrame (Raw.newEngine baselineUndefined)
        (f_cv (recoveredFrame 1000)) (f_hands (recoveredFrame 1000)) 1000
      = Raw.FrameReturned m e'
      /\ Raw.state m = engaged
      /\ Raw.score m = JSNumber.NaN
      /\ ~ JSNumber.wholePercent (Raw.score m))
  /\ (exists m e',
        Raw.processFrame (Raw.newEngine baselineNaN)
          (f_cv (recoveredFrame 1000)) (f_hands (recoveredFrame 1000)) 1000
        = Raw.FrameReturned m e'
        /\ Raw.score m = JSNumber.NaN
        /\ ~ JSNumber.wholePercent (Raw.score m)).
Proof.
  split.
  - eexists. eexists. split; [reflexivity|]. split; [reflexivity|].
    split; [reflexivity|]. intros (z & H & _). discriminate H.
  - eexists. eexists. split; [reflexivity|].
    split; [reflexivity|]. intros (z & H & _). discriminate H.
Qed.

(** C9 (amended).  For every sequence of frames and every state of the
    engine: the confidence of every record [processFrame] returns is between
    0 and 1, whatever the configuration; and when the configuration has its
    [stateWeights] and [baselineScore] plus each state weight is not NaN (as
    in every configuration of finite numbers), every tick returns a record
    and its score is a whole number between 0 and 100. *)
Theorem C9_score_in_range_when_it_is_a_number :
  (forall (e : Raw.EngagementEngine) (fs : list Frame)
          (m : Raw.EngagementMetrics),
      In (Some m) (fst (Raw.processFrames e fs)) ->
      0 <= Raw.confidence m <= 1)
  /\ (forall (e : Raw.EngagementEngine) (fs : list Frame),
        Raw.scoreDefined (Raw.config e) ->
        Forall (fun r => exists m, r = Some m
                                   /\ JSNumber.wholePercent (Raw.score m)
                                   /\ 0 <= Raw.confidence m <= 1)
               (fst (Raw.processFrames e fs)))
  /\ (forall c : EngagementConfig, Raw.scoreDefined (liftConfig c)).
Proof.
  split; [|split].
  - intros e fs m Hin.
    destruct (Raw_processFrames_In fs e _ Hin) as (e' & f & _ & _ & Hr).
    now apply (Raw_processFrame_confidence e' (f_cv f) (f_hands f) (f_time f)).
  - intros e fs Hd. apply Forall_forall. intros r Hin.
    destruct (Raw_processFrames_In fs e _ Hin) as (e' & f & _ & Hc & ->).
    rewrite <- Hc in Hd.
    destruct (Raw_processFrame_defined e' (f_cv f) (f_hands f) (f_time f) Hd)
      as (m & e2 & Hrun & Hsc & _).
    exists m. rewrite Hrun. cbn [Raw.returned]. split; [reflexivity|].
    split; [exact Hsc|].
    apply (Raw_processFrame_confidence e' (f_cv f) (f_hands f) (f_time f)).
    now rewrite Hrun.
  - apply liftConfig_scoreDefined.
Qed.

Lemma C9_score_in_range_when_it_is_a_number_witness :
  Forall (fun r => exists m, r = Some m
                             /\ JSNumber.wholePercent (Raw.score m)
                             /\ 0 <= Raw.confidence m <= 1)
         (fst (Raw.processFrames (Raw.newEngine Raw.emptyPartial)
                 [absentAndEverythingElse 5000; recoveredFrame 6000])).
Proof.
  apply (proj1 (proj2 C9_score_in_range_when_it_is_a_number)
           (Raw.newEngine Raw.emptyPartial)
           [absentAndEverythingElse 5000; recoveredFrame 6000]).
  eexists. split; [reflexivity|]. intros st. destruct st; discriminate.
Defined.

(** *** The average on any configuration *)

Lemma Array_slice_map {A B} (f : A -> B) (l : list A) (start : number)
    (stop : option number) :
  Array_slice (List.map f l) start stop = List.map f (Array_slice l start stop).
Proof.
  unfold Array_slice. rewrite length_map, skipn_map. apply firstn_map.
Qed.

Lemma Raw_sumScores_from (l : list number) :
  forall a, fold_left JSNumber.add (List.map JSNumber.Fin l) (JSNumber.Fin a)
            = JSNumber.Fin (fold_left (fun sum sc => sum + sc) l a).
Proof.
  induction l as [|x r IH]; intros a; [reflexivity|]. cbn. apply IH.
Qed.

Lemma Raw_sumScores_lift (l : list number) :
  Raw.sumScores (List.map JSNumber.Fin l) = JSNumber.Fin (sumScores l).
Proof. apply Raw_sumScores_from. Qed.

Lemma Raw_div_lift (a b avg : number) :
  divide a b = Some avg ->
  JSNumber.div (JSNumber.Fin a) (JSNumber.Fin b) = JSNumber.Fin avg.
Proof.
  unfold divide, JSNumber.div.
  destruct (Qeq_bool b 0); [discriminate|]. now intros [= <-].
Qed.

Lemma pushScore_Forall (P : number -> Prop) (hist : list number) (s : number) :
  Forall P hist -> P s -> Forall P (pushScore hist s).
Proof.
  intros Hh Hs. unfold pushScore.
  assert (H : Forall P (hist ++ [s])) by (apply Forall_app; auto).
  destruct (Nat.ltb maxHistoryLength (List.length (hist ++ [s])));
    [|exact H].
  destruct (hist ++ [s]); [exact H|]. now inversion H.
Qed.

Lemma pushScore_nonempty (hist : list number) (s : number) :
  pushScore hist s <> [].
Proof.
  unfold pushScore.
  destruct (Nat.ltb_spec maxHistoryLength (List.length (hist ++ [s])))
    as [L | L].
  - intros H. apply (f_equal (@List.length _)) in H.
    destruct (hist ++ [s]) as [|x r]; cbn in *; [lia|].
    unfold maxHistoryLength in L. cbn in H. lia.
  - destruct hist; discriminate.
Qed.

Lemma Raw_processFrames_history (fs : list Frame) :
  forall e : Raw.EngagementEngine,
    Raw.scoreDefined (Raw.config e) -> Raw_historyInRange e ->
    Raw_historyInRange (snd (Raw.processFrames e fs))
    /\ (fs <> [] -> Raw.scoreHistory (snd (Raw.processFrames e fs)) <> []).
Proof.
  induction fs as [|f fs IH]; intros e Hd Hh.
  - split; [exact Hh|congruence].
  - cbn [Raw.processFrames].
    destruct (Raw_processFrame_defined e (f_cv f) (f_hands f) (f_time f) Hd)
      as (m & e1 & Hrun & (z & Hz & Hz0 & Hz1) & Hc & Hs).
    rewrite Hrun. cbn [Raw.engineAfter Raw.returned].
    destruct Hh as (qs & Hqs & Hlo & Hhi).
    assert (Hs1 : Raw.scoreHistory e1
                  = List.map JSNumber.Fin (pushScore qs (inject_Z z))).
    { now rewrite Hs, Hqs, Hz, Raw_pushScore_lift. }
    assert (Hh1 : Raw_historyInRange e1).
    { exists (pushScore qs (inject_Z z)). split; [exact Hs1|].
      split; apply pushScore_Forall; try assumption.
      - change 0 with (inject_Z 0). now rewrite <- Zle_Qle.
      - change 100 with (inject_Z 100). now rewrite <- Zle_Qle. }
    assert (Hd1 : Raw.scoreDefined (Raw.config e1)) by now rewrite Hc.
    destruct (IH e1 Hd1 Hh1) as [IH1 IH2].
    destruct (Raw.processFrames e1 fs) as [ms e2] eqn:E2. cbn [snd] in *.
    split; [exact IH1|]. intros _.
    destruct fs as [|g fs]; [|apply IH2; discriminate].
    cbn in E2. injection E2 as _ <-. rewrite Hs1.
    intros H. apply map_eq_nil in H. now apply pushScore_nonempty in H.
Qed.

(** X2.  Once a new engine has processed at least one frame,
    [getAverageScore] with a positive window returns a number between 0 and
    100, for every configuration that has its [stateWeights] and in which
    [baselineScore] plus each state weight is not NaN: so for every finite
    baseline score and weights, and whatever the duration thresholds are. *)
Theorem getAverageScore_in_range :
  forall (p : Raw.PartialEngagementConfig) (fs : list Frame) (w : number),
    Raw.scoreDefined (Raw.config (Raw.newEngine p)) ->
    fs <> [] -> 0 < w ->
    exists avg,
      Raw.getAverageScore (snd (Raw.processFrames (Raw.newEngine p) fs)) w
      = JSNumber.Num (JSNumber.Fin avg)
      /\ 0 <= avg <= 100.
Proof.
  intros p fs w Hd Hne Hw.
  destruct (Raw_processFrames_history fs (Raw.newEngine p) Hd)
    as [(qs & Hqs & Hlo & Hhi) Hnonempty].
  { exists []. repeat split; constructor. }
  specialize (Hnonempty Hne). rewrite Hqs in Hnonempty.
  assert (Hq : qs <> []) by (intros ->; now apply Hnonempty).
  unfold Raw.getAverageScore. rewrite Hqs, length_map.
  assert (Hn : (0 < List.length qs)%nat)
    by (destruct qs; [congruence|cbn; lia]).
  destruct (Math_min_window w _ Hw Hn) as [Hpos Hle].
  set (ws := Math_min w (of_nat (List.length qs))) in *.
  destruct (Qeq_bool ws 0) eqn:E; [apply Qeq_bool_eq in E; lra|].
  rewrite Array_slice_map, length_map, Raw_sumScores_lift.
  destruct (slice_recent _ _ Hpos Hle) as (k & Hk & ->).
  destruct (mean_bounds 0 100 (skipn k qs)) as (avg & Hdiv & Hb).
  - intros Hnil. apply (f_equal (@List.length _)) in Hnil.
    rewrite length_skipn in Hnil. cbn in Hnil. lia.
  - now apply Forall_skipn.
  - now apply Forall_skipn.
  - exists avg. split; [|exact Hb]. f_equal. now apply Raw_div_lift.
Qed.

Lemma getAverageScore_in_range_witness :
  exists avg,
    Raw.getAverageScore
      (snd (Raw.processFrames (Raw.newEngine Raw.emptyPartial)
              [recoveredFrame 1000; absentFrame 2000])) 10
    = JSNumber.Num (JSNumber.Fin avg)
    /\ 0 <= avg <= 100.
Proof.
  apply (getAverageScore_in_range Raw.emptyPartial
           [recoveredFrame 1000; absentFrame 2000] 10).
  - eexists. split; [reflexivity|]. intros st. destruct st; discriminate.
  - discriminate.
  - reflexivity.
Defined.

(** With [baselineScore] NaN every score is NaN, and so is the average. *)
Lemma getAverageScore_NaN_baseline :
  Raw.getAverageScore
    (snd (Raw.processFrames (Raw.newEngine baselineNaN)
            [recoveredFrame 1000; absentFrame 2000])) 10
  = JSNumber.Num JSNumber.NaN.
Proof. reflexivity. Qed.
